(** * Ultraloader, [ultra/bulk2.py]: the bulk job planner, downloader and
    ingest uploader, embedded as state-passing functions over an explicit
    world (HTTP history, file system, output streams, sleeps).

    Conventions of the embedding.
    - A Python [int] is a [Z].  A Python [str] is a [string] holding the
      UTF-8 encoding of the text, a [bytes] object is a [string] holding the
      bytes; [bytes.decode()] is then the UTF-8 validity check and writing
      text through a UTF-8 text file stores the string unchanged (POSIX
      newline handling, UTF-8 locale).
    - An exception is a value of [Exn]; a call yields [Return v] or
      [Raise e] together with the world it leaves behind, so that what was
      printed, requested or written before a raise stays observable.
    - The HTTP server, the chunking collaborator [combine_files] of
      [ultra.file_operations], [cpu_count], [gettempdir] and [os.getenv]
      are the environment [Env]; credentials and the construction and
      closing of clients are plumbing and are left out, every call uses
      the one client.
    - The downloads of the worker pool of [pull_batches] go on turn by
      turn in the order that the scheduler [schedule] of the environment
      chooses, so that a property proved for every environment holds for
      every interleaving of their requests.
    - [int / int] is the correctly rounded float quotient and reading a
      file in text mode translates the line ends, as Python does. *)

From stdpp Require Import base gmap strings list pretty.
From Stdlib Require Import Ascii ZArith Lia.

(** ** Python values and exceptions *)

(** The values that occur in JSON documents, request parameters and printed
    lines.  [VObj] stands for any other object (a nested list or dict), kept
    with the text [str()] gives for it. *)
Inductive Value :=
| VNone
| VBool (b : bool)
| VInt (z : Z)
| VStr (s : string)
| VBytes (b : string)
| VObj (text : string).

#[global] Instance Value_eq_dec : EqDecision Value.
Proof. solve_decision. Defined.

(** What [response.json()] yields: a dict, or some other JSON value. *)
Inductive Json :=
| JDict (d : gmap string Value)
| JOther (v : Value).

Inductive HttpError :=
| ReadTimeout
| OtherTransportError (name : string).

Inductive OSErrorKind :=
| FileNotFound
| FileExists
| NotADirectory
| IsADirectory.

Inductive Exn :=
| Exception (msg : string)
| RuntimeError (msg : string)
| SystemExit (code : option Z)
| KeyError (key : string)
| AttributeError (msg : string)
| TypeError (msg : string)
| ValueError (msg : string)
| ZeroDivisionError
| OverflowError
| ValidationError (field : string)
| JSONDecodeError
| UnicodeDecodeError
| OSError (kind : OSErrorKind) (path : list string)
| TransportError (e : HttpError)
| RetryError (last : HttpError)
| ProxyException (cause : Exn).

Inductive Result (A : Type) :=
| Return (a : A)
| Raise (e : Exn).
Arguments Return {A} a.
Arguments Raise {A} e.

(** ** Strings *)

Module Str.

(** [str()] of a value inside an f-string. *)
Definition of_value (v : Value) : string :=
  match v with
  | VNone => "None"
  | VBool true => "True"
  | VBool false => "False"
  | VInt z => pretty z
  | VStr s => s
  | VBytes b => b
  | VObj text => text
  end.

Definition lower_ascii (a : ascii) : ascii :=
  let n := Ascii.N_of_ascii a in
  if ((65 <=? n) && (n <=? 90))%N then Ascii.ascii_of_N (n + 32) else a.

(** [str.lower()], on the ASCII letters. *)
Fixpoint lower (s : string) : string :=
  match s with
  | EmptyString => EmptyString
  | String a s' => String (lower_ascii a) (lower s')
  end.

(** [s.split(sep)] for a one-character separator. *)
Fixpoint split_on (sep : ascii) (s : string) : list string :=
  match s with
  | EmptyString => [EmptyString]
  | String a s' =>
      if decide (a = sep) then EmptyString :: split_on sep s'
      else match split_on sep s' with
           | h :: t => String a h :: t
           | [] => [String a EmptyString]
           end
  end.

(** [sep.join(parts)]. *)
Fixpoint join (sep : string) (parts : list string) : string :=
  match parts with
  | [] => ""
  | [p] => p
  | p :: rest => p +:+ sep +:+ join sep rest
  end.

(** [c in s] for a character [c]. *)
Fixpoint contains (c : ascii) (s : string) : bool :=
  match s with
  | EmptyString => false
  | String a s' => bool_decide (a = c) || contains c s'
  end.

Definition is_cont (b : N) : bool := ((0x80 <=? b) && (b <=? 0xBF))%N.
Definition between (lo hi b : N) : bool := ((lo <=? b) && (b <=? hi))%N.

(** Well-formed UTF-8 byte sequences (Unicode, table 3-7): no overlong
    form, no surrogate, nothing above U+10FFFF. *)
Fixpoint utf8_valid (l : list N) : bool :=
  match l with
  | [] => true
  | b0 :: t0 =>
      if (b0 <? 0x80)%N then utf8_valid t0
      else if between 0xC2 0xDF b0 then
        match t0 with
        | b1 :: t1 => is_cont b1 && utf8_valid t1
        | _ => false
        end
      else if between 0xE0 0xEF b0 then
        match t0 with
        | b1 :: b2 :: t2 =>
            (if (b0 =? 0xE0)%N then between 0xA0 0xBF b1
             else if (b0 =? 0xED)%N then between 0x80 0x9F b1
             else is_cont b1)
            && is_cont b2 && utf8_valid t2
        | _ => false
        end
      else if between 0xF0 0xF4 b0 then
        match t0 with
        | b1 :: b2 :: b3 :: t3 =>
            (if (b0 =? 0xF0)%N then between 0x90 0xBF b1
             else if (b0 =? 0xF4)%N then between 0x80 0x8F b1
             else is_cont b1)
            && is_cont b2 && is_cont b3 && utf8_valid t3
        | _ => false
        end
      else false
  end.

Definition byte_values (b : string) : list N :=
  map Ascii.N_of_ascii (String.list_ascii_of_string b).

(** [b.decode()]: the text of a byte string, strict UTF-8. *)
Definition decode (b : string) : Result string :=
  if utf8_valid (byte_values b) then Return b else Raise UnicodeDecodeError.

(** What reading in text mode makes of the line ends (universal newlines,
    [newline=None]): [\r\n] and a lone [\r] become [\n]. *)
Fixpoint universal_newlines (s : string) : string :=
  match s with
  | EmptyString => EmptyString
  | String "013" (String "010" s' as rest) => universal_newlines rest
  | String "013" s' => String "010" (universal_newlines s')
  | String a s' => String a (universal_newlines s')
  end.

Definition is_space (a : ascii) : bool :=
  let n := Ascii.N_of_ascii a in ((n =? 32) || between 9 13 n)%N.

Fixpoint lstrip (s : string) : string :=
  match s with
  | String a s' => if is_space a then lstrip s' else s
  | EmptyString => EmptyString
  end.

Definition digit (a : ascii) : option Z :=
  let n := Ascii.N_of_ascii a in
  if between 48 57 n then Some (Z.of_N n - 48)%Z else None.

(** The digits of a decimal literal, most significant first; a single
    underscore may separate two digits; trailing white space is
    allowed.  [seen] says that the previous character was a digit. *)
Fixpoint digits (s : string) (seen : bool) (acc : Z) : option Z :=
  match s with
  | EmptyString => if seen then Some acc else None
  | String a s' =>
      match digit a with
      | Some d => digits s' true (10 * acc + d)%Z
      | None =>
          if decide (a = "_"%char) then
            match s' with
            | String a' _ =>
                if seen && bool_decide (is_Some (digit a'))
                then digits s' false acc else None
            | EmptyString => None
            end
          else if seen && bool_decide (lstrip s = EmptyString)
               then Some acc else None
      end
  end.

(** [int(s)] for a string, base ten. *)
Definition to_int (s : string) : Result Z :=
  let body := lstrip s in
  let parsed :=
    match body with
    | String "-" s' => Z.opp <$> digits s' false 0
    | String "+" s' => digits s' false 0
    | _ => digits body false 0
    end in
  match parsed with
  | Some z => Return z
  | None => Raise (ValueError ("invalid literal for int() with base 10: " +:+ s))
  end.

End Str.

(** ** Paths ([pathlib], POSIX flavour) and the file system *)

Module Pathlib.

(** A path is the list of its parts, as [PurePosixPath.parts] has them:
    an absolute path starts with the part ["/"] (or ["//"]), a relative
    path is taken from the current directory, which is the empty list. *)
Definition anchor (s : string) : list string :=
  match s with
  | String "/" (String "/" (String "/" _)) => ["/"]
  | String "/" (String "/" _) => ["//"]
  | String "/" _ => ["/"]
  | _ => []
  end.

Definition is_absolute (s : string) : bool :=
  match s with
  | String "/" _ => true
  | _ => false
  end.

Definition parse (s : string) : list string :=
  anchor s ++ filter (fun c => c <> "" /\ c <> ".") (Str.split_on "/" s).

(** [Path(p, s)] for a path [p] and a string [s]: an absolute [s]
    replaces [p]. *)
Definition joinpath (p : list string) (s : string) : list string :=
  if is_absolute s then parse s else p ++ parse s.

(** [Path(a, b, ...)] for strings. *)
Definition Path (args : list string) : list string :=
  fold_left joinpath args [].

Definition is_anchor (part : string) : bool :=
  bool_decide (part = "/") || bool_decide (part = "//").

(** [str(path)]. *)
Definition to_str (p : list string) : string :=
  match p with
  | [] => "."
  | a :: rest => if is_anchor a then a +:+ Str.join "/" rest
                 else Str.join "/" p
  end.

(** [path.parent]. *)
Definition parent (p : list string) : list string :=
  match p with
  | [] => []
  | [a] => if is_anchor a then [a] else []
  | _ => removelast p
  end.

End Pathlib.

Inductive Node :=
| Dir
| File (content : string).

#[global] Instance Node_eq_dec : EqDecision Node.
Proof. solve_decision. Defined.

Module FS.

(** The current directory and the roots always exist. *)
Definition node (fs : gmap (list string) Node) (p : list string) : option Node :=
  match p with
  | [] => Some Dir
  | [a] => if Pathlib.is_anchor a then Some Dir else fs !! p
  | _ => fs !! p
  end.

Definition exists_ (fs : gmap (list string) Node) (p : list string) : bool :=
  bool_decide (is_Some (node fs p)).

Definition is_dir (fs : gmap (list string) Node) (p : list string) : bool :=
  bool_decide (node fs p = Some Dir).

(** [os.mkdir(p)]. *)
Definition os_mkdir (p : list string) (fs : gmap (list string) Node)
  : Result unit * gmap (list string) Node :=
  match node fs (Pathlib.parent p) with
  | None => (Raise (OSError FileNotFound p), fs)
  | Some (File _) => (Raise (OSError NotADirectory p), fs)
  | Some Dir =>
      match node fs p with
      | Some _ => (Raise (OSError FileExists p), fs)
      | None => (Return (), <[p := Dir]> fs)
      end
  end.

(** [Path.mkdir(parents=..., exist_ok=...)]: on [FileNotFoundError] with
    [parents] set, the parent is made first ([parents=True,
    exist_ok=True]) and the call repeated with [parents=False]; any other
    [OSError] is swallowed when [exist_ok] holds and the path is a
    directory.  The recursion climbs one part per call, [fuel] bounds
    it. *)
Fixpoint mkdir_fuel (fuel : nat) (parents exist_ok : bool) (p : list string)
         (fs : gmap (list string) Node) : Result unit * gmap (list string) Node :=
  match os_mkdir p fs with
  | (Return u, fs') => (Return u, fs')
  | (Raise (OSError FileNotFound q), _) =>
      if negb parents || bool_decide (Pathlib.parent p = p)
      then (Raise (OSError FileNotFound q), fs)
      else match fuel with
           | O => (Raise (OSError FileNotFound q), fs)
           | S fuel' =>
               match mkdir_fuel fuel' true true (Pathlib.parent p) fs with
               | (Return _, fs1) => mkdir_fuel fuel' false exist_ok p fs1
               | (Raise e, fs1) => (Raise e, fs1)
               end
           end
  | (Raise e, _) =>
      if negb exist_ok || negb (is_dir fs p) then (Raise e, fs)
      else (Return (), fs)
  end.

Definition mkdir (parents exist_ok : bool) (p : list string)
           (fs : gmap (list string) Node) : Result unit * gmap (list string) Node :=
  mkdir_fuel (2 * length p) parents exist_ok p fs.

(** [shutil.rmtree(p)]: the directory and everything below it. *)
Definition rmtree (p : list string) (fs : gmap (list string) Node)
  : gmap (list string) Node :=
  filter (fun kv => ~ (p `prefix_of` kv.1)) fs.

(** The file at [p] made to hold [text], as [open(p, "w")], [write(text)]
    and close do. *)
Definition write_text (p : list string) (text : string)
           (fs : gmap (list string) Node) : Result unit * gmap (list string) Node :=
  match node fs p with
  | Some Dir => (Raise (OSError IsADirectory p), fs)
  | _ =>
      match node fs (Pathlib.parent p) with
      | None => (Raise (OSError FileNotFound p), fs)
      | Some (File _) => (Raise (OSError NotADirectory p), fs)
      | Some Dir => (Return (), <[p := File text]> fs)
      end
  end.

(** [open(p, "w")] alone: the file is created, or emptied. *)
Definition open_w (p : list string) (fs : gmap (list string) Node)
  : Result unit * gmap (list string) Node :=
  write_text p "" fs.

(** [open(p, "r")] followed by [read()]: the bytes of the file are
    decoded and the line ends translated. *)
Definition read_text (p : list string) (fs : gmap (list string) Node)
  : Result string :=
  match node fs p with
  | None => Raise (OSError FileNotFound p)
  | Some Dir => Raise (OSError IsADirectory p)
  | Some (File content) =>
      match Str.decode content with
      | Return text => Return (Str.universal_newlines text)
      | Raise e => Raise e
      end
  end.

End FS.

(** ** HTTP, the world and the environment *)

Inductive Method := GET | POST | HEAD | PUT | PATCH.

#[global] Instance Method_eq_dec : EqDecision Method.
Proof. solve_decision. Defined.

Inductive Body :=
| NoBody
| JsonBody (fields : gmap string Value)
| ContentBody (text : string).

Record Request := {
  method : Method;
  url : string;
  params : gmap string Value;
  body : Body;
}.

(** [json] is what [json.loads] makes of [content], [None] when the body
    is not a JSON document; header names are in lower case. *)
Record Response := {
  status_code : Z;
  headers : gmap string string;
  content : string;
  json : option Json;
}.

Inductive Outcome :=
| Responded (r : Response)
| Failed (e : HttpError).

Record World := {
  history : list (Request * Outcome);
  fs : gmap (list string) Node;
  stderr : list (list Value);
  stdout : list (list Value);
  sleeps : list Z;
}.

(** The result of [ultra.file_operations.combine_files]. *)
Record FileTask := {
  task_status : string;
  task_message : string;
  task_payload : list string;
}.

(** [net h r] is what the transport delivers for request [r] issued after
    the calls [h]; [combine_files path_or_file pattern output_directory
    file_size_limit] is the chunking collaborator, acting on the file
    system.  [schedule h k] is the choice of the scheduler of the worker
    pool when the calls [h] have been made and [k] downloads are under
    way: [Some i] lets the [i]-th of them (modulo [k]) go on, [None] lets
    the parent go on, which ends the pool once it has read a failed
    result.  [future_address h] is the text of [id(future)] in [repr] of
    the future of the last attempt, as [%#x] prints it. *)
Record Env := {
  net : list (Request * Outcome) -> Request -> Outcome;
  combine_files : string -> string -> list string -> Z ->
                  gmap (list string) Node -> Result FileTask * gmap (list string) Node;
  cpu_count : Z;
  gettempdir : string;
  getenv : string -> option string;
  instance_url : string;
  schedule : list (Request * Outcome) -> nat -> option nat;
  future_address : list (Request * Outcome) -> string;
}.

(** ** The monad of calls: state passing with exceptions *)

Definition M (A : Type) : Type := World -> Result A * World.

Definition ret {A} (a : A) : M A := fun w => (Return a, w).
Definition raise {A} (e : Exn) : M A := fun w => (Raise e, w).
Definition bind {A B} (c : M A) (k : A -> M B) : M B :=
  fun w => match c w with
           | (Return a, w') => k a w'
           | (Raise e, w') => (Raise e, w')
           end.
Definition lift {A} (r : Result A) : M A := fun w => (r, w).

Declare Scope py_scope.
Delimit Scope py_scope with py.
Notation "'let!' x ':=' c 'in' k" := (bind c (fun x => k))
  (at level 10, x pattern, c at level 100, k at level 200) : py_scope.
Notation "c ';;' k" := (bind c (fun _ => k))
  (at level 100, k at level 200, right associativity) : py_scope.
Local Open Scope py_scope.

(** A comprehension or [map] whose body is a call. *)
Fixpoint for_each {A B} (f : A -> M B) (l : list A) : M (list B) :=
  match l with
  | [] => ret []
  | a :: rest => let! b := f a in let! bs := for_each f rest in ret (b :: bs)
  end.

Definition print_stderr (items : list Value) : M unit :=
  fun w => (Return (),
            {| history := history w; fs := fs w; stderr := stderr w ++ [items];
               stdout := stdout w; sleeps := sleeps w |}).

Definition print_stdout (items : list Value) : M unit :=
  fun w => (Return (),
            {| history := history w; fs := fs w; stderr := stderr w;
               stdout := stdout w ++ [items]; sleeps := sleeps w |}).

Definition sleep (seconds : Z) : M unit :=
  fun w => (Return (),
            {| history := history w; fs := fs w; stderr := stderr w;
               stdout := stdout w; sleeps := sleeps w ++ [seconds] |}).

(** A file-system operation run on the world's file system. *)
Definition on_fs {A} (op : gmap (list string) Node -> Result A * gmap (list string) Node)
  : M A :=
  fun w => let '(r, fs') := op (fs w) in
           (r, {| history := history w; fs := fs'; stderr := stderr w;
                  stdout := stdout w; sleeps := sleeps w |}).

Definition record_call (c : Request * Outcome) (w : World) : World :=
  {| history := history w ++ [c]; fs := fs w; stderr := stderr w;
     stdout := stdout w; sleeps := sleeps w |}.

(** [status_code != 200 and status_code != 201]. *)
Definition not_ok (status : Z) : bool :=
  negb (status =? 200)%Z && negb (status =? 201)%Z.

(** [response.json()]. *)
Definition json_of (data : Response) : M Json :=
  match json data with
  | Some j => ret j
  | None => raise JSONDecodeError
  end.

(** [d.get(key)] on the result of [json()]. *)
Definition dict_get (j : Json) (key : string) : M Value :=
  match j with
  | JDict d => ret (default VNone (d !! key))
  | JOther _ => raise (AttributeError "object has no attribute 'get'")
  end.

(** An operand used as a number: [bool] is an [int]. *)
Definition as_int (v : Value) : M Z :=
  match v with
  | VInt z => ret z
  | VBool b => ret (if b then 1 else 0)%Z
  | _ => raise (TypeError "an integer is required")
  end.

(** [v == 0]. *)
Definition eq_zero (v : Value) : bool :=
  match v with
  | VInt z => (z =? 0)%Z
  | VBool b => negb b
  | _ => false
  end.

(** ** Floats: the division of two [int] and [math.ceil] *)

Module Float.

(** A finite [float]: the number [mantissa * 2 ^ exponent]. *)
Record float := { mantissa : Z; exponent : Z }.

(** The integer nearest to [a / b] for [0 <= a] and [0 < b], the even one
    of the two when [a / b] lies half way. *)
Definition nearest (a b : Z) : Z :=
  let q := (a / b)%Z in
  let r := (a mod b)%Z in
  if (2 * r <? b)%Z then q
  else if (b <? 2 * r)%Z then (q + 1)%Z
  else if Z.even q then q else (q + 1)%Z.

(** [b * 2 ^ l <= a], for an [l] of any sign. *)
Definition scaled_le (b l a : Z) : bool :=
  if (0 <=? l)%Z then (b * 2 ^ l <=? a)%Z else (b <=? a * 2 ^ (- l))%Z.

(** [floor(log2(a / b))] for [0 < a] and [0 < b]. *)
Definition log2_quotient (a b : Z) : Z :=
  let l := (Z.log2 a - Z.log2 b)%Z in
  if scaled_le b l a then l else (l - 1)%Z.

(** [a / b] for two [int]: the quotient correctly rounded to binary64 (53
    bits, exponents down to -1074, half way cases to even);
    [ZeroDivisionError] for [b = 0], [OverflowError] for a quotient that
    rounds beyond the largest float. *)
Definition true_div (a b : Z) : Result float :=
  if (b =? 0)%Z then Raise ZeroDivisionError
  else if (a =? 0)%Z then Return {| mantissa := 0; exponent := 0 |}
  else
    let sign := (Z.sgn a * Z.sgn b)%Z in
    let e := Z.max (log2_quotient (Z.abs a) (Z.abs b) - 52) (-1074) in
    let m := if (0 <=? e)%Z then nearest (Z.abs a) (Z.abs b * 2 ^ e)
             else nearest (Z.abs a * 2 ^ (- e)) (Z.abs b) in
    if (2 ^ 2098 <=? m * 2 ^ (e + 1074))%Z then Raise OverflowError
    else Return {| mantissa := sign * m; exponent := e |}.

(** [math.ceil(x)]. *)
Definition ceil (x : float) : Z :=
  if (0 <=? exponent x)%Z then (mantissa x * 2 ^ exponent x)%Z
  else (- ((- mantissa x) / 2 ^ (- exponent x)))%Z.

End Float.

(** [range(start, stop, step)] as the list it runs through. *)
Definition range_len (start stop step : Z) : Z :=
  if ((0 <? step) && (start <? stop))%Z then (1 + (stop - 1 - start) / step)%Z
  else if ((step <? 0) && (stop <? start))%Z then (1 + (start - 1 - stop) / (- step))%Z
  else 0%Z.

Definition range (start stop step : Z) : M (list Z) :=
  if (step =? 0)%Z then raise (ValueError "range() arg 3 must not be zero")
  else ret (map (fun i => (start + Z.of_nat i * step)%Z)
                (seq 0 (Z.to_nat (range_len start stop step)))).

(** ** The data model of [bulk2.py] *)

(** [class Batch(BaseModel)].  The two [Optional] fields declared without
    a default ([file_name], [downloaded_file_path]) start as [None]
    (pydantic 1, whose [.json(indent=2)] the module calls). *)
Record Batch := {
  base_path : string;
  batch_number : Z;
  job_id : string;
  batch_start : option string;
  batch_size : Z;
  api_version : string;
  object : string;
  file_name : option string;
  download_path : string;
  status : string;
  message : option string;
  downloaded_file_path : option (list string);
  attempt_count : Z;
}.

(** [class CompletedJob(BaseModel)]. *)
Record CompletedJob := {
  completed_id : string;
  batches : list Batch;
}.

(** The [str] validator of pydantic 1: numbers are turned into text, bytes
    are decoded, [None] and containers are refused. *)
Definition validate_str (field : string) (v : Value) : M string :=
  match v with
  | VStr s => ret s
  | VInt _ | VBool _ => ret (Str.of_value v)
  | VBytes b => match Str.decode b with
                | Return s => ret s
                | Raise _ => raise (ValidationError field)
                end
  | VNone | VObj _ => raise (ValidationError field)
  end.

(** [Batch(batch_number=..., batch_start=..., batch_size=..., job_id=...,
    api_version=..., base_path=..., object=..., download_path=...)]. *)
Definition new_Batch (number : Z) (start : option string) (size : Z)
           (job version base : string) (obj : Value) (path : string) : M Batch :=
  let! o := validate_str "object" obj in
  ret {| base_path := base; batch_number := number; job_id := job;
         batch_start := start; batch_size := size; api_version := version;
         object := o; file_name := None; download_path := path;
         status := "NEW"; message := None; downloaded_file_path := None;
         attempt_count := 0 |}.

Definition set_attempt_count (b : Batch) (n : Z) : Batch :=
  {| base_path := base_path b; batch_number := batch_number b; job_id := job_id b;
     batch_start := batch_start b; batch_size := batch_size b;
     api_version := api_version b; object := object b; file_name := file_name b;
     download_path := download_path b; status := status b; message := message b;
     downloaded_file_path := downloaded_file_path b; attempt_count := n |}.

(** [batch.status = s; batch.message = m]. *)
Definition set_outcome (b : Batch) (s m : string) : Batch :=
  {| base_path := base_path b; batch_number := batch_number b; job_id := job_id b;
     batch_start := batch_start b; batch_size := batch_size b;
     api_version := api_version b; object := object b; file_name := file_name b;
     download_path := download_path b; status := s; message := Some m;
     downloaded_file_path := downloaded_file_path b;
     attempt_count := attempt_count b |}.

(** [batch.downloaded_file_path = p; batch.file_name = n]. *)
Definition set_file (b : Batch) (p : list string) (n : string) : Batch :=
  {| base_path := base_path b; batch_number := batch_number b; job_id := job_id b;
     batch_start := batch_start b; batch_size := batch_size b;
     api_version := api_version b; object := object b; file_name := Some n;
     download_path := download_path b; status := status b; message := message b;
     downloaded_file_path := Some p; attempt_count := attempt_count b |}.

(** ** tenacity *)

Module Tenacity.

(** [wait_exponential(multiplier, min, max)(retry_state)], with
    [exp_base = 2]: the wait that follows attempt [attempt_number]. *)
Definition wait_exponential (multiplier min max attempt_number : Z) : Z :=
  let exp := (2 ^ (attempt_number - 1))%Z in
  let result := (multiplier * exp)%Z in
  Z.max (Z.max 0 min) (Z.min result max).

(** The same in the releases before 7.0, where the exponent is the
    attempt number itself. *)
Definition wait_exponential_legacy (multiplier min max attempt_number : Z) : Z :=
  let exp := (2 ^ attempt_number)%Z in
  let result := (multiplier * exp)%Z in
  Z.max (Z.max 0 min) (Z.min result max).

(** [stop_after_attempt(max_attempt_number)(retry_state)]. *)
Definition stop_after_attempt (max_attempt_number attempt_number : Z) : bool :=
  (max_attempt_number <=? attempt_number)%Z.

(** [retry_if_exception_type(httpx.ReadTimeout)]. *)
Definition retry_if_read_timeout (e : HttpError) : bool :=
  match e with
  | ReadTimeout => true
  | OtherTransportError _ => false
  end.

End Tenacity.

(** ** The functions of [bulk2.py] *)

Section Bulk2.

Context (E : Env).

(** One request through the client: the transport's outcome is recorded
    in the history; a transport failure is raised. *)
Definition send (r : Request) : M Response :=
  fun w =>
    let o := net E (history w) r in
    match o with
    | Responded data => (Return data, record_call (r, o) w)
    | Failed e => (Raise (TransportError e), record_call (r, o) w)
    end.

Definition print_body (data : Response) : M unit :=
  let! text := lift (Str.decode (content data)) in
  print_stderr [VStr text].

Definition get_query_job (job version : string) : M Json :=
  let query_path := "services/data/v" +:+ version +:+ "/jobs/query/" +:+ job in
  let! data := send {| method := GET; url := query_path; params := ∅; body := NoBody |} in
  (if negb (status_code data =? 200)%Z then print_body data else ret ());;
  json_of data.

Definition create_query_job (query version operation : string) : M Json :=
  let query_path := "services/data/v" +:+ version +:+ "/jobs/query" in
  let body : gmap string Value :=
    <["query" := VStr query]> (<["operation" := VStr operation]> ∅) in
  let! data := send {| method := POST; url := query_path; params := ∅;
                       body := JsonBody body |} in
  (if not_ok (status_code data) then print_body data else ret ());;
  json_of data.

Definition results_path (version job : string) : string :=
  "/services/data/v" +:+ version +:+ "/jobs/query/" +:+ job +:+ "/results".

Definition create_batch_locators (job : string) (max_records : Z)
           (locator : option string) (version : string) : M string :=
  let query_path := results_path version job in
  let! data :=
    match locator with
    | Some l =>
        send {| method := HEAD; url := query_path;
                params := <["locator" := VStr l]>
                            (<["maxRecords" := VInt max_records]> ∅);
                body := NoBody |}
    | None =>
        send {| method := HEAD; url := query_path;
                params := <["maxRecords" := VInt max_records]> ∅;
                body := NoBody |}
    end in
  if not_ok (status_code data) then
    print_stderr [VStr "Content"; VBytes (content data)];;
    print_stdout [VStr "Locator:"; from_option VStr VNone locator];;
    print_stdout [VStr "Max Records:"; VInt max_records];;
    raise (Exception (pretty (status_code data)
                      +:+ ":Something went wrong to get batch locators"))
  else
    match headers data !! "sforce-locator" with
    | Some l => ret l
    | None => raise (KeyError "sforce-locator")
    end.

Definition get_query_data (job locator : string) (max_records : Z)
           (version : string) : M string :=
  let! data := send {| method := GET; url := results_path version job;
                       params := <["locator" := VStr locator]>
                                   (<["maxRecords" := VInt max_records]> ∅);
                       body := NoBody |} in
  (if not_ok (status_code data) then print_body data else ret ());;
  lift (Str.decode (content data)).

(** The request of one download attempt: [params] without ["locator"]
    when [batch.batch_start is None]. *)
Definition fetch_request (batch : Batch) : Request :=
  let params : gmap string Value :=
    <["locator" := from_option VStr VNone (batch_start batch)]>
      (<["maxRecords" := VInt (batch_size batch)]> ∅) in
  {| method := GET; url := results_path (api_version batch) (job_id batch);
     params := match batch_start batch with
               | None => delete "locator" params
               | Some _ => params
               end;
     body := NoBody |}.

(** The [async for attempt in AsyncRetrying(...)] loop, from attempt
    [attempt_number] on.  [remaining] is the number of attempts that
    [stop_after_attempt] still allows after this one.  The loop ends with
    the response, with [RetryError] once the stop condition holds after
    a read timeout, or with the exception of the attempt when that is
    not a read timeout; the batch carries the last [attempt_count]. *)
Fixpoint retrying (remaining : nat) (attempt_number : Z) (batch : Batch)
         (w : World) : (Batch * Result Response) * World :=
  let batch := set_attempt_count batch attempt_number in
  match send (fetch_request batch) w with
  | (Return data, w1) => ((batch, Return data), w1)
  | (Raise (TransportError e), w1) =>
      if Tenacity.retry_if_read_timeout e then
        match remaining with
        | O => ((batch, Raise (RetryError e)), w1)
        | S remaining' =>
            match sleep (Tenacity.wait_exponential 1 4 60 attempt_number) w1 with
            | (_, w2) => retrying remaining' (attempt_number + 1) batch w2
            end
        end
      else ((batch, Raise (TransportError e)), w1)
  | (Raise e, w1) => ((batch, Raise e), w1)
  end.

(** [str(e)] for the [RetryError] of the loop: the [repr] of the future of
    the last attempt, which holds its address and the class of the
    exception it raised. *)
Definition str_RetryError (address : string) (last : HttpError) : string :=
  "RetryError[<Future at " +:+ address +:+ " state=finished raised "
  +:+ match last with
      | ReadTimeout => "ReadTimeout"
      | OtherTransportError name => name
      end
  +:+ ">]".

Definition csv_name (batch : Batch) : string :=
  job_id batch +:+ "_" +:+ pretty (batch_number batch) +:+ ".csv".

(** [a_get_query_data] once the loop is over, for the batch and the
    outcome the loop has left: the [except RetryError] branch, and what
    follows the [try] statement. *)
Definition conclude (batch : Batch) (r : Result Response) : M Batch :=
  fun w1 =>
    match r with
    | Raise (RetryError e) =>
        (Return (set_outcome batch "FAILED"
                   ("Error occurred while downloading job data after : "
                    +:+ str_RetryError (future_address E (history w1)) e)), w1)
    | Raise e => (Raise e, w1)
    | Return data =>
        (if not_ok (status_code data) then
           let! text := lift (Str.decode (content data)) in
           ret (set_outcome batch "FAILED"
                  ("Error occurred while downloading job data: " +:+ text))
         else
           let data_directory := Pathlib.Path [download_path batch] in
           on_fs (FS.mkdir false true data_directory);;
           let file_path := Pathlib.joinpath data_directory (csv_name batch) in
           on_fs (FS.open_w file_path);;
           let! text := lift (Str.decode (content data)) in
           on_fs (FS.write_text file_path text);;
           let batch := set_outcome batch "COMPLETE"
                          (Pathlib.to_str file_path +:+ " download complete") in
           ret (set_file batch file_path (csv_name batch))) w1
    end.

Definition a_get_query_data (batch : Batch) (max_attempts : Z) : M Batch :=
  fun w =>
    match retrying (Z.to_nat (max_attempts - 1)) 1 batch w with
    | ((batch, r), w1) => conclude batch r w1
    end.

(** The default of [max_attempts]:
    [int(os.getenv("SFDC_MAX_DOWNLOAD_ATTEMPTS", 20))].  Python evaluates
    it when the module is imported; a value that is no integer literal
    fails there, which shows here as the raise at its first use. *)
Definition default_max_attempts : Result Z :=
  match getenv E "SFDC_MAX_DOWNLOAD_ATTEMPTS" with
  | Some s => Str.to_int s
  | None => Return 20%Z
  end.

(** A download in the worker pool: before a turn of its retry loop, with
    the attempts the stop condition still allows after that turn and the
    number of the attempt; after the loop, with what the loop has left;
    or over, with what [a_get_query_data] returned or raised. *)
Inductive Task :=
| Attempting (remaining : nat) (attempt_number : Z) (batch : Batch)
| Ended (batch : Batch) (r : Result Response)
| Finished (r : Result Batch).

Definition active (t : Task) : bool :=
  match t with
  | Finished _ => false
  | _ => true
  end.

(** A download goes on: by one turn of the loop of [retrying], or by
    [conclude]. *)
Definition step (t : Task) (w : World) : Task * World :=
  match t with
  | Attempting remaining attempt_number batch =>
      let batch := set_attempt_count batch attempt_number in
      match send (fetch_request batch) w with
      | (Return data, w1) => (Ended batch (Return data), w1)
      | (Raise (TransportError e), w1) =>
          if Tenacity.retry_if_read_timeout e then
            match remaining with
            | O => (Ended batch (Raise (RetryError e)), w1)
            | S remaining' =>
                match sleep (Tenacity.wait_exponential 1 4 60 attempt_number) w1 with
                | (_, w2) => (Attempting remaining' (attempt_number + 1) batch, w2)
                end
            end
          else (Ended batch (Raise (TransportError e)), w1)
      | (Raise e, w1) => (Ended batch (Raise e), w1)
      end
  | Ended batch r =>
      match conclude batch r w with
      | (result, w1) => (Finished result, w1)
      end
  | Finished _ => (t, w)
  end.

(** The [i]-th of the downloads under way goes on. *)
Fixpoint advance (i : nat) (tasks : list Task) (w : World) : list Task * World :=
  match tasks with
  | [] => ([], w)
  | t :: rest =>
      if active t then
        match i with
        | O => match step t w with
               | (t', w') => (t' :: rest, w')
               end
        | S i' => match advance i' rest w with
                  | (rest', w') => (t :: rest', w')
                  end
        end
      else match advance i rest w with
           | (rest', w') => (t :: rest', w')
           end
  end.

Fixpoint under_way (tasks : list Task) : nat :=
  match tasks with
  | [] => O
  | t :: rest => if active t then S (under_way rest) else under_way rest
  end.

(** The exception of the first failed download, once every download
    before it has returned: what the parent, which reads the results in
    the order of [lots], has then read. *)
Fixpoint failure (tasks : list Task) : option Exn :=
  match tasks with
  | Finished (Return _) :: rest => failure rest
  | Finished (Raise e) :: _ => Some e
  | _ => None
  end.

(** The pool at work, for [fuel] steps at most: [schedule] picks the
    download that goes on; when it picks none and the parent has read a
    failed result, the pool is terminated. *)
Fixpoint run (fuel : nat) (tasks : list Task) (w : World) : list Task * World :=
  match fuel with
  | O => (tasks, w)
  | S fuel' =>
      match under_way tasks with
      | O => (tasks, w)
      | S _ as k =>
          match schedule E (history w) k, failure tasks with
          | None, Some _ => (tasks, w)
          | None, None =>
              match advance 0 tasks w with
              | (tasks', w') => run fuel' tasks' w'
              end
          | Some i, _ =>
              match advance (i mod k) tasks w with
              | (tasks', w') => run fuel' tasks' w'
              end
          end
      end
  end.

(** What the [async for] over the results ends with: the batches in the
    order of [lots], or [ProxyException] for the first failed one. *)
Fixpoint collect (tasks : list Task) : Result (list Batch) :=
  match tasks with
  | [] => Return []
  | Finished (Return batch) :: rest =>
      match collect rest with
      | Return batches => Return (batch :: batches)
      | Raise e => Raise e
      end
  | Finished (Raise e) :: _ => Raise (ProxyException e)
  | _ :: _ => Raise (RuntimeError "the pool is closed")
  end.

(** [async for result in pool.map(a_get_query_data, lots)] inside [async
    with Pool()]: every batch is queued at once and the downloads run side
    by side in the worker processes, each on its copy of the batch and with
    the default [max_attempts]; their turns interleave as [schedule] says.
    The parent reads the results in the order of [lots]: the first failed
    one it reads raises [ProxyException], and leaving [async with]
    terminates the pool, whatever the other downloads have reached by
    then.  A turn of a download is one attempt of its loop with the wait
    that follows it, or all that [a_get_query_data] does once the loop is
    over; the pool is terminated between two turns.  A download takes
    [remaining + 2] turns at most, so the fuel is never used up and the
    last case of [collect] is not met ([pull_batches_run],
    [collect_over]). *)
Definition pull_batches (lots : list Batch) : M (list Batch) :=
  let! max_attempts := lift default_max_attempts in
  fun w =>
    let remaining := Z.to_nat (max_attempts - 1) in
    match run (length lots * (remaining + 2))
              (map (Attempting remaining 1) lots) w with
    | (tasks, w') => (collect tasks, w')
    end.

(** The body of the [for i in range(batch_size, record_count,
    batch_size)] loop, over the values [i] still to come. *)
Fixpoint plan_loop (indices : list Z) (job version path base : string)
         (obj : Value) (size : Z) (number : Z) (lots : list Batch)
         (locator : string) : M (list Batch) :=
  match indices with
  | [] => ret lots
  | _ :: rest =>
      let number := (number + 1)%Z in
      let! batch := new_Batch number (Some locator) size job version base obj path in
      let lots := lots ++ [batch] in
      let! locator := create_batch_locators job size (Some locator) version in
      plan_loop rest job version path base obj size number lots locator
  end.

(** [download_query_data] up to the end of its loop: the planned
    [lots]. *)
Definition plan_batches (job version path : string) (size : option Z)
  : M (list Batch) :=
  let! job_data := get_query_job job version in
  let! record_count := dict_get job_data "numberRecordsProcessed" in
  if eq_zero record_count then
    print_stderr [VStr "Record Count is 0, No results to process"];;
    raise (SystemExit None)
  else
    let! size :=
      match size with
      | Some s =>
          if (s =? 0)%Z then
            let! n := dict_get job_data "numberRecordsProcessed" in
            let! n := as_int n in
            let! quotient := lift (Float.true_div n (cpu_count E)) in
            ret (Float.ceil quotient)
          else ret s
      | None =>
          let! n := dict_get job_data "numberRecordsProcessed" in
          let! n := as_int n in
          let! quotient := lift (Float.true_div n (cpu_count E)) in
          ret (Float.ceil quotient)
      end in
    let number := 1%Z in
    let! obj := dict_get job_data "object" in
    let! first := new_Batch number None size job version (instance_url E) obj path in
    let lots := [first] in
    let! locator := create_batch_locators job size None version in
    let! stop := as_int record_count in
    let! indices := range size stop size in
    plan_loop indices job version path (instance_url E) obj size number lots locator.

Definition download_query_data (job version path : string) (size : option Z)
           (dry_run : bool) : M CompletedJob :=
  let! lots := plan_batches job version path size in
  if dry_run then ret {| completed_id := job; batches := lots |}
  else
    let! done := pull_batches lots in
    ret {| completed_id := job; batches := done |}.

Definition get_job (job version : string) : M Json :=
  let! data := send {| method := GET;
                       url := "services/data/v" +:+ version +:+ "/jobs/query/" +:+ job;
                       params := ∅; body := NoBody |} in
  let! data :=
    if (status_code data =? 404)%Z then
      send {| method := GET;
              url := "services/data/v" +:+ version +:+ "/jobs/ingest/" +:+ job;
              params := ∅; body := NoBody |}
    else ret data in
  (if negb (status_code data =? 200)%Z then print_body data else ret ());;
  json_of data.

Definition create_ingest_job (object_name operation : string)
           (external_id_field_name : option string) (version : string) : M Json :=
  let query_path := "services/data/v" +:+ version +:+ "/jobs/ingest" in
  let body : gmap string Value :=
    <["object" := VStr object_name]> (<["operation" := VStr operation]> ∅) in
  let! body :=
    if bool_decide (operation = "upsert") then
      match external_id_field_name with
      | None | Some "" =>
          raise (RuntimeError
                   "external Id field name must be provided when performing upsert.")
      | Some name => ret (<["externalIdFieldName" := VStr name]> body)
      end
    else ret body in
  let! data := send {| method := POST; url := query_path; params := ∅;
                       body := JsonBody body |} in
  (if not_ok (status_code data) then print_body data else ret ());;
  json_of data.

(** The result is the dict [payload]: first the body of the finalize
    request, then extended with the record of the chunk. *)
Definition load_ingest_job_data (job : Value) (file_path version : string)
  : M (gmap string Value) :=
  let query_path :=
    "services/data/v" +:+ version +:+ "/jobs/ingest/" +:+ Str.of_value job in
  let! text := fun w => (FS.read_text (Pathlib.Path [file_path]) (fs w), w) in
  let! data := send {| method := PUT; url := query_path +:+ "/batches";
                       params := ∅; body := ContentBody text |} in
  let! message :=
    if not_ok (status_code data) then lift (Str.decode (content data))
    else ret ("Batch: " +:+ file_path +:+ " loaded.") in
  let payload : gmap string Value :=
    <["state" := VStr (if bool_decide (status_code data = 200%Z)
                          || bool_decide (status_code data = 201%Z)
                       then "UploadComplete" else "Aborted")]> ∅ in
  let! result := send {| method := PATCH; url := query_path; params := ∅;
                         body := JsonBody payload |} in
  let payload := <["id" := job]> payload in
  let payload := <["url" := VStr query_path]> payload in
  let payload := <["file_path" := VStr file_path]> payload in
  let payload := <["message" := VStr message]> payload in
  let payload := <["status_code" := VInt (status_code result)]> payload in
  ret payload.

(** The argument [working_directory]: annotated [str], used as a
    [Path]. *)
Inductive Directory :=
| AsStr (s : string)
| AsPath (p : list string).

Definition ingest_job_data_batches (object_name operation path_or_file pattern : string)
           (batch_size : Z) (version : string)
           (external_id_field_name : option string)
           (working_directory : option Directory) : M (list (gmap string Value)) :=
  let working_directory :=
    match working_directory with
    | None => AsPath (Pathlib.Path [gettempdir E; object_name])
    | Some d => d
    end in
  match working_directory with
  | AsStr _ => raise (AttributeError "'str' object has no attribute 'exists'")
  | AsPath working_directory =>
      (fun w =>
         if FS.exists_ (fs w) working_directory && FS.is_dir (fs w) working_directory
         then on_fs (fun fs => (Return (), FS.rmtree working_directory fs)) w
         else (Return (), w));;
      on_fs (FS.mkdir true false working_directory);;
      let! file_task :=
        on_fs (combine_files E path_or_file pattern working_directory batch_size) in
      if negb (bool_decide (task_status file_task = "success")) then
        raise (RuntimeError ("Combining files failed: " +:+ task_message file_task))
      else
        for_each
          (fun file_path =>
             let! bulk_job := create_ingest_job object_name (Str.lower operation)
                                external_id_field_name version in
             let! job := dict_get bulk_job "id" in
             load_ingest_job_data job file_path version)
          (task_payload file_task)
  end.
End Bulk2.

(** ** The vocabulary of the statements *)

(** The world after the calls [calls] and the sleeps [waits], nothing else
    touched. *)
Definition advance_world (w : World) (calls : list (Request * Outcome))
           (waits : list Z) : World :=
  {| history := history w ++ calls; fs := fs w; stderr := stderr w;
     stdout := stdout w; sleeps := sleeps w ++ waits |}.

(** The waits that follow the attempts [n], [n + 1], ..., [n + k - 1]. *)
Definition waits_from (n : Z) (k : nat) : list Z :=
  map (fun i => Tenacity.wait_exponential 1 4 60 (n + Z.of_nat i)) (seq 0 k).

(** The batch as [a_get_query_data] returns it when the retries are
    exhausted. *)
Definition exhausted (address : string) (batch : Batch) (max_attempts : Z) : Batch :=
  set_outcome (set_attempt_count batch max_attempts) "FAILED"
    ("Error occurred while downloading job data after : RetryError[<Future at "
     +:+ address +:+ " state=finished raised ReadTimeout>]").

(** The request of [create_batch_locators]. *)
Definition locator_request (job : string) (max_records : Z) (locator : option string)
           (version : string) : Request :=
  {| method := HEAD; url := results_path version job;
     params := match locator with
               | Some l => <["locator" := VStr l]> (<["maxRecords" := VInt max_records]> ∅)
               | None => <["maxRecords" := VInt max_records]> ∅
               end;
     body := NoBody |}.

(** The request of [get_query_job]. *)
Definition job_request (job version : string) : Request :=
  {| method := GET; url := "services/data/v" +:+ version +:+ "/jobs/query/" +:+ job;
     params := ∅; body := NoBody |}.

(** A response that [create_batch_locators] accepts, with the cursor it
    carries. *)
Definition accepted (data : Response) (cursor : string) : Prop :=
  not_ok (status_code data) = false /\ headers data !! "sforce-locator" = Some cursor.

(** The transport answers every cursor-advance request with an accepted
    response. *)
Definition advances_accepted (E : Env) : Prop :=
  forall h r, method r = HEAD -> exists data cursor,
      net E h r = Responded data /\ accepted data cursor.

(** The message of the exception of [create_batch_locators]. *)
Definition rejected_message (data : Response) : string :=
  pretty (status_code data) +:+ ":Something went wrong to get batch locators".

Section PlanningTerms.

Context (E : Env) (job version path obj : string) (size : Z).

(** The batch that [Batch(...)] builds in [download_query_data]. *)
Definition planned (number : Z) (start : option string) : Batch :=
  {| base_path := instance_url E; batch_number := number; job_id := job;
     batch_start := start; batch_size := size; api_version := version;
     object := obj; file_name := None; download_path := path;
     status := "NEW"; message := None; downloaded_file_path := None;
     attempt_count := 0 |}.

(** The batches numbered from [number] on, with the given cursors. *)
Fixpoint planned_from (number : Z) (starts : list (option string)) : list Batch :=
  match starts with
  | [] => []
  | start :: rest => planned number start :: planned_from (number + 1) rest
  end.

(** The cursor-advance calls made with the given cursors, and their
    responses. *)
Definition advance_calls (starts : list (option string)) (datas : list Response)
  : list (Request * Outcome) :=
  zip_with (fun start data => (locator_request job size start version, Responded data))
           starts datas.

End PlanningTerms.

(** A call is [rejecting] when every cursor-advance request of its run
    that is answered with a status other than 200 and 201 makes it raise
    the exception of [create_batch_locators]. *)
Definition rejecting {A} (c : M A) : Prop :=
  forall w, exists calls,
    history (c w).2 = history w ++ calls /\
    forall req data,
      (req, Responded data) ∈ calls -> method req = HEAD ->
      not_ok (status_code data) = true ->
      (c w).1 = Raise (Exception (rejected_message data)).

(** The request of [create_query_job]. *)
Definition create_query_request (query version operation : string) : Request :=
  {| method := POST; url := "services/data/v" +:+ version +:+ "/jobs/query";
     params := ∅;
     body := JsonBody (<["query" := VStr query]> (<["operation" := VStr operation]> ∅)) |}.

(** The number of requests of a history that send the cursor [c]. *)
Definition uses (c : string) (h : list (Request * Outcome)) : nat :=
  length (filter (fun call => params call.1 !! "locator" = Some (VStr c)) h).

(** The working directory once [ingest_job_data_batches] has removed it,
    when it was a directory, and before it is made again. *)
Definition cleared (directory : list string) (fs : gmap (list string) Node)
  : gmap (list string) Node :=
  if FS.exists_ fs directory && FS.is_dir fs directory
  then FS.rmtree directory fs else fs.

Definition with_fs (w : World) (fs' : gmap (list string) Node) : World :=
  {| history := history w; fs := fs'; stderr := stderr w; stdout := stdout w;
     sleeps := sleeps w |}.

Definition upsert_error : Exn :=
  RuntimeError "external Id field name must be provided when performing upsert.".

(** The body and the request of [create_ingest_job]. *)
Definition ingest_body (object_name operation : string) (ext : option string)
  : gmap string Value :=
  let body : gmap string Value :=
    <["object" := VStr object_name]> (<["operation" := VStr operation]> ∅) in
  if bool_decide (operation = "upsert")
  then <["externalIdFieldName" := VStr (default "" ext)]> body else body.

Definition create_ingest_request (object_name operation : string) (ext : option string)
           (version : string) : Request :=
  {| method := POST; url := "services/data/v" +:+ version +:+ "/jobs/ingest";
     params := ∅; body := JsonBody (ingest_body object_name operation ext) |}.

Definition ingest_path (version : string) (job : Value) : string :=
  "services/data/v" +:+ version +:+ "/jobs/ingest/" +:+ Str.of_value job.

Definition upload_request (version : string) (job : Value) (text : string) : Request :=
  {| method := PUT; url := ingest_path version job +:+ "/batches"; params := ∅;
     body := ContentBody text |}.

(** The state that the finalize request asks for after an upload. *)
Definition final_state (uploaded : Response) : string :=
  if bool_decide (status_code uploaded = 200%Z) || bool_decide (status_code uploaded = 201%Z)
  then "UploadComplete" else "Aborted".

Definition finalize_request (version : string) (job : Value) (uploaded : Response)
  : Request :=
  {| method := PATCH; url := ingest_path version job; params := ∅;
     body := JsonBody (<["state" := VStr (final_state uploaded)]> ∅) |}.

(** What happened for one chunk: its path and text, the job made for it
    and the three responses. *)
Record ChunkRun := {
  run_path : string;
  run_text : string;
  run_job : Value;
  run_created : Response;
  run_uploaded : Response;
  run_finalized : Response;
}.

Definition chunk_calls (object_name operation : string) (ext : option string)
           (version : string) (s : ChunkRun) : list (Request * Outcome) :=
  [(create_ingest_request object_name operation ext version, Responded (run_created s));
   (upload_request version (run_job s) (run_text s), Responded (run_uploaded s));
   (finalize_request version (run_job s) (run_uploaded s), Responded (run_finalized s))].

Definition upload_message (s : ChunkRun) : string :=
  if not_ok (status_code (run_uploaded s)) then content (run_uploaded s)
  else "Batch: " +:+ run_path s +:+ " loaded.".

(** The record that [load_ingest_job_data] returns for a chunk. *)
Definition chunk_result (version : string) (s : ChunkRun) : gmap string Value :=
  <["status_code" := VInt (status_code (run_finalized s))]>
    (<["message" := VStr (upload_message s)]>
       (<["file_path" := VStr (run_path s)]>
          (<["url" := VStr (ingest_path version (run_job s))]>
             (<["id" := run_job s]>
                (<["state" := VStr (final_state (run_uploaded s))]> ∅))))).

(** The transport answers every request, a job creation with a JSON
    object; and the body of a job creation or of an upload that is
    answered with a status other than 200 and 201 is text. *)
Definition ingest_answered (E : Env) : Prop :=
  forall h r, exists data,
      net E h r = Responded data /\
      (method r = POST -> exists d, json data = Some (JDict d)) /\
      (method r = POST \/ method r = PUT ->
       not_ok (status_code data) = true ->
       Str.utf8_valid (Str.byte_values (content data)) = true).

(** The operation and external-id field pass the check of
    [create_ingest_job]. *)
Definition ingest_configured (operation : string) (ext : option string) : Prop :=
  operation <> "upsert" \/ exists name, ext = Some name /\ name <> "".

(** ** Sample environments *)

Module Sample.

(** A transport that answers the [i]-th request of a run with the [i]-th
outcome of a script, and refuses the connection once the script ends. *)
Definition scripted (script : list Outcome) (h : list (Request * Outcome))
           (r : Request) : Outcome :=
  default (Failed (OtherTransportError "ConnectError")) (script !! length h).

(** A chunker that writes the given chunks into the output directory. *)
Definition chunker (chunks : list (string * string)) (path_or_file pattern : string)
           (output_directory : list string) (limit : Z)
           (fs : gmap (list string) Node)
  : Result FileTask * gmap (list string) Node :=
  (Return {| task_status := "success"; task_message := "";
             task_payload :=
               map (fun c => Pathlib.to_str (output_directory ++ [c.1])) chunks |},
   foldr (fun c fs => <[output_directory ++ [c.1] := File c.2]> fs) fs chunks).

(** The scheduler that lets the first download under way go on, so that
    the downloads run one after the other, and the one that takes them in
    turn, by the number of calls made. *)
Definition in_order (h : list (Request * Outcome)) (k : nat) : option nat := Some 0%nat.
Definition in_turn (h : list (Request * Outcome)) (k : nat) : option nat :=
  Some (length h).

Definition address (h : list (Request * Outcome)) : string := "0x7f6d2c1b3a90".

Definition env (script : list Outcome) (chunks : list (string * string)) : Env :=
  {| net := scripted script; combine_files := chunker chunks; cpu_count := 8;
     gettempdir := "/tmp"; getenv := fun _ => None;
     instance_url := "https://example.my.salesforce.com";
     schedule := in_order; future_address := address |}.

(** The same with [SFDC_MAX_DOWNLOAD_ATTEMPTS] set. *)
Definition ceiling_env (ceiling : string) (script : list Outcome) : Env :=
  {| net := scripted script; combine_files := chunker []; cpu_count := 8;
     gettempdir := "/tmp";
     getenv := fun name =>
                 if decide (name = "SFDC_MAX_DOWNLOAD_ATTEMPTS") then Some ceiling
                 else None;
     instance_url := "https://example.my.salesforce.com";
     schedule := in_order; future_address := address |}.

Definition world (files : gmap (list string) Node) : World :=
  {| history := []; fs := files; stderr := []; stdout := []; sleeps := [] |}.

Definition response (status : Z) (locator : option string) (body : string)
           (doc : option Json) : Response :=
  {| status_code := status;
     headers := from_option (fun l => {[ "sforce-locator" := l ]}) ∅ locator;
     content := body; json := doc |}.

(** The line ends. *)
Definition lf : string := String "010" EmptyString.
Definition crlf : string := String "013" lf.

(** [s] between double quotes, and the responses that carry a JSON
    document, with its text as their body: the document of a query job of
    [records] records, and the document of a job just created. *)
Definition quoted (s : string) : string :=
  String "034" (s +:+ String "034" EmptyString).

Definition job_document (records : Z) : Response :=
  response 200 None
    ("{" +:+ quoted "numberRecordsProcessed" +:+ ":" +:+ pretty records +:+ ","
         +:+ quoted "object" +:+ ":" +:+ quoted "Account" +:+ "}")
    (Some (JDict (<["numberRecordsProcessed" := VInt records]>
                    {[ "object" := VStr "Account" ]}))).

Definition created_job (id : string) : Response :=
  response 201 None ("{" +:+ quoted "id" +:+ ":" +:+ quoted id +:+ "}")
    (Some (JDict {[ "id" := VStr id ]})).

(** A server with a job of [records] records: it answers the job lookup
with the job document, every cursor advance with a fresh cursor, a page
fetch with a page, and accepts job creation, upload and finalization. *)
Definition server (records : Z) (h : list (Request * Outcome)) (r : Request)
  : Outcome :=
  match method r with
  | HEAD => Responded (response 200 (Some ("cursor-" +:+ pretty (length h))) "" None)
  | GET =>
      if decide (params r = ∅) then Responded (job_document records)
      else Responded (response 200 None "Id,Name" None)
  | POST => Responded (created_job "750yy")
  | PUT => Responded (response 201 None "" None)
  | PATCH => Responded (response 200 None "" None)
  end.

Definition server_env (records : Z) (chunks : list (string * string)) : Env :=
  {| net := server records; combine_files := chunker chunks; cpu_count := 8;
     gettempdir := "/tmp"; getenv := fun _ => None;
     instance_url := "https://example.my.salesforce.com";
     schedule := in_order; future_address := address |}.

(** A server whose first page always times out and which answers for the
    other pages, and an environment where the downloads of the pool take
    turns and the ceiling of the attempts is set to 3. *)
Definition first_page_times_out (h : list (Request * Outcome)) (r : Request) : Outcome :=
  if decide (params r !! "locator" = None) then Failed ReadTimeout
  else Responded (response 200 None "Id,Name" None).

Definition pool_env : Env :=
  {| net := first_page_times_out; combine_files := chunker []; cpu_count := 8;
     gettempdir := "/tmp";
     getenv := fun name =>
                 if decide (name = "SFDC_MAX_DOWNLOAD_ATTEMPTS") then Some "3" else None;
     instance_url := "https://example.my.salesforce.com";
     schedule := in_turn; future_address := address |}.

Definition batch_at (path : string) (number : Z) (start : option string) : Batch :=
  {| base_path := "https://example.my.salesforce.com"; batch_number := number;
     job_id := "750xx"; batch_start := start; batch_size := 10000;
     api_version := "53.0"; object := "Account"; file_name := None;
     download_path := path; status := "NEW"; message := None;
     downloaded_file_path := None; attempt_count := 0 |}.

Definition batch (number : Z) (start : option string) : Batch :=
  batch_at "./data" number start.

End Sample.

(** ** Further vocabulary: the download *)

(** What a transport outcome that ends the retry loop makes of it. *)
Definition ending (o : Outcome) : Result Response :=
  match o with
  | Responded data => Return data
  | Failed e => Raise (TransportError e)
  end.

(** The path of the file of a batch. *)
Definition csv_path (batch : Batch) : list string :=
  Pathlib.joinpath (Pathlib.Path [download_path batch]) (csv_name batch).

(** [sum(waits)]. *)
Definition total (waits : list Z) : Z := foldr Z.add 0%Z waits.

(** The fields of a batch that the planner sets and the download keeps. *)
Definition same_unit (a b : Batch) : Prop :=
  base_path a = base_path b /\ batch_number a = batch_number b /\
  job_id a = job_id b /\ batch_start a = batch_start b /\
  batch_size a = batch_size b /\ api_version a = api_version b /\
  object a = object b /\ download_path a = download_path b.

(** A batch as the download returns it for the planned batch [planned]
    with the ceiling [max_attempts]: the same unit, in a final state. *)
Definition downloaded (max_attempts : Z) (planned result : Batch) : Prop :=
  same_unit planned result /\
  (1 <= attempt_count result <= Z.max 1 max_attempts)%Z /\
  is_Some (message result) /\
  ((status result = "COMPLETE" /\
    downloaded_file_path result = Some (csv_path planned) /\
    file_name result = Some (csv_name planned)) \/
   (status result = "FAILED" /\
    downloaded_file_path result = downloaded_file_path planned /\
    file_name result = file_name planned)).

(** ** Further vocabulary: planning *)

(** The ceiling of the exact quotient [a / b], in which the counts of the
    statements are given. *)
Definition ceil_div (a b : Z) : Z := (- ((- a) / b))%Z.

(** [ceil(records / cpu_count())], the division being that of floats. *)
Definition automatic_size (E : Env) (records : Z) : Result Z :=
  match Float.true_div records (cpu_count E) with
  | Return quotient => Return (Float.ceil quotient)
  | Raise e => Raise e
  end.

(** The batch size that [download_query_data] plans with: the one given,
    or the automatic one when none or 0 is given. *)
Definition size_used (E : Env) (size : option Z) (records : Z) : Result Z :=
  match size with
  | Some s => if (s =? 0)%Z then automatic_size E records else Return s
  | None => automatic_size E records
  end.

(** A batch as the planner builds it. *)
Definition fresh (b : Batch) : Prop :=
  status b = "NEW" /\ attempt_count b = 0%Z /\ message b = None /\
  file_name b = None /\ downloaded_file_path b = None.

(** ** Further vocabulary: transport failures *)

(** A call is [fail_fast] for the failures [fatal] when such a failure of
    a request of its run ends the run: the request is the last one, and
    the failure leaves the call as its exception. *)
Definition fail_fast {A} (fatal : Request -> HttpError -> Prop) (c : M A) : Prop :=
  forall w, exists calls,
    history (c w).2 = history w ++ calls /\
    forall (i : nat) req e,
      calls !! i = Some (req, Failed e) -> fatal req e ->
      length calls = S i /\ (c w).1 = Raise (TransportError e).

(** ** Further vocabulary: the job lookups *)

(** The second request of [get_job]. *)
Definition ingest_job_request (job version : string) : Request :=
  {| method := GET; url := "services/data/v" +:+ version +:+ "/jobs/ingest/" +:+ job;
     params := ∅; body := NoBody |}.

(** The request of [get_query_data]. *)
Definition page_request (job locator : string) (max_records : Z) (version : string)
  : Request :=
  {| method := GET; url := results_path version job;
     params := <["locator" := VStr locator]> (<["maxRecords" := VInt max_records]> ∅);
     body := NoBody |}.

(** The world after a call that printed [lines] on stderr. *)
Definition printed (w : World) (calls : list (Request * Outcome))
           (lines : list (list Value)) : World :=
  {| history := history w ++ calls; fs := fs w; stderr := stderr w ++ lines;
     stdout := stdout w; sleeps := sleeps w |}.

(** ** Further vocabulary: the worker pool *)

(** One of the requests of the download of [planned] has met, in [calls],
    an outcome other than a read timeout. *)
Definition answered (planned : Batch) (calls : list (Request * Outcome)) : Prop :=
  exists o, (fetch_request planned, o) ∈ calls /\ o <> Failed ReadTimeout.

(** What a download of the pool is for the batch [planned] it was queued
    for, after the calls [calls] of the pool. *)
Definition tracks (max_attempts : Z) (calls : list (Request * Outcome))
           (planned : Batch) (t : Task) : Prop :=
  match t with
  | Attempting remaining n b =>
      (exists c, b = set_attempt_count planned c) /\ (1 <= n)%Z /\
      (n + Z.of_nat remaining = Z.max 1 max_attempts)%Z
  | Ended b r =>
      exists n, b = set_attempt_count planned n /\ (1 <= n <= Z.max 1 max_attempts)%Z /\
                match r with
                | Return data => (fetch_request planned, Responded data) ∈ calls
                | Raise (RetryError e) => e = ReadTimeout /\ n = Z.max 1 max_attempts
                | Raise (TransportError e) =>
                    e <> ReadTimeout /\ (fetch_request planned, Failed e) ∈ calls
                | Raise _ => False
                end
  | Finished (Return result) =>
      downloaded max_attempts planned result /\
      ((exists address, result = exhausted address planned (Z.max 1 max_attempts)) \/
       answered planned calls)
  | Finished (Raise e) => answered planned calls /\ forall err, e <> RetryError err
  end.

(** The steps that a download can still take. *)
Definition weight (t : Task) : nat :=
  match t with
  | Attempting remaining _ _ => remaining + 2
  | Ended _ _ => 1
  | Finished _ => 0
  end.

Definition total_weight (tasks : list Task) : nat :=
  foldr (fun t n => weight t + n)%nat 0%nat tasks.

(** ** Further vocabulary: paths as they are written *)

(** The text of a path: what is written between its ["/"], from the root
    when the path is [absolute] and from the current directory
    otherwise. *)
Definition spelled (absolute : bool) (written : list string) : string :=
  (if absolute then "/" else "") +:+ Str.join "/" written.

(** Nothing written between two ["/"] holds a ["/"] or is [..], and the
    text does not start with an empty part. *)
Definition well_written (written : list string) : Prop :=
  Forall (fun part => Str.contains "/" part = false /\ part <> "..") written /\
  head written <> Some "".

(** The parts of the path so written: the empty ones and [.] do not
    count. *)
Definition named (written : list string) : list string :=
  filter (fun part => part <> "" /\ part <> ".") written.

(** * Properties *)

(** ** The builtins on examples *)

Example lower_example : Str.lower "UpSert" = "upsert".
Proof. reflexivity. Qed.

Example split_example : Str.split_on "/" "/tmp//a/./b/" = [""; "tmp"; ""; "a"; "."; "b"; ""].
Proof. reflexivity. Qed.

Example decode_ascii : Str.decode "Id,Name" = Return "Id,Name".
Proof. reflexivity. Qed.

Example decode_invalid :
  Str.decode (String (Ascii.ascii_of_N 255) EmptyString) = Raise UnicodeDecodeError.
Proof. reflexivity. Qed.

Example to_int_examples :
  Str.to_int "20" = Return 20%Z /\ Str.to_int " -1_000 " = Return (-1000)%Z /\
  Str.to_int "007" = Return 7%Z /\
  (exists e, Str.to_int "2x" = Raise e) /\ (exists e, Str.to_int "" = Raise e) /\
  (exists e, Str.to_int "1__0" = Raise e) /\ (exists e, Str.to_int "5_" = Raise e).
Proof. repeat split; try reflexivity; eexists; reflexivity. Qed.

Example Path_examples :
  Pathlib.Path ["./data"] = ["data"] /\
  Pathlib.Path ["/tmp"; "Account"] = ["/"; "tmp"; "Account"] /\
  Pathlib.Path ["/tmp"; "/etc"] = ["/"; "etc"] /\
  Pathlib.Path ["data/"; "750xx_1.csv"] = ["data"; "750xx_1.csv"] /\
  Pathlib.to_str ["/"; "tmp"; "Account"] = "/tmp/Account" /\
  Pathlib.to_str ["data"; "750xx_1.csv"] = "data/750xx_1.csv" /\
  Pathlib.parent ["data"] = [] /\ Pathlib.parent ["/"] = ["/"].
Proof. repeat split; reflexivity. Qed.

Example mkdir_examples :
  let fs : gmap (list string) Node := {[ ["data"] := Dir ]} in
  FS.mkdir false true ["data"] fs = (Return (), fs) /\
  FS.mkdir false true ["out"] fs = (Return (), <[ ["out"] := Dir ]> fs) /\
  FS.mkdir false true ["a"; "b"] fs = (Raise (OSError FileNotFound ["a"; "b"]), fs) /\
  FS.mkdir true false ["a"; "b"] fs
  = (Return (), <[ ["a"; "b"] := Dir ]> (<[ ["a"] := Dir ]> fs)) /\
  FS.mkdir true false ["data"] fs = (Raise (OSError FileExists ["data"]), fs).
Proof. repeat split; vm_compute; reflexivity. Qed.

Example range_examples :
  forall w, range 10000 25000 10000 w = (Return [10000; 20000]%Z, w) /\
            range 10 10 10 w = (Return [], w) /\
            range 3 10 3 w = (Return [3; 6; 9]%Z, w) /\
            range (-5) 7 (-5) w = (Return [], w).
Proof. intros w. repeat split; reflexivity. Qed.

(** ** Worlds reached by calls and sleeps *)

Lemma advance_world_nil w : advance_world w [] [] = w.
Proof. destruct w; unfold advance_world; simpl. by rewrite !app_nil_r. Qed.

Lemma advance_world_app w c1 s1 c2 s2 :
  advance_world (advance_world w c1 s1) c2 s2 = advance_world w (c1 ++ c2) (s1 ++ s2).
Proof. unfold advance_world; simpl. by rewrite !app_assoc. Qed.

Lemma waits_from_S n k :
  waits_from n (S k) = Tenacity.wait_exponential 1 4 60 n :: waits_from (n + 1) k.
Proof.
  unfold waits_from. simpl. rewrite Z.add_0_r. f_equal.
  rewrite <- seq_shift, map_map. apply map_ext. intros i. f_equal. lia.
Qed.

Section Retrying.

Context (E : Env).

Lemma fetch_request_attempt_count b n :
  fetch_request (set_attempt_count b n) = fetch_request b.
Proof. reflexivity. Qed.

Lemma send_eq r w :
  send E r w =
  (match net E (history w) r with
   | Responded data => Return data
   | Failed e => Raise (TransportError e)
   end, advance_world w [(r, net E (history w) r)] []).
Proof.
  unfold send, record_call, advance_world. rewrite app_nil_r.
  by destruct (net E (history w) r).
Qed.

(** One turn of the loop. *)
Lemma retrying_step remaining n batch w :
  retrying E remaining n batch w =
  let b := set_attempt_count batch n in
  let req := fetch_request batch in
  let o := net E (history w) req in
  match o with
  | Responded data => ((b, Return data), advance_world w [(req, o)] [])
  | Failed ReadTimeout =>
      match remaining with
      | O => ((b, Raise (RetryError ReadTimeout)), advance_world w [(req, o)] [])
      | S remaining' =>
          retrying E remaining' (n + 1) b
                   (advance_world w [(req, o)] [Tenacity.wait_exponential 1 4 60 n])
      end
  | Failed e => ((b, Raise (TransportError e)), advance_world w [(req, o)] [])
  end.
Proof.
  destruct remaining; cbn [retrying]; rewrite send_eq, fetch_request_attempt_count;
    cbv zeta; destruct (net E (history w) (fetch_request batch)) as [data|[|name]];
    try reflexivity.
  cbn [Tenacity.retry_if_read_timeout sleep]. f_equal.
  unfold advance_world; simpl. by rewrite !app_nil_r.
Qed.

(** Every attempt times out: the loop gives up after [S remaining]
    attempts. *)
Lemma retrying_all_timeouts remaining : forall n batch w,
  let req := fetch_request batch in
  (forall j, (j <= remaining)%nat ->
             net E (history w ++ replicate j (req, Failed ReadTimeout)) req
             = Failed ReadTimeout) ->
  retrying E remaining n batch w
  = ((set_attempt_count batch (n + Z.of_nat remaining), Raise (RetryError ReadTimeout)),
     advance_world w (replicate (S remaining) (req, Failed ReadTimeout))
                   (waits_from n remaining)).
Proof.
  induction remaining as [|k IH]; intros n batch w req H;
    rewrite retrying_step; cbv zeta; fold req;
    pose proof (H 0%nat ltac:(lia)) as H0; simpl in H0; rewrite app_nil_r in H0;
    rewrite H0.
  - by rewrite Z.add_0_r.
  - rewrite IH.
    + f_equal; [f_equal|].
      * unfold set_attempt_count; simpl. f_equal. lia.
      * by rewrite advance_world_app, waits_from_S.
    + intros j Hj. rewrite fetch_request_attempt_count. fold req. simpl.
      rewrite <- app_assoc. apply (H (S j)). lia.
Qed.

(** The first [k] attempts time out and the next one is answered. *)
Lemma retrying_answered k : forall remaining n batch w data,
  let req := fetch_request batch in
  (k <= remaining)%nat ->
  (forall j, (j < k)%nat ->
             net E (history w ++ replicate j (req, Failed ReadTimeout)) req
             = Failed ReadTimeout) ->
  net E (history w ++ replicate k (req, Failed ReadTimeout)) req = Responded data ->
  retrying E remaining n batch w
  = ((set_attempt_count batch (n + Z.of_nat k), Return data),
     advance_world w (replicate k (req, Failed ReadTimeout) ++ [(req, Responded data)])
                   (waits_from n k)).
Proof.
  induction k as [|k IH]; intros remaining n batch w data req Hk H Hdata;
    rewrite retrying_step; cbv zeta; fold req.
  - simpl in Hdata. rewrite app_nil_r in Hdata. rewrite Hdata.
    by rewrite Z.add_0_r.
  - pose proof (H 0%nat ltac:(lia)) as H0; simpl in H0; rewrite app_nil_r in H0.
    rewrite H0. destruct remaining as [|remaining]; [lia|].
    rewrite (IH _ _ _ _ data).
    + f_equal; [f_equal|].
      * unfold set_attempt_count; simpl. f_equal. lia.
      * by rewrite advance_world_app, waits_from_S.
    + lia.
    + intros j Hj. rewrite fetch_request_attempt_count. fold req. simpl.
      rewrite <- app_assoc. apply (H (S j)). lia.
    + rewrite fetch_request_attempt_count. fold req. simpl.
      rewrite <- app_assoc. apply Hdata.
Qed.

(** The loop in general: the calls it makes, what they were answered and
    what it ends with. *)
Lemma retrying_trace remaining : forall n batch w,
  exists calls r,
    retrying E remaining n batch w
    = ((set_attempt_count batch (n + Z.of_nat (length calls) - 1), r),
       advance_world w calls (waits_from n (length calls - 1))) /\
    (1 <= length calls <= S remaining)%nat /\
    Forall (fun c => c.1 = fetch_request batch) calls /\
    (forall i c, calls !! i = Some c ->
                 c.2 = net E (history w ++ take i calls) (fetch_request batch)) /\
    (forall i c, calls !! i = Some c -> (S i < length calls)%nat ->
                 c.2 = Failed ReadTimeout) /\
    (forall c, last calls = Some c ->
               match c.2 with
               | Responded data => r = Return data
               | Failed ReadTimeout =>
                   length calls = S remaining /\ r = Raise (RetryError ReadTimeout)
               | Failed e => r = Raise (TransportError e)
               end).
Proof.
  induction remaining as [|k IH]; intros n batch w; rewrite retrying_step; cbv zeta.
  - exists [(fetch_request batch, net E (history w) (fetch_request batch))].
    destruct (net E (history w) (fetch_request batch)) as [data|[|name]] eqn:Ho;
      eexists; (split; [simpl; rewrite Z.add_simpl_r; reflexivity|]);
      (split; [simpl; lia|]); (split; [by repeat constructor|]);
      (split; [intros [|i] c Hc; [|done]; simpl in Hc; simplify_eq; simpl;
               by rewrite app_nil_r|]);
      (split; [intros [|i] c Hc Hi; simpl in *; lia|]);
      intros c Hc; simpl in Hc; simplify_eq; simpl; done.
  - destruct (net E (history w) (fetch_request batch)) as [data|[|name]] eqn:Ho.
    1, 3: exists [(fetch_request batch, net E (history w) (fetch_request batch))];
      rewrite Ho;
      eexists; (split; [simpl; rewrite Z.add_simpl_r; reflexivity|]);
      (split; [simpl; lia|]); (split; [by repeat constructor|]);
      (split; [intros [|i] c Hc; [|done]; simpl in Hc; simplify_eq; simpl;
               by rewrite app_nil_r|]);
      (split; [intros [|i] c Hc Hi; simpl in *; lia|]);
      intros c Hc; simpl in Hc; simplify_eq; simpl; done.
    destruct (IH (n + 1)%Z (set_attempt_count batch n)
                 (advance_world w [(fetch_request batch, Failed ReadTimeout)]
                                [Tenacity.wait_exponential 1 4 60 n]))
      as (calls & r & Heq & Hlen & Hreq & Hnet & Hto & Hlast).
    exists ((fetch_request batch, Failed ReadTimeout) :: calls), r.
    rewrite fetch_request_attempt_count in *.
    split; [|split; [|split; [|split; [|split]]]].
    + rewrite Heq. f_equal; [f_equal|].
      * unfold set_attempt_count; simpl. f_equal. lia.
      * rewrite advance_world_app. simpl length.
        replace (S (length calls) - 1)%nat with (S (length calls - 1)) by lia.
        by rewrite waits_from_S.
    + simpl. lia.
    + by constructor.
    + intros [|i] c Hc; simpl in Hc; simplify_eq; simpl.
      * by rewrite app_nil_r.
      * rewrite (Hnet _ _ Hc). simpl. by rewrite <- app_assoc.
    + intros [|i] c Hc Hi; simpl in *; simplify_eq; [done|].
      apply (Hto i); [done|lia].
    + intros c Hc. destruct calls as [|c0 calls']; [simpl in Hlen; lia|].
      simpl in Hc. specialize (Hlast c Hc).
      destruct (c.2) as [data|[|name]]; [done| |done].
      destruct Hlast as [Hl ->]. split; [simpl in *; lia|done].
Qed.

(** After the loop, [a_get_query_data] makes no request and does not
    sleep. *)
Lemma a_get_query_data_after_loop batch max_attempts w :
  let w1 := (retrying E (Z.to_nat (max_attempts - 1)) 1 batch w).2 in
  let w2 := (a_get_query_data E batch max_attempts w).2 in
  history w2 = history w1 /\ sleeps w2 = sleeps w1.
Proof.
  unfold a_get_query_data, conclude.
  destruct (retrying E (Z.to_nat (max_attempts - 1)) 1 batch w) as [[b r] w1].
  simpl. destruct r as [data|e].
  - destruct (not_ok (status_code data)); unfold bind, lift, ret, on_fs.
    + by destruct (Str.decode (content data)).
    + destruct (FS.mkdir _ _ _ _) as [[[]|e] fs1]; simpl; [|done].
      destruct (FS.open_w _ _) as [[[]|e] fs2]; simpl; [|done].
      destruct (Str.decode (content data)); simpl; [|done].
      by destruct (FS.write_text _ _ _) as [[[]|e] fs3].
  - by destruct e.
Qed.

End Retrying.

(** ** The retry loop of the download *)

Lemma wait_exponential_closed n :
  Tenacity.wait_exponential 1 4 60 n = Z.max 4 (Z.min 60 (2 ^ (n - 1))).
Proof. unfold Tenacity.wait_exponential. lia. Qed.

Lemma waits_from_closed k :
  waits_from 1 k
  = map (fun a => Z.max 4 (Z.min 60 (2 ^ (Z.of_nat a - 1)))) (seq 1 k).
Proof.
  unfold waits_from. rewrite <- seq_shift, map_map. apply map_ext. intros i.
  rewrite wait_exponential_closed. do 3 f_equal. lia.
Qed.

(** C2, as amended.  In the download of a batch every request is the
    batch's fetch request; an attempt is followed by another one only when
    it raised a read timeout, and a read timeout is followed by another
    attempt until [max(1, ceiling)] attempts are made; the wait after
    attempt [a] is [max(4, min(60, 2^(a-1)))] seconds; the default ceiling
    is 20 unless [SFDC_MAX_DOWNLOAD_ATTEMPTS] is set, and then it is the
    [int] of its value. *)
Theorem download_retry_schedule (E : Env) (batch : Batch) (max_attempts : Z) (w : World) :
  let w' := (a_get_query_data E batch max_attempts w).2 in
  (exists calls,
      history w' = history w ++ calls /\
      (1 <= length calls <= Z.to_nat (Z.max 1 max_attempts))%nat /\
      Forall (fun c => c.1 = fetch_request batch) calls /\
      (forall i c, calls !! i = Some c -> (S i < length calls)%nat ->
                   c.2 = Failed ReadTimeout) /\
      (forall c, last calls = Some c -> c.2 = Failed ReadTimeout ->
                 length calls = Z.to_nat (Z.max 1 max_attempts)) /\
      sleeps w' = sleeps w
                  ++ map (fun a => Z.max 4 (Z.min 60 (2 ^ (Z.of_nat a - 1))))
                         (seq 1 (length calls - 1))) /\
  (getenv E "SFDC_MAX_DOWNLOAD_ATTEMPTS" = None -> default_max_attempts E = Return 20%Z) /\
  (forall s, getenv E "SFDC_MAX_DOWNLOAD_ATTEMPTS" = Some s ->
             default_max_attempts E = Str.to_int s).
Proof.
  cbv zeta. split; [|split].
  - destruct (a_get_query_data_after_loop E batch max_attempts w) as [Hh Hs].
    rewrite Hh, Hs.
    destruct (retrying_trace E (Z.to_nat (max_attempts - 1)) 1 batch w)
      as (calls & r & Heq & Hlen & Hreq & _ & Hto & Hlast).
    rewrite Heq. simpl. exists calls.
    split; [done|]. split; [lia|]. split; [done|]. split; [done|]. split.
    + intros c Hc Hc2. specialize (Hlast c Hc). rewrite Hc2 in Hlast. lia.
    + by rewrite waits_from_closed.
  - intros H. unfold default_max_attempts. by rewrite H.
  - intros s H. unfold default_max_attempts. by rewrite H.
Qed.

(** C2, the claim as stated fails: with a ceiling of 20, two read timeouts
    and then an answer, the worker waits 4 and 4 seconds, where the claimed
    schedule [min(60, 4 * 2^(k-1))] asks for 4 and 8. *)
Lemma claimed_backoff_schedule_fails :
  let script := [Failed ReadTimeout; Failed ReadTimeout;
                 Responded (Sample.response 200 None "Id" None)] in
  let w' := (a_get_query_data (Sample.env script []) (Sample.batch 1 None) 20
                              (Sample.world ∅)).2 in
  sleeps w' = [4; 4]%Z /\
  sleeps w' <> map (fun k => Z.min 60 (4 * 2 ^ (k - 1)))%Z [1; 2]%Z.
Proof. vm_compute. split; [reflexivity | discriminate]. Qed.

Lemma a_get_query_data_exhausted (E : Env) (batch : Batch) (max_attempts : Z) (w : World) :
  let req := fetch_request batch in
  let ceiling := Z.max 1 max_attempts in
  let calls := replicate (Z.to_nat ceiling) (req, Failed ReadTimeout) in
  (forall j, (j < Z.to_nat ceiling)%nat ->
             net E (history w ++ replicate j (req, Failed ReadTimeout)) req
             = Failed ReadTimeout) ->
  a_get_query_data E batch max_attempts w
  = (Return (exhausted (future_address E (history w ++ calls)) batch ceiling),
     advance_world w calls (waits_from 1 (Z.to_nat ceiling - 1))).
Proof.
  intros req ceiling calls H. unfold a_get_query_data, conclude.
  rewrite retrying_all_timeouts by (intros j Hj; apply H; unfold ceiling; lia).
  fold req. unfold calls.
  replace (S (Z.to_nat (max_attempts - 1))) with (Z.to_nat ceiling)
    by (unfold ceiling; lia).
  replace (Z.to_nat ceiling - 1)%nat with (Z.to_nat (max_attempts - 1))
    by (unfold ceiling; lia).
  replace (1 + Z.of_nat (Z.to_nat (max_attempts - 1)))%Z with ceiling
    by (unfold ceiling; lia).
  reflexivity.
Qed.

(** ** The pool of downloads *)

Section Pool.

Context (E : Env).

Lemma conclude_frame batch r w :
  history (conclude E batch r w).2 = history w /\
  sleeps (conclude E batch r w).2 = sleeps w.
Proof.
  unfold conclude. destruct r as [data|e]; [|by destruct e].
  destruct (not_ok (status_code data)); unfold bind, lift, ret, on_fs.
  - by destruct (Str.decode (content data)).
  - destruct (FS.mkdir _ _ _ _) as [[[]|e] fs1]; simpl; [|done].
    destruct (FS.open_w _ _) as [[[]|e] fs2]; simpl; [|done].
    destruct (Str.decode (content data)); simpl; [|done].
    by destruct (FS.write_text _ _ _) as [[[]|e] fs3].
Qed.

(** What [conclude] returns. *)
Lemma conclude_returns (planned : Batch) (n max_attempts : Z) r w result w' :
  (1 <= n <= Z.max 1 max_attempts)%Z ->
  conclude E (set_attempt_count planned n) r w = (Return result, w') ->
  downloaded max_attempts planned result /\
  (status result = "FAILED" -> fs w' = fs w) /\
  (r = Raise (RetryError ReadTimeout) ->
   result = exhausted (future_address E (history w)) planned n) /\
  (forall e, r = Raise e -> exists err, e = RetryError err).
Proof.
  intros Hn. unfold conclude.
  assert (same_unit planned (set_attempt_count planned n)) as Hunit by by repeat split.
  destruct r as [data|e].
  - destruct (not_ok (status_code data)).
    + unfold bind, lift, ret. destruct (Str.decode (content data)); [|done].
      intros [= <- <-]. split; [|done].
      split; [done|]. split; [done|]. split; [by eexists|]. by right.
    + unfold bind, on_fs, lift, ret. simpl fs.
      destruct (FS.mkdir _ _ _ _) as [[[]|e] fs1]; [|done]. simpl.
      destruct (FS.open_w _ _) as [[[]|e] fs2]; [|done]. simpl.
      destruct (Str.decode (content data)); [|done]. simpl.
      destruct (FS.write_text _ _ _) as [[[]|e] fs3]; [|done].
      intros [= <- <-]. split; [|done].
      split; [done|]. split; [done|]. split; [by eexists|]. by left.
  - destruct e; try done. intros [= <- <-]. split; [|split; [done|split]].
    + split; [done|]. split; [done|]. split; [by eexists|]. by right.
    + by intros [= ->].
    + intros e [= <-]. by eexists.
Qed.

(** What [conclude] raises: what the loop raised, or an exception met
    after a response. *)
Lemma conclude_raises batch r w e w' :
  conclude E batch r w = (Raise e, w') ->
  (forall err, e <> RetryError err) /\
  ((exists data, r = Return data) \/ r = Raise e).
Proof.
  unfold conclude. destruct r as [data|e0].
  - intros Hrun. split; [|left; by eexists]. intros err ->. revert Hrun.
    destruct (not_ok (status_code data)).
    + unfold bind, lift, ret, Str.decode. by destruct (Str.utf8_valid _).
    + unfold bind, on_fs, lift, ret, FS.open_w, Str.decode. simpl fs.
      destruct (FS.mkdir _ _ _ _) as [[[]|e] fs1] eqn:Hmk; simpl.
      2: { intros [= -> _]. revert Hmk. unfold FS.mkdir.
           generalize (2 * length (Pathlib.Path [download_path batch]))%nat.
           intros fuel. revert fs1.
           generalize (Pathlib.Path [download_path batch]) as p.
           generalize (fs w) as fs0. generalize true as exist_ok.
           generalize false as parents.
           induction fuel as [|fuel IH]; intros parents exist_ok fs0 p fs1; simpl;
             unfold FS.os_mkdir; repeat case_match; intros; simplify_eq; eauto. }
      destruct (FS.write_text _ _ fs1) as [[[]|e] fs2] eqn:Hopen; simpl.
      2: { intros [= -> _]. revert Hopen. unfold FS.write_text.
           repeat case_match; intros; simplify_eq. }
      destruct (Str.utf8_valid _); simpl; [|done].
      destruct (FS.write_text _ _ fs2) as [[[]|e] fs3] eqn:Hwrite; simpl; [done|].
      intros [= -> _]. revert Hwrite. unfold FS.write_text.
      repeat case_match; intros; simplify_eq.
  - destruct e0; try done; intros [= <- <-]; (split; [done|by right]).
Qed.

Lemma tracks_more max_attempts calls more planned t :
  tracks max_attempts calls planned t -> tracks max_attempts (calls ++ more) planned t.
Proof.
  assert (forall c, c ∈ calls -> c ∈ calls ++ more) as Hin
      by (intros c Hc; apply elem_of_app; by left).
  assert (answered planned calls -> answered planned (calls ++ more)) as Hans.
  { intros (o & Ho & Hne). exists o. split; [by apply Hin|done]. }
  destruct t as [remaining n b|b r|[result|e]]; simpl.
  - done.
  - intros (n & Hb & Hn & Hr). exists n. split; [done|]. split; [done|].
    destruct r as [data|e]; [by apply Hin|].
    destruct e; try done. destruct Hr as [He Hc]. split; [done|by apply Hin].
  - intros [Hd [Hex|Ha]]; (split; [done|]); [by left|right; by apply Hans].
  - intros [Ha He]. split; [by apply Hans|done].
Qed.

Lemma tracks_start max_attempts planned :
  tracks max_attempts [] planned (Attempting (Z.to_nat (max_attempts - 1)) 1 planned).
Proof.
  simpl. split; [|lia]. exists (attempt_count planned). by destruct planned.
Qed.

(** One step of a download. *)
Lemma step_tracks max_attempts calls planned t w :
  tracks max_attempts calls planned t ->
  exists new,
    history (step E t w).2 = history w ++ new /\
    Forall (fun c => c.1 = fetch_request planned) new /\
    tracks max_attempts (calls ++ new) planned (step E t w).1 /\
    (active t = true -> (weight (step E t w).1 < weight t)%nat).
Proof.
  destruct t as [remaining n b|b r|r]; simpl.
  - intros ((c & ->) & Hn & Hsum).
    rewrite send_eq, fetch_request_attempt_count, fetch_request_attempt_count.
    set (req := fetch_request planned).
    destruct (net E (history w) req) as [data|[|name]] eqn:Ho.
    + exists [(req, Responded data)]. simpl. split; [done|].
      split; [by repeat constructor|]. split; [|lia].
      exists n. split; [done|]. split; [lia|].
      apply elem_of_app. right. apply list_elem_of_here.
    + cbn [Tenacity.retry_if_read_timeout]. destruct remaining as [|remaining].
      * exists [(req, Failed ReadTimeout)]. simpl. split; [done|].
        split; [by repeat constructor|]. split; [|lia].
        exists n. split; [done|]. split; [lia|]. split; [done|lia].
      * exists [(req, Failed ReadTimeout)]. simpl. split; [done|].
        split; [by repeat constructor|]. split; [|lia].
        split; [by exists n|]. lia.
    + exists [(req, Failed (OtherTransportError name))]. simpl.
      split; [done|].
      split; [by repeat constructor|]. split; [|lia].
      exists n. split; [done|]. split; [lia|]. split; [done|].
      apply elem_of_app. right. apply list_elem_of_here.
  - intros (n & -> & Hn & Hr). exists [].
    destruct (conclude_frame (set_attempt_count planned n) r w) as [Hh _].
    destruct (conclude E (set_attempt_count planned n) r w) as [[result|e] w1] eqn:Hrun;
      simpl in *; (split; [by rewrite app_nil_r|]); (split; [constructor|]);
      rewrite app_nil_r; (split; [|lia]).
    + destruct (conclude_returns planned n max_attempts r w result w1 Hn Hrun)
        as (Hd & _ & Hex & Hraise).
      split; [done|]. destruct r as [data|e].
      * right. by eexists.
      * destruct (Hraise e eq_refl) as [err ->]. destruct Hr as [-> ->].
        left. eexists. by apply Hex.
    + destruct (conclude_raises _ _ _ _ _ Hrun) as [Hne [[data ->]| ->]].
      * split; [|done]. by eexists.
      * split; [|done]. destruct e; try done.
        destruct Hr as [He Hc]. eexists. split; [exact Hc|]. by intros [= ->].
  - intros Ht. exists []. rewrite !app_nil_r. split; [done|].
    split; [constructor|]. split; [done|]. done.
Qed.

Lemma active_weight t : active t = false <-> weight t = 0%nat.
Proof. destruct t; simpl; split; intros; (done || lia). Qed.

Lemma under_way_weight tasks :
  (under_way tasks <= total_weight tasks)%nat /\
  (under_way tasks = 0%nat -> total_weight tasks = 0%nat).
Proof.
  induction tasks as [|t tasks [IH1 IH2]]; simpl; [done|].
  destruct t; simpl; split; lia.
Qed.

(** One step of the pool. *)
Lemma advance_tracks max_attempts calls (lots : list Batch) : forall tasks i w,
  Forall2 (tracks max_attempts calls) lots tasks ->
  exists new,
    history (advance E i tasks w).2 = history w ++ new /\
    Forall (fun c => exists batch, batch ∈ lots /\ c.1 = fetch_request batch) new /\
    Forall2 (tracks max_attempts (calls ++ new)) lots (advance E i tasks w).1 /\
    ((i < under_way tasks)%nat ->
     (total_weight (advance E i tasks w).1 < total_weight tasks)%nat).
Proof.
  induction lots as [|planned lots IH]; intros tasks i w Hall.
  - apply Forall2_nil_inv_l in Hall as ->. exists []. simpl.
    rewrite !app_nil_r. repeat split; try constructor. lia.
  - apply Forall2_cons_inv_l in Hall as (t & rest & Ht & Hrest & ->).
    assert (forall j,
               exists new,
                 history (let (rest', w') := advance E j rest w in (t :: rest', w')).2
                 = history w ++ new /\
                 Forall (fun c => exists batch, batch ∈ planned :: lots /\
                                                c.1 = fetch_request batch) new /\
                 Forall2 (tracks max_attempts (calls ++ new)) (planned :: lots)
                         (let (rest', w') := advance E j rest w in (t :: rest', w')).1 /\
                 ((j < under_way rest)%nat ->
                  (total_weight (let (rest', w') := advance E j rest w
                                 in (t :: rest', w')).1
                   < total_weight (t :: rest))%nat)) as Hskip.
    { intros j. destruct (IH rest j w Hrest) as (new & Hh & Hnew & Hall & Hw).
      exists new. destruct (advance E j rest w) as [rest' w']. simpl in *.
      split; [done|]. split.
      { eapply Forall_impl; [exact Hnew|]. intros c (b & Hb & Hc).
        exists b. split; [by apply list_elem_of_further|done]. }
      split; [constructor; [by apply tracks_more|done]|]. lia. }
    cbn [advance under_way]. destruct (active t) eqn:Hactive; [|apply Hskip].
    destruct i as [|i].
    + destruct (step_tracks max_attempts calls planned t w Ht)
        as (new & Hh & Hnew & Ht' & Hw).
      exists new. destruct (step E t w) as [t' w']. simpl in *.
      split; [done|]. split.
      { eapply Forall_impl; [exact Hnew|]. intros c Hc.
        exists planned. split; [apply list_elem_of_here|done]. }
      split.
      { constructor; [done|]. eapply Forall2_impl; [exact Hrest|].
        intros p t0. apply tracks_more. }
      intros _. specialize (Hw Hactive). unfold total_weight in *. simpl in *. lia.
    + destruct (Hskip i) as (new & Hh & Hnew & Hall & Hw).
      exists new. repeat (split; [done|]). intros Hi. apply Hw. lia.
Qed.

(** The pool at work. *)
Lemma run_tracks max_attempts (lots : list Batch) (fuel : nat) : forall calls tasks w,
  Forall2 (tracks max_attempts calls) lots tasks ->
  exists new,
    history (run E fuel tasks w).2 = history w ++ new /\
    Forall (fun c => exists batch, batch ∈ lots /\ c.1 = fetch_request batch) new /\
    Forall2 (tracks max_attempts (calls ++ new)) lots (run E fuel tasks w).1 /\
    ((total_weight tasks <= fuel)%nat ->
     under_way (run E fuel tasks w).1 = 0%nat \/ failure (run E fuel tasks w).1 <> None).
Proof.
  induction fuel as [|fuel IH]; intros calls tasks w Hall.
  - exists []. simpl. rewrite !app_nil_r. repeat (split; [done || constructor|]).
    intros Hw. left. pose proof (under_way_weight tasks). lia.
  - assert (exists new,
               history (tasks, w).2 = history w ++ new /\
               Forall (fun c => exists batch, batch ∈ lots /\ c.1 = fetch_request batch)
                      new /\
               Forall2 (tracks max_attempts (calls ++ new)) lots (tasks, w).1) as Hstop.
    { exists []. simpl. rewrite !app_nil_r. repeat (split; [done || constructor|]). done. }
    assert (forall i, (i < under_way tasks)%nat ->
               exists new,
                 history (let (tasks', w') := advance E i tasks w
                          in run E fuel tasks' w').2 = history w ++ new /\
                 Forall (fun c => exists batch, batch ∈ lots /\ c.1 = fetch_request batch)
                        new /\
                 Forall2 (tracks max_attempts (calls ++ new)) lots
                         (let (tasks', w') := advance E i tasks w
                          in run E fuel tasks' w').1 /\
                 ((total_weight tasks <= S fuel)%nat ->
                  under_way (let (tasks', w') := advance E i tasks w
                             in run E fuel tasks' w').1 = 0%nat \/
                  failure (let (tasks', w') := advance E i tasks w
                           in run E fuel tasks' w').1 <> None)) as Hgo.
    { intros i Hi.
      destruct (advance_tracks max_attempts calls lots tasks i w Hall)
        as (new1 & Hh1 & Hnew1 & Hall1 & Hw1).
      destruct (advance E i tasks w) as [tasks' w']. simpl in *.
      destruct (IH (calls ++ new1) tasks' w' Hall1) as (new2 & Hh2 & Hnew2 & Hall2 & Hw2).
      exists (new1 ++ new2). rewrite Hh2, Hh1, !app_assoc.
      split; [done|]. split; [by apply Forall_app|]. split; [done|].
      intros Hw. apply Hw2. specialize (Hw1 Hi). lia. }
    cbn [run]. destruct (under_way tasks) as [|k] eqn:Hk.
    { destruct Hstop as (new & ? & ? & ?). exists new. repeat (split; [done|]).
      intros _. left. exact Hk. }
    destruct (schedule E (history w) (S k)) as [i|].
    + apply Hgo. apply Nat.mod_upper_bound. lia.
    + destruct (failure tasks) as [e|] eqn:Hf.
      * destruct Hstop as (new & ? & ? & ?). exists new. repeat (split; [done|]).
        intros _. right. simpl. by rewrite Hf.
      * apply Hgo. lia.
Qed.

(** What the parent makes of a pool that is over. *)
Lemma collect_over (tasks : list Task) :
  under_way tasks = 0%nat \/ failure tasks <> None ->
  match collect tasks with
  | Return batches => Forall2 (fun t batch => t = Finished (Return batch)) tasks batches
  | Raise e => exists cause, Finished (Raise cause) ∈ tasks /\ e = ProxyException cause
  end.
Proof.
  induction tasks as [|t tasks IH]; simpl; [constructor|].
  destruct t as [remaining n b|b r|[result|e]]; simpl.
  - intros [?|?]; done.
  - intros [?|?]; done.
  - intros Hover. specialize (IH Hover). destruct (collect tasks) as [batches|e].
    + by constructor.
    + destruct IH as (cause & Hin & ->). exists cause.
      split; [by apply list_elem_of_further|done].
  - intros _. exists e. split; [apply list_elem_of_here|done].
Qed.

Lemma total_weight_start remaining (lots : list Batch) :
  total_weight (map (Attempting remaining 1) lots) = (length lots * (remaining + 2))%nat.
Proof. induction lots as [|b lots IH]; simpl; [done|]. rewrite IH. lia. Qed.

(** [pull_batches] in short: the outcome of the pool, read in the terms
    of the batches. *)
Lemma pull_batches_run (lots : list Batch) (max_attempts : Z) (w : World) :
  default_max_attempts E = Return max_attempts ->
  exists tasks new w',
    pull_batches E lots w = (collect tasks, w') /\
    history w' = history w ++ new /\
    Forall (fun c => exists batch, batch ∈ lots /\ c.1 = fetch_request batch) new /\
    Forall2 (tracks max_attempts new) lots tasks /\
    (under_way tasks = 0%nat \/ failure tasks <> None).
Proof.
  intros Hdef. unfold pull_batches, bind, lift. rewrite Hdef.
  set (remaining := Z.to_nat (max_attempts - 1)).
  assert (Forall2 (tracks max_attempts []) lots (map (Attempting remaining 1) lots))
    as Hstart.
  { induction lots as [|b lots IH]; simpl; constructor; [apply tracks_start|done]. }
  destruct (run_tracks max_attempts lots (length lots * (remaining + 2)) []
              (map (Attempting remaining 1) lots) w Hstart)
    as (new & Hh & Hnew & Hall & Hover).
  destruct (run E _ _ w) as [tasks w']. simpl in *.
  exists tasks, new, w'. repeat (split; [done|]).
  apply Hover. by rewrite total_weight_start.
Qed.

(** A pool of one download is [a_get_query_data], whatever the
    scheduler. *)
Lemma run_alone (remaining : nat) : forall fuel n batch w,
  (remaining + 2 <= fuel)%nat ->
  run E fuel [Attempting remaining n batch] w
  = match retrying E remaining n batch w with
    | ((b, r), w1) =>
        match conclude E b r w1 with
        | (result, w2) => ([Finished result], w2)
        end
    end.
Proof.
  assert (forall fuel t w, run E (S fuel) [t] w
                           = if active t
                             then match step E t w with
                                  | (t', w') => run E fuel [t'] w'
                                  end
                             else ([t], w)) as Hrun.
  { intros fuel t w. cbn [run under_way]. destruct (active t) eqn:Ht; [|done].
    cbn [advance failure]. destruct (schedule E (history w) 1) as [i|].
    - rewrite Nat.mod_1_r. cbn [advance]. rewrite Ht. by destruct (step E t w).
    - destruct t as [? ? ?|? ?|?]; [| |done]; cbn [advance active]; by destruct (step E _ w). }
  assert (forall fuel b r w, (1 <= fuel)%nat ->
             run E fuel [Ended b r] w
             = match conclude E b r w with
               | (result, w2) => ([Finished result], w2)
               end) as Hend.
  { intros [|fuel] b r w Hfuel; [lia|]. rewrite Hrun. cbn [active step].
    destruct (conclude E b r w) as [result w2]. by destruct fuel. }
  induction remaining as [|remaining IH]; intros [|fuel] n batch w Hfuel; try lia;
    rewrite Hrun, retrying_step; cbn [active step]; cbv zeta;
    rewrite send_eq, !fetch_request_attempt_count;
    destruct (net E (history w) (fetch_request batch)) as [data|[|name]];
    cbn [Tenacity.retry_if_read_timeout]; try (rewrite Hend by lia; reflexivity).
  cbn [sleep]. rewrite IH by lia. do 2 f_equal.
  unfold advance_world; simpl. by rewrite !app_nil_r.
Qed.

Lemma pull_batches_alone (batch : Batch) (max_attempts : Z) (w : World) :
  default_max_attempts E = Return max_attempts ->
  pull_batches E [batch] w
  = match a_get_query_data E batch max_attempts w with
    | (Return result, w') => (Return [result], w')
    | (Raise e, w') => (Raise (ProxyException e), w')
    end.
Proof.
  intros Hdef. unfold pull_batches, bind, lift. rewrite Hdef.
  cbn [map length]. rewrite run_alone by lia. unfold a_get_query_data.
  destruct (retrying E _ 1 batch w) as [[b r] w1].
  by destruct (conclude E b r w1) as [[result|e] w2].
Qed.

(** What [pull_batches] has done when it returns. *)
Lemma pull_batches_returns (lots done : list Batch) (w w' : World) :
  pull_batches E lots w = (Return done, w') ->
  exists max_attempts made,
    default_max_attempts E = Return max_attempts /\
    history w' = history w ++ made /\
    Forall (fun c => exists batch, batch ∈ lots /\ c.1 = fetch_request batch) made /\
    Forall2 (fun planned result =>
               downloaded max_attempts planned result /\
               ((exists address,
                    result = exhausted address planned (Z.max 1 max_attempts)) \/
                answered planned made)) lots done.
Proof.
  destruct (default_max_attempts E) as [max_attempts|e] eqn:Hdef.
  2: { unfold pull_batches, bind, lift. by rewrite Hdef. }
  destruct (pull_batches_run lots max_attempts w Hdef)
    as (tasks & made & w1 & -> & Hh & Hmade & Hall & Hover).
  intros [= Hdone <-]. exists max_attempts, made. repeat (split; [done|]).
  pose proof (collect_over tasks Hover) as Hc. rewrite Hdone in Hc.
  clear Hdone Hover Hh Hmade. revert tasks done Hall Hc.
  induction lots as [|planned lots IH]; intros tasks done Hall Hc.
  - apply Forall2_nil_inv_l in Hall as ->. apply Forall2_nil_inv_l in Hc as ->.
    constructor.
  - apply Forall2_cons_inv_l in Hall as (t & rest & Ht & Hrest & ->).
    apply Forall2_cons_inv_l in Hc as (result & others & -> & Hothers & ->).
    constructor; [exact Ht|by eapply IH].
Qed.

(** What [pull_batches] has done when it raises beyond the reading of the
    default ceiling. *)
Lemma pull_batches_raises (lots : list Batch) (max_attempts : Z) (w w' : World) e :
  default_max_attempts E = Return max_attempts ->
  pull_batches E lots w = (Raise e, w') ->
  exists made cause other,
    history w' = history w ++ made /\
    e = ProxyException cause /\
    (forall err, cause <> RetryError err) /\
    other ∈ lots /\ answered other made.
Proof.
  intros Hdef.
  destruct (pull_batches_run lots max_attempts w Hdef)
    as (tasks & made & w1 & -> & Hh & Hmade & Hall & Hover).
  intros [= Hraise <-]. exists made.
  pose proof (collect_over tasks Hover) as Hc. rewrite Hraise in Hc.
  destruct Hc as (cause & Hin & ->). exists cause.
  apply list_elem_of_lookup in Hin as [i Hi].
  destruct (Forall2_lookup_r _ _ _ _ _ Hall Hi) as (other & Hother & Ht).
  exists other. simpl in Ht. destruct Ht as [Ha Hne].
  split; [done|]. split; [done|]. split; [done|].
  split; [by eapply list_elem_of_lookup_2|done].
Qed.

End Pool.

(** C3, as amended.  A batch whose every attempt raises a read timeout
    until [max(1, ceiling)] attempts are made is returned with status
    FAILED, [attempt_count = max(1, ceiling)] and a message that holds the
    [RetryError] and the [ReadTimeout] it gave up on; the file system is
    left as it was, so no file is written at its path.  The failure stays
    in the batch: whatever the pool does with the downloads of a list of
    batches, when every request for this batch has timed out the pull
    returns the batch, failed in that way, at its place in the list, and
    the others as their own downloads have left them; and when the pull
    raises, it is for a batch one of whose requests has met something else
    than a read timeout. *)
Theorem exhausted_batch_is_failed_alone (E : Env) (batch : Batch) (max_attempts : Z) :
  let req := fetch_request batch in
  let ceiling := Z.max 1 max_attempts in
  (forall w,
      (forall j, (j < Z.to_nat ceiling)%nat ->
                 net E (history w ++ replicate j (req, Failed ReadTimeout)) req
                 = Failed ReadTimeout) ->
      exists failed w',
        a_get_query_data E batch max_attempts w = (Return failed, w') /\
        status failed = "FAILED" /\
        attempt_count failed = ceiling /\
        message failed
        = Some ("Error occurred while downloading job data after : "
                +:+ "RetryError[<Future at " +:+ future_address E (history w')
                +:+ " state=finished raised ReadTimeout>]") /\
        downloaded_file_path failed = downloaded_file_path batch /\
        file_name failed = file_name batch /\
        fs w' = fs w /\
        history w' = history w ++ replicate (Z.to_nat ceiling) (req, Failed ReadTimeout)) /\
  (forall lots w,
      let run := pull_batches E lots w in
      let made := drop (length (history w)) (history run.2) in
      default_max_attempts E = Return max_attempts ->
      (forall o, (req, o) ∈ made -> o = Failed ReadTimeout) ->
      (forall done,
          run.1 = Return done ->
          Forall2 (downloaded max_attempts) lots done /\
          forall (i : nat), lots !! i = Some batch ->
                    exists failed address,
                      done !! i = Some failed /\
                      failed = exhausted address batch ceiling /\
                      status failed = "FAILED" /\
                      attempt_count failed = ceiling /\
                      downloaded_file_path failed = downloaded_file_path batch /\
                      file_name failed = file_name batch) /\
      (forall e,
          run.1 = Raise e ->
          exists cause other o,
            e = ProxyException cause /\ other ∈ lots /\
            (fetch_request other, o) ∈ made /\ o <> Failed ReadTimeout /\
            fetch_request other <> req)).
Proof.
  intros req ceiling. split.
  - intros w H.
    pose proof (a_get_query_data_exhausted E batch max_attempts w H) as Hrun.
    simpl in Hrun. fold req ceiling in Hrun.
    eexists _, _. split; [exact Hrun|]. simpl.
    repeat (split; [reflexivity|]). reflexivity.
  - intros lots w run made Hdef Hto. split.
    + intros done Hdone.
      destruct (pull_batches E lots w) as [r w'] eqn:Hrun. simpl in *. subst r.
      apply pull_batches_returns in Hrun
        as (max' & calls & Hdef' & Hh & _ & Hall).
      rewrite Hdef in Hdef'. injection Hdef' as <-.
      unfold made in Hto. rewrite Hh, drop_app_length in Hto.
      split.
      { eapply Forall2_impl; [exact Hall|]. by intros p b [Hd _]. }
      intros i Hi.
      destruct (Forall2_lookup_l _ _ _ _ _ Hall Hi) as (failed & Hfailed & _ & Hex).
      destruct Hex as [[address ->]|(o & Ho & Hne)].
      * exists (exhausted address batch ceiling), address. by repeat split.
      * by specialize (Hto o Ho).
    + intros e He.
      destruct (pull_batches E lots w) as [r w'] eqn:Hrun. simpl in *. subst r.
      apply (pull_batches_raises E lots max_attempts) in Hrun
        as (calls & cause & other & Hh & -> & _ & Hother & o & Ho & Hne); [|done].
      unfold made in *. rewrite Hh, drop_app_length in *.
      exists cause, other, o. repeat (split; [done|]).
      intros Heq. rewrite Heq in Ho. by specialize (Hto o Ho).
Qed.

(** ** Names and paths of the downloaded files *)

Lemma contains_app c a b :
  Str.contains c (a +:+ b) = Str.contains c a || Str.contains c b.
Proof. induction a as [|x a IH]; simpl; [done|]. by rewrite IH, orb_assoc. Qed.

Lemma pretty_N_go_no_slash (x : N) : forall s,
  Str.contains "/" s = false -> Str.contains "/" (pretty_N_go x s) = false.
Proof.
  induction (N.lt_wf_0 x) as [x _ IH]; intros s Hs.
  destruct (decide (x = 0)%N) as [->|Hx]; [by rewrite pretty_N_go_0|].
  rewrite pretty_N_go_step by lia. apply IH.
  - apply N.div_lt; lia.
  - simpl. rewrite Hs, orb_false_r. apply bool_decide_eq_false.
    unfold pretty_N_char. by repeat case_match.
Qed.

Lemma pretty_Z_no_slash (z : Z) : Str.contains "/" (pretty z) = false.
Proof.
  assert (forall n : N, Str.contains "/" (pretty n) = false) as HN.
  { intros n. unfold pretty, pretty_N. case_decide; [done|].
    by apply pretty_N_go_no_slash. }
  destruct z; unfold pretty, pretty_Z; simpl; try done; apply HN.
Qed.

Lemma split_on_no_slash s :
  Str.contains "/" s = false -> Str.split_on "/" s = [s].
Proof.
  induction s as [|a s IH]; simpl; [done|]. intros H.
  apply orb_false_iff in H as [Ha Hs]. apply bool_decide_eq_false in Ha.
  rewrite decide_False by done. by rewrite IH.
Qed.

Lemma parse_no_slash s :
  Str.contains "/" s = false -> s <> "" -> s <> "." -> Pathlib.parse s = [s].
Proof.
  intros H H1 H2. unfold Pathlib.parse. rewrite split_on_no_slash by done.
  assert (Pathlib.anchor s = []) as ->.
  { destruct s as [|a s]; [done|]. simpl in H.
    apply orb_false_iff in H as [Ha _]. apply bool_decide_eq_false in Ha.
    unfold Pathlib.anchor. by repeat case_match; simplify_eq. }
  simpl. rewrite filter_cons_True by done. done.
Qed.

Lemma csv_name_parts (batch : Batch) :
  Str.contains "/" (job_id batch) = false ->
  forall directory,
    Pathlib.joinpath directory (csv_name batch) = directory ++ [csv_name batch] /\
    Pathlib.is_anchor (csv_name batch) = false.
Proof.
  intros H directory.
  assert (Str.contains "/" (csv_name batch) = false) as Hname.
  { unfold csv_name. by rewrite !contains_app, H, pretty_Z_no_slash. }
  assert (Str.contains "_" (csv_name batch) = true) as Hus.
  { unfold csv_name. rewrite !contains_app. simpl. by rewrite orb_true_r. }
  split.
  - unfold Pathlib.joinpath.
    assert (Pathlib.is_absolute (csv_name batch) = false) as ->.
    { destruct (csv_name batch) as [|a s]; [done|]. simpl in Hname.
      apply orb_false_iff in Hname as [Ha _]. apply bool_decide_eq_false in Ha.
      unfold Pathlib.is_absolute. by repeat case_match; simplify_eq. }
    rewrite parse_no_slash; [done|done| |]; intros Heq; by rewrite Heq in Hus.
  - unfold Pathlib.is_anchor. apply orb_false_iff.
    split; apply bool_decide_eq_false; intros Heq; by rewrite Heq in Hname.
Qed.

(** ** The file system under [mkdir] and [write] *)

Lemma parent_snoc (directory : list string) (name : string) :
  Pathlib.is_anchor name = false -> Pathlib.parent (directory ++ [name]) = directory.
Proof.
  intros H. destruct directory as [|a [|b t]]; simpl.
  - by rewrite H.
  - done.
  - f_equal. destruct (t ++ [name]) eqn:Ht; [by destruct t|]. rewrite <- Ht.
    f_equal. apply removelast_last.
Qed.

Lemma node_snoc fs (directory : list string) (name : string) :
  Pathlib.is_anchor name = false ->
  FS.node fs (directory ++ [name]) = fs !! (directory ++ [name]).
Proof.
  intros H. destruct directory as [|a [|b t]]; simpl; [by rewrite H|done|done].
Qed.

Lemma node_insert_eq fs (p : list string) (n : Node) :
  n = Dir \/ FS.node fs p = None -> FS.node (<[p := n]> fs) p = Some n.
Proof.
  intros H. destruct p as [|a [|b t]]; simpl.
  - by destruct H as [->|H].
  - destruct (Pathlib.is_anchor a) eqn:Ha; [|by rewrite lookup_insert_eq].
    destruct H as [->|H]; [done|]. simpl in H. by rewrite Ha in H.
  - by rewrite lookup_insert_eq.
Qed.

Lemma node_insert_ne fs (p q : list string) (n : Node) :
  p <> q -> FS.node (<[p := n]> fs) q = FS.node fs q.
Proof.
  intros H. destruct q as [|a [|b t]]; simpl; [done| |by rewrite lookup_insert_ne].
  destruct (Pathlib.is_anchor a); [done|]. by rewrite lookup_insert_ne.
Qed.

(** [mkdir(exist_ok=True)] below an existing directory: the directory is
    there afterwards and nothing else has changed. *)
Lemma mkdir_exist_ok fs (p : list string) :
  FS.node fs (Pathlib.parent p) = Some Dir ->
  FS.node fs p = None \/ FS.node fs p = Some Dir ->
  exists fs', FS.mkdir false true p fs = (Return (), fs') /\
              FS.node fs' p = Some Dir /\
              (forall q, q <> p -> FS.node fs' q = FS.node fs q).
Proof.
  intros Hparent Hp. unfold FS.mkdir.
  assert (forall fuel, FS.mkdir_fuel fuel false true p fs
                       = match FS.node fs p with
                         | None => (Return (), <[p := Dir]> fs)
                         | Some _ => (Return (), fs)
                         end) as ->.
  { intros fuel. destruct fuel; simpl; unfold FS.os_mkdir; rewrite Hparent;
      destruct Hp as [-> | Hp]; try done; rewrite Hp; simpl;
      unfold FS.is_dir; by rewrite bool_decide_eq_true_2. }
  destruct Hp as [Hp|Hp]; rewrite Hp.
  - eexists. split; [done|]. split; [apply node_insert_eq; by left|].
    intros q Hq. by apply node_insert_ne.
  - by eexists.
Qed.

Lemma write_text_ok fs (p : list string) (text : string) :
  FS.node fs p <> Some Dir ->
  FS.node fs (Pathlib.parent p) = Some Dir ->
  FS.write_text p text fs = (Return (), <[p := File text]> fs).
Proof.
  intros Hp Hparent. unfold FS.write_text. rewrite Hparent.
  by destruct (FS.node fs p) as [[|c]|].
Qed.

(** ** A batch that is answered *)

Lemma csv_name_set_attempt_count b n : csv_name (set_attempt_count b n) = csv_name b.
Proof. reflexivity. Qed.

Lemma csv_name_set_outcome b s m : csv_name (set_outcome b s m) = csv_name b.
Proof. reflexivity. Qed.

Lemma download_path_set_attempt_count b n :
  download_path (set_attempt_count b n) = download_path b.
Proof. reflexivity. Qed.

Lemma split_on_sep (p t : string) :
  Str.contains "/" p = false ->
  Str.split_on "/" (p +:+ String "/" t) = p :: Str.split_on "/" t.
Proof.
  induction p as [|a p IH]; intros H.
  - reflexivity.
  - simpl in H. apply orb_false_iff in H as [Ha Hp].
    apply bool_decide_eq_false in Ha.
    change (String a p +:+ String "/" t) with (String a (p +:+ String "/" t)).
    cbn [Str.split_on]. rewrite decide_False by done. by rewrite IH.
Qed.

Lemma split_on_join (written : list string) :
  Forall (fun part => Str.contains "/" part = false) written -> written <> [] ->
  Str.split_on "/" (Str.join "/" written) = written.
Proof.
  induction written as [|p [|q rest] IH]; intros Hall Hne; [done| |].
  - apply Forall_cons in Hall as [Hp _]. by apply split_on_no_slash.
  - apply Forall_cons in Hall as [Hp Hrest].
    change (Str.join "/" (p :: q :: rest))
      with (p +:+ String "/" (Str.join "/" (q :: rest))).
    rewrite split_on_sep by done. by rewrite IH.
Qed.

Lemma join_head (written : list string) :
  well_written written -> written <> [] ->
  exists a s, Str.join "/" written = String a s /\ a <> "/"%char.
Proof.
  intros [Hall Hhead] Hne. destruct written as [|p rest]; [done|].
  apply Forall_cons in Hall as [(Hp & _) _].
  destruct p as [|a p]; [done|]. simpl in Hp.
  apply orb_false_iff in Hp as [Ha _]. apply bool_decide_eq_false in Ha.
  destruct rest as [|q rest]; by eexists _, _.
Qed.

(** [Path(text)] for the text of a path is the path of its parts. *)
Lemma Path_spelled (absolute : bool) (written : list string) :
  well_written written ->
  Pathlib.Path [spelled absolute written]
  = (if absolute then ["/"] else []) ++ named written.
Proof.
  intros Hwritten.
  assert (Pathlib.Path [spelled absolute written]
          = Pathlib.parse (spelled absolute written)) as ->.
  { unfold Pathlib.Path, Pathlib.joinpath. simpl. by case_match. }
  unfold Pathlib.parse, spelled, named.
  destruct (decide (written = [])) as [->|Hne].
  { by destruct absolute. }
  destruct (join_head written Hwritten Hne) as (a & s & Hjoin & Ha).
  assert (Str.split_on "/" (Str.join "/" written) = written) as Hsplit.
  { apply split_on_join; [|done]. destruct Hwritten as [Hall _].
    eapply Forall_impl; [exact Hall|]. by intros part [H _]. }
  destruct absolute.
  - change ("/" +:+ Str.join "/" written) with (String "/" (Str.join "/" written)).
    assert (Pathlib.anchor (String "/" (Str.join "/" written)) = ["/"]) as ->.
    { rewrite Hjoin. unfold Pathlib.anchor. by repeat case_match; simplify_eq. }
    cbn [Str.split_on]. rewrite decide_True by done.
    rewrite filter_cons_False by (by intros [? _]).
    by rewrite Hsplit.
  - change ("" +:+ Str.join "/" written) with (Str.join "/" written).
    assert (Pathlib.anchor (Str.join "/" written) = []) as ->.
    { rewrite Hjoin. unfold Pathlib.anchor. by repeat case_match; simplify_eq. }
    by rewrite Hsplit.
Qed.

Lemma node_parent fs (p : list string) :
  FS.node fs (removelast p) = Some Dir -> FS.node fs (Pathlib.parent p) = Some Dir.
Proof.
  destruct p as [|a [|b t]]; [done| |done].
  simpl. intros _. case_match eqn:Ha; [|done]. simpl. by rewrite Ha.
Qed.

(** C4, as amended.  A batch whose attempt [k], within the ceiling, is the
    first one answered, with status 200 or 201 and a payload that is UTF-8
    text, whose job id holds no ["/"] and whose output directory exists,
    or is missing in a directory that exists, is returned COMPLETE with
    [attempt_count = k]; the file [<job_id>_<batch_number>.csv] in the
    output directory, the one that [download_path] spells, then holds
    exactly the payload, and its path and name are recorded on the
    batch. *)
Theorem answered_batch_is_complete (E : Env) (batch : Batch) (max_attempts : Z)
        (w : World) (k : nat) (data : Response) (absolute : bool)
        (written : list string) :
  let req := fetch_request batch in
  let directory := (if absolute then ["/"] else []) ++ named written in
  let name := job_id batch +:+ "_" +:+ pretty (batch_number batch) +:+ ".csv" in
  (1 <= Z.of_nat k <= Z.max 1 max_attempts)%Z ->
  (forall j, (j < k - 1)%nat ->
             net E (history w ++ replicate j (req, Failed ReadTimeout)) req
             = Failed ReadTimeout) ->
  net E (history w ++ replicate (k - 1) (req, Failed ReadTimeout)) req = Responded data ->
  (status_code data = 200 \/ status_code data = 201)%Z ->
  Str.utf8_valid (Str.byte_values (content data)) = true ->
  Str.contains "/" (job_id batch) = false ->
  well_written written ->
  download_path batch = spelled absolute written ->
  FS.node (fs w) (removelast directory) = Some Dir ->
  FS.node (fs w) directory = None \/ FS.node (fs w) directory = Some Dir ->
  FS.node (fs w) (directory ++ [name]) <> Some Dir ->
  exists complete w',
    a_get_query_data E batch max_attempts w = (Return complete, w') /\
    status complete = "COMPLETE" /\
    attempt_count complete = Z.of_nat k /\
    downloaded_file_path complete = Some (directory ++ [name]) /\
    file_name complete = Some name /\
    FS.node (fs w') (directory ++ [name]) = Some (File (content data)) /\
    history w' = history w ++ replicate (k - 1) (req, Failed ReadTimeout)
                           ++ [(req, Responded data)].
Proof.
  intros req directory name Hk Hto Hdata Hstatus Htext Hjob Hparts Hpath Hparent Hdir Hfile.
  apply node_parent in Hparent.
  unfold a_get_query_data, conclude.
  rewrite (retrying_answered E (k - 1) _ _ _ _ data) by (done || lia).
  assert (not_ok (status_code data) = false) as ->.
  { unfold not_ok. destruct Hstatus as [-> | ->]; reflexivity. }
  destruct (csv_name_parts batch Hjob directory) as [Hjoin Hanchor].
  rewrite !csv_name_set_outcome, !csv_name_set_attempt_count,
    !download_path_set_attempt_count.
  rewrite Hpath, Path_spelled by done. fold directory.
  rewrite Hjoin. change (csv_name batch) with name in *.
  destruct (mkdir_exist_ok (fs w) directory Hparent Hdir) as (fs1 & Hmk & Hd & Hrest).
  assert (directory ++ [name] <> directory) as Hne.
  { intros Heq. apply (f_equal length) in Heq.
    rewrite length_app in Heq. simpl in Heq. lia. }
  unfold bind, on_fs, lift, ret, Str.decode, FS.open_w. simpl fs. rewrite Hmk. simpl.
  rewrite write_text_ok;
    [|by rewrite Hrest|by rewrite parent_snoc]. simpl. rewrite Htext. simpl.
  rewrite write_text_ok.
  - eexists _, _. split; [reflexivity|]. simpl.
    repeat (split; [try reflexivity; f_equal; lia|]).
    split; [|done].
    rewrite node_snoc by done. apply lookup_insert_eq.
  - rewrite node_snoc by done. by rewrite lookup_insert_eq.
  - rewrite parent_snoc by done. by rewrite node_insert_ne.
Qed.

(** ** Planning *)

Section Planning.

Context (E : Env) (job version path obj : string) (size : Z).

Local Abbreviation planned := (planned E job version path obj size).
Local Abbreviation planned_from := (planned_from E job version path obj size).
Local Abbreviation advance_calls := (advance_calls job version size).

Lemma create_batch_locators_eq locator w :
  create_batch_locators E job size locator version w
  = let req := locator_request job size locator version in
    match net E (history w) req with
    | Responded data =>
        if not_ok (status_code data) then
          (Raise (Exception (rejected_message data)),
           {| history := history w ++ [(req, Responded data)]; fs := fs w;
              stderr := stderr w ++ [[VStr "Content"; VBytes (content data)]];
              stdout := stdout w ++ [[VStr "Locator:"; from_option VStr VNone locator]]
                               ++ [[VStr "Max Records:"; VInt size]];
              sleeps := sleeps w |})
        else
          match headers data !! "sforce-locator" with
          | Some l => (Return l, advance_world w [(req, Responded data)] [])
          | None => (Raise (KeyError "sforce-locator"),
                     advance_world w [(req, Responded data)] [])
          end
    | Failed e => (Raise (TransportError e), advance_world w [(req, Failed e)] [])
    end.
Proof.
  unfold create_batch_locators, bind.
  assert (forall r, (let! data := send E r in
                     if not_ok (status_code data) then
                       print_stderr [VStr "Content"; VBytes (content data)];;
                       print_stdout [VStr "Locator:"; from_option VStr VNone locator];;
                       print_stdout [VStr "Max Records:"; VInt size];;
                       raise (Exception (rejected_message data))
                     else match headers data !! "sforce-locator" with
                          | Some l => ret l
                          | None => raise (KeyError "sforce-locator")
                          end) w
                    = match net E (history w) r with
                      | Responded data =>
                          if not_ok (status_code data) then
                            (Raise (Exception (rejected_message data)),
                             {| history := history w ++ [(r, Responded data)]; fs := fs w;
                                stderr := stderr w ++ [[VStr "Content"; VBytes (content data)]];
                                stdout := stdout w ++ [[VStr "Locator:"; from_option VStr VNone locator]]
                                                 ++ [[VStr "Max Records:"; VInt size]];
                                sleeps := sleeps w |})
                          else
                            match headers data !! "sforce-locator" with
                            | Some l => (Return l, advance_world w [(r, Responded data)] [])
                            | None => (Raise (KeyError "sforce-locator"),
                                       advance_world w [(r, Responded data)] [])
                            end
                      | Failed e => (Raise (TransportError e), advance_world w [(r, Failed e)] [])
                      end) as Hsend.
  { intros r. unfold bind. rewrite send_eq.
    destruct (net E (history w) r) as [data|e]; [|done].
    destruct (not_ok (status_code data)).
    - unfold print_stderr, print_stdout, raise, advance_world; simpl.
      by rewrite !app_nil_r, <- app_assoc.
    - by destruct (headers data !! "sforce-locator"). }
  destruct locator as [l|]; apply Hsend.
Qed.

Lemma new_Batch_eq number start w :
  new_Batch number start size job version (instance_url E) (VStr obj) path w
  = (Return (planned number start), w).
Proof. reflexivity. Qed.

(** The loop when every advance is accepted. *)
Lemma plan_loop_accepted (indices : list Z) : forall number lots locator w,
  advances_accepted E ->
  exists cursors datas,
    length cursors = length indices /\
    Forall2 accepted datas cursors /\
    plan_loop E indices job version path (instance_url E) (VStr obj) size number
              lots locator w
    = (Return (lots ++ planned_from (number + 1)
                                    (Some <$> removelast (locator :: cursors))),
       advance_world w (advance_calls (Some <$> removelast (locator :: cursors)) datas) []).
Proof.
  induction indices as [|i rest IH]; intros number lots locator w Hnet.
  - exists [], []. split; [done|]. split; [constructor|].
    simpl. unfold ret. by rewrite app_nil_r, advance_world_nil.
  - cbn [plan_loop]. unfold bind at 1. rewrite new_Batch_eq.
    unfold bind at 1. rewrite create_batch_locators_eq. cbv zeta.
    destruct (Hnet (history w) (locator_request job size (Some locator) version) eq_refl)
      as (data & c & -> & Hok & Hc).
    rewrite Hok, Hc.
    destruct (IH (number + 1)%Z (lots ++ [planned (number + 1) (Some locator)]) c
                 (advance_world w [(locator_request job size (Some locator) version,
                                    Responded data)] []) Hnet)
      as (cursors & datas & Hlen & Hall & ->).
    exists (c :: cursors), (data :: datas).
    split; [simpl; lia|]. split; [by constructor|].
    rewrite advance_world_app, <- app_assoc. simpl. reflexivity.
Qed.

Lemma ceil_div_spec a b q m :
  (0 < b -> a = b * q + m -> 0 < m <= b -> ceil_div a b = q + 1)%Z.
Proof.
  intros Hb Ha Hm. unfold ceil_div.
  rewrite <- (Z.div_unique (- a) b (- (q + 1)) (b - m)); lia.
Qed.

(** The loop runs [ceil(r / size) - 1] times. *)
Lemma range_len_ceil r step :
  (0 < r -> 0 < step -> 1 + range_len step r step = ceil_div r step)%Z.
Proof.
  intros Hr Hs. unfold range_len.
  destruct (Z.ltb_spec 0 step); [|lia].
  destruct (Z.ltb_spec step 0); [lia|].
  destruct (Z.ltb_spec step r); cbn [andb].
  - pose proof (Z.div_mod (r - 1 - step) step ltac:(lia)) as Hdm.
    pose proof (Z.mod_pos_bound (r - 1 - step) step ltac:(lia)) as Hb.
    rewrite (ceil_div_spec r step ((r - 1 - step) / step + 1)
                           ((r - 1 - step) mod step + 1)); lia.
  - rewrite (ceil_div_spec r step 0 r); lia.
Qed.

Lemma range_len_nonneg start stop step : (0 <= range_len start stop step)%Z.
Proof.
  unfold range_len. repeat case_match; try lia.
  - apply andb_true_iff in H as [H1 H2]. apply Z.ltb_lt in H1, H2.
    pose proof (Z.div_pos (stop - 1 - start) step). lia.
  - apply andb_true_iff in H0 as [H1 H2]. apply Z.ltb_lt in H1, H2.
    pose proof (Z.div_pos (start - 1 - stop) (- step)). lia.
Qed.

Lemma get_query_job_answered w jd doc :
  net E (history w) (job_request job version) = Responded jd ->
  status_code jd = 200%Z ->
  json jd = Some doc ->
  get_query_job E job version w
  = (Return doc, advance_world w [(job_request job version, Responded jd)] []).
Proof.
  intros Hnet Hstatus Hjson. unfold get_query_job, bind.
  fold (job_request job version). rewrite send_eq, Hnet, Hstatus. simpl.
  unfold ret, json_of. by rewrite Hjson.
Qed.

Lemma removelast_fmap {A B} (f : A -> B) (l : list A) :
  removelast (f <$> l) = f <$> removelast l.
Proof.
  induction l as [|a [|b l] IH]; [done|done|].
  change (f a :: removelast (f <$> b :: l) = f a :: (f <$> removelast (b :: l))).
  by rewrite IH.
Qed.

(** Planning when the job is there, has [r > 0] records, the batch size is
    positive and every advance is accepted: the batches are those numbered
    from 1 whose cursors are nothing and then the cursors returned, but for
    the last one returned; the calls are the job lookup and one advance per
    batch, each made with the cursor of its batch. *)
Lemma plan_batches_accepted w jd d r :
  advances_accepted E ->
  net E (history w) (job_request job version) = Responded jd ->
  status_code jd = 200%Z ->
  json jd = Some (JDict d) ->
  d !! "numberRecordsProcessed" = Some (VInt r) ->
  d !! "object" = Some (VStr obj) ->
  (0 < r)%Z -> (0 < size)%Z ->
  exists returned datas,
    length returned = Z.to_nat (ceil_div r size) /\
    Forall2 accepted datas returned /\
    let starts := removelast (None :: (Some <$> returned)) in
    plan_batches E job version path (Some size) w
    = (Return (planned_from 1 starts),
       advance_world w ((job_request job version, Responded jd)
                          :: advance_calls starts datas) []).
Proof.
  intros Hnet Hjob Hstatus Hjson Hr Hobj Hpos Hsize.
  unfold plan_batches. unfold bind at 1.
  rewrite (get_query_job_answered w jd (JDict d)) by done.
  unfold bind at 1, dict_get at 1, ret at 1. rewrite Hr. cbn [default from_option id].
  assert (eq_zero (VInt r) = false) as -> by (simpl; lia).
  assert ((size =? 0)%Z = false) as -> by lia.
  unfold bind at 1, ret at 1. unfold bind at 1, dict_get at 1, ret at 1.
  rewrite Hobj. cbn [default from_option id]. unfold bind at 1. rewrite new_Batch_eq.
  unfold bind at 1. rewrite create_batch_locators_eq. cbv zeta.
  destruct (Hnet (history (advance_world w [(job_request job version, Responded jd)] []))
                 (locator_request job size None version) eq_refl)
    as (data & c & -> & Hok & Hc).
  rewrite Hok, Hc. unfold bind at 1, as_int at 1, ret at 1.
  unfold bind at 1, range. assert ((size =? 0)%Z = false) as -> by lia.
  unfold ret at 1.
  match goal with |- context [plan_loop E ?l] => set (indices := l) end.
  destruct (plan_loop_accepted indices 1%Z [planned 1 None] c
              (advance_world (advance_world w [(job_request job version, Responded jd)] [])
                             [(locator_request job size None version, Responded data)] [])
              Hnet) as (cursors & datas & Hlen & Hall & ->).
  exists (c :: cursors), (data :: datas).
  split; [|split; [by constructor|]].
  - simpl. rewrite Hlen. unfold indices. rewrite length_map, length_seq.
    rewrite <- range_len_ceil by done. pose proof (range_len_nonneg size r size). lia.
  - cbv zeta. rewrite !advance_world_app.
    change (Some <$> c :: cursors) with (Some c :: (Some <$> cursors)).
    change (removelast (None :: Some c :: (Some <$> cursors)))
      with (None :: removelast (Some <$> c :: cursors)).
    by rewrite removelast_fmap.
Qed.

End Planning.

Lemma starts_length (returned : list string) :
  length (removelast (None :: (Some <$> returned))) = length returned.
Proof.
  rewrite removelast_firstn_len, length_take. simpl. rewrite length_fmap. lia.
Qed.

Lemma starts_lookup (returned : list string) (i : nat) (start : option string) :
  removelast (None :: (Some <$> returned)) !! i = Some start ->
  (i < length returned)%nat /\
  match i with
  | O => start = None
  | S j => start = returned !! j /\ is_Some start
  end.
Proof.
  rewrite removelast_firstn_len. simpl. rewrite length_fmap.
  intros [H Hi]%lookup_take_Some. split; [done|].
  destruct i as [|j]; simpl in H; [by simplify_eq|].
  rewrite list_lookup_fmap in H. destruct (returned !! j); simplify_eq/=. eauto.
Qed.

Lemma planned_from_length E job version path obj size number starts :
  length (planned_from E job version path obj size number starts) = length starts.
Proof. revert number. induction starts; intros; simpl; [done|]. by rewrite IHstarts. Qed.

Lemma planned_from_lookup E job version path obj size number starts (i : nat) :
  planned_from E job version path obj size number starts !! i
  = planned E job version path obj size (number + Z.of_nat i) <$> starts !! i.
Proof.
  revert number i. induction starts as [|s starts IH]; intros number i; [done|].
  destruct i as [|i]; simpl.
  - by rewrite Z.add_0_r.
  - rewrite IH. do 2 f_equal. lia.
Qed.

Lemma ceil_div_bounds r step :
  (0 < r -> 0 < step ->
   step * (ceil_div r step - 1) < r <= step * ceil_div r step)%Z.
Proof.
  intros Hr Hs.
  pose proof (Z.div_mod (r - 1) step ltac:(lia)) as Hdm.
  pose proof (Z.mod_pos_bound (r - 1) step ltac:(lia)) as Hb.
  rewrite (ceil_div_spec r step ((r - 1) / step) ((r - 1) mod step + 1)); lia.
Qed.

(** C1.  With a record count [r > 0] and a batch size [size > 0], a job
    that is found and a transport that accepts every cursor advance,
    planning returns [N] batches with [size * (N - 1) < r <= size * N], that
    is [N = ceil(r / size)]; the batch at position [i] has number [i + 1]
    and the batch size [size]; the first batch has no cursor; and the
    [i]-th advance call is made with the cursor of batch [i] and the batch
    size, and the cursor it returns is the cursor of batch [i + 1]. *)
Theorem planning_numbers_and_cursors (E : Env) (job version path obj : string)
        (size r : Z) (w : World) (jd : Response) (d : gmap string Value) :
  (0 < r)%Z -> (0 < size)%Z ->
  net E (history w) (job_request job version) = Responded jd ->
  status_code jd = 200%Z ->
  json jd = Some (JDict d) ->
  d !! "numberRecordsProcessed" = Some (VInt r) ->
  d !! "object" = Some (VStr obj) ->
  advances_accepted E ->
  exists lots w' advances,
    plan_batches E job version path (Some size) w = (Return lots, w') /\
    length lots = Z.to_nat (ceil_div r size) /\
    (size * (Z.of_nat (length lots) - 1) < r <= size * Z.of_nat (length lots))%Z /\
    (forall i b, lots !! i = Some b ->
                 batch_number b = (Z.of_nat i + 1)%Z /\ batch_size b = size) /\
    (forall b, lots !! 0%nat = Some b -> batch_start b = None) /\
    history w' = history w ++ (job_request job version, Responded jd) :: advances /\
    length advances = length lots /\
    (forall i b b', lots !! i = Some b -> lots !! S i = Some b' ->
       exists data,
         advances !! i = Some (locator_request job size (batch_start b) version,
                               Responded data) /\
         is_Some (batch_start b') /\
         batch_start b' = headers data !! "sforce-locator").
Proof.
  intros Hr Hsize Hjob Hstatus Hjson Hcount Hobj Hnet.
  destruct (plan_batches_accepted E job version path obj size w jd d r)
    as (returned & datas & Hlen & Hall & Hrun); try done.
  cbv zeta in Hrun.
  pose proof (ceil_div_bounds r size Hr Hsize) as Hceil.
  pose proof (Forall2_length _ _ _ Hall) as Hdatas.
  eexists _, _, _. split; [exact Hrun|].
  rewrite planned_from_length, starts_length, Hlen.
  split; [done|]. split; [lia|]. split; [|split; [|split; [|split]]].
  - intros i b. rewrite planned_from_lookup. intros Hb.
    apply fmap_Some in Hb as (s & Hs & ->). simpl. split; [lia|done].
  - intros b. rewrite planned_from_lookup. intros Hb.
    apply fmap_Some in Hb as (s & Hs & ->). simpl.
    by apply starts_lookup in Hs as [_ ->].
  - done.
  - unfold advance_calls. rewrite length_zip_with, starts_length. lia.
  - intros i b b'. rewrite !planned_from_lookup. intros Hb Hb'.
    apply fmap_Some in Hb as (s & Hs & ->).
    apply fmap_Some in Hb' as (s' & Hs' & ->). cbn [batch_start planned].
    apply starts_lookup in Hs' as [Hi [-> Hsome]].
    destruct (returned !! i) as [c|] eqn:Hc; [|by destruct Hsome].
    destruct (Forall2_lookup_r _ _ _ _ _ Hall Hc) as (data & Hdata & Hok & Hheader).
    exists data. split; [|split; [done|by rewrite Hheader]].
    unfold advance_calls. rewrite lookup_zip_with, Hs. simpl. by rewrite Hdata.
Qed.

(** ** Rejected advances *)

Create HintDb rejecting.

Lemma rejecting_silent {A} (c : M A) :
  (forall w, history (c w).2 = history w) -> rejecting c.
Proof.
  intros H w. exists []. rewrite H, app_nil_r. split; [done|].
  intros req data Hin. by apply elem_of_nil in Hin.
Qed.

Lemma rejecting_ret {A} (a : A) : rejecting (ret a).
Proof. by apply rejecting_silent. Qed.

Lemma rejecting_raise {A} (e : Exn) : rejecting (raise (A := A) e).
Proof. by apply rejecting_silent. Qed.

Lemma rejecting_lift {A} (r : Result A) : rejecting (lift r).
Proof. by apply rejecting_silent. Qed.

Lemma rejecting_print_stderr items : rejecting (print_stderr items).
Proof. by apply rejecting_silent. Qed.

Lemma rejecting_on_fs {A} op : rejecting (on_fs (A := A) op).
Proof.
  apply rejecting_silent. intros w. unfold on_fs. by destruct (op (fs w)).
Qed.

Lemma rejecting_bind {A B} (c : M A) (k : A -> M B) :
  rejecting c -> (forall a, rejecting (k a)) -> rejecting (bind c k).
Proof.
  intros Hc Hk w. destruct (Hc w) as (calls1 & Hh1 & Hr1). unfold bind.
  destruct (c w) as [[a|e] w1] eqn:Hcw; simpl in *.
  - destruct (Hk a w1) as (calls2 & Hh2 & Hr2).
    exists (calls1 ++ calls2). rewrite Hh2, Hh1, app_assoc. split; [done|].
    intros req data [Hin|Hin]%elem_of_app Hm Hbad; [|by eapply Hr2].
    by specialize (Hr1 req data Hin Hm Hbad).
  - exists calls1. split; [done|]. intros req data Hin Hm Hbad.
    specialize (Hr1 req data Hin Hm Hbad). by simplify_eq.
Qed.

Lemma rejecting_send E (r : Request) : method r <> HEAD -> rejecting (send E r).
Proof.
  intros Hm w. rewrite send_eq. eexists. split; [reflexivity|].
  intros req data Hin Hhead. apply list_elem_of_singleton in Hin. by simplify_eq.
Qed.

Lemma rejecting_create_batch_locators E job size locator version :
  rejecting (create_batch_locators E job size locator version).
Proof.
  intros w. rewrite create_batch_locators_eq. cbv zeta.
  destruct (net E (history w) _) as [data|e]; simpl.
  - destruct (not_ok (status_code data)) eqn:Hok; simpl.
    + eexists. split; [reflexivity|]. intros req data' Hin _ _.
      apply list_elem_of_singleton in Hin. by simplify_eq.
    + exists [(locator_request job size locator version, Responded data)].
      split; [by destruct (headers data !! "sforce-locator")|].
      intros req data' Hin _ Hbad. apply list_elem_of_singleton in Hin.
      simplify_eq. congruence.
  - eexists. split; [reflexivity|]. intros req data' Hin.
    apply list_elem_of_singleton in Hin. by simplify_eq.
Qed.

#[export] Hint Resolve rejecting_ret rejecting_raise rejecting_lift
  rejecting_print_stderr rejecting_on_fs rejecting_create_batch_locators : rejecting.

(** Composite calls are taken apart bind by bind and branch by branch. *)
Ltac rejecting_step :=
  match goal with
  | |- rejecting (bind _ _) => apply rejecting_bind; [|intros ?]
  | |- rejecting (if ?b then _ else _) => destruct b
  | |- rejecting (match ?x with _ => _ end) => destruct x
  | |- rejecting (send _ _) => apply rejecting_send; discriminate
  | |- rejecting _ => solve [auto with rejecting]
  end.

Lemma rejecting_print_body data : rejecting (print_body data).
Proof. unfold print_body. repeat rejecting_step. Qed.

Lemma rejecting_json_of data : rejecting (json_of data).
Proof. unfold json_of. repeat rejecting_step. Qed.

Lemma rejecting_dict_get j key : rejecting (dict_get j key).
Proof. unfold dict_get. repeat rejecting_step. Qed.

Lemma rejecting_as_int v : rejecting (as_int v).
Proof. unfold as_int. repeat rejecting_step. Qed.

Lemma rejecting_validate_str field v : rejecting (validate_str field v).
Proof. unfold validate_str. repeat rejecting_step. Qed.

#[export] Hint Resolve rejecting_print_body rejecting_json_of rejecting_dict_get
  rejecting_as_int rejecting_validate_str : rejecting.

Lemma rejecting_new_Batch number start size job version base obj path :
  rejecting (new_Batch number start size job version base obj path).
Proof. unfold new_Batch. repeat rejecting_step. Qed.

Lemma rejecting_range start stop step : rejecting (range start stop step).
Proof. unfold range. repeat rejecting_step. Qed.

Lemma rejecting_get_query_job E job version : rejecting (get_query_job E job version).
Proof. unfold get_query_job. repeat rejecting_step. Qed.

#[export] Hint Resolve rejecting_new_Batch rejecting_range rejecting_get_query_job
  : rejecting.

Lemma rejecting_plan_loop E indices job version path base obj size :
  forall number lots locator,
    rejecting (plan_loop E indices job version path base obj size number lots locator).
Proof.
  induction indices as [|i rest IH]; intros number lots locator; cbn [plan_loop];
    repeat rejecting_step.
Qed.

#[export] Hint Resolve rejecting_plan_loop : rejecting.

Lemma rejecting_plan_batches E job version path size :
  rejecting (plan_batches E job version path size).
Proof. unfold plan_batches. repeat rejecting_step. Qed.

(** The pool sends the requests of the downloads only, which are GET. *)
Lemma rejecting_pull_batches E lots : rejecting (pull_batches E lots).
Proof.
  intros w. destruct (default_max_attempts E) as [max_attempts|e] eqn:Hdef.
  - destruct (pull_batches_run E lots max_attempts w Hdef)
      as (tasks & made & w' & -> & Hh & Hmade & _).
    exists made. split; [done|]. intros req data Hin Hm.
    rewrite Forall_forall in Hmade.
    destruct (Hmade _ Hin) as (batch & _ & Hreq). simpl in Hreq. by subst.
  - exists []. unfold pull_batches, bind, lift. rewrite Hdef. simpl.
    rewrite app_nil_r. split; [done|]. intros req data Hin. by inversion Hin.
Qed.

Lemma rejecting_download_query_data E job version path size dry_run :
  rejecting (download_query_data E job version path size dry_run).
Proof.
  unfold download_query_data.
  pose proof (rejecting_plan_batches E job version path size).
  pose proof (rejecting_pull_batches E).
  repeat rejecting_step.
Qed.

(** C6, as amended.  In [download_query_data] a cursor-advance request
    answered with a status other than 200 and 201 is fatal: the call raises
    the exception of [create_batch_locators] and returns no batch list,
    whatever had been planned.  [create_query_job] does not raise on such a
    status: it prints the body on stderr and returns the JSON document of
    the response. *)
Theorem rejected_advance_is_fatal (E : Env) :
  (forall job version path size dry_run w req data,
      let run := download_query_data E job version path size dry_run w in
      (req, Responded data) ∈ drop (length (history w)) (history run.2) ->
      method req = HEAD ->
      not_ok (status_code data) = true ->
      run.1 = Raise (Exception (pretty (status_code data)
                                +:+ ":Something went wrong to get batch locators"))) /\
  (forall query version operation w data doc,
      net E (history w) (create_query_request query version operation) = Responded data ->
      not_ok (status_code data) = true ->
      Str.utf8_valid (Str.byte_values (content data)) = true ->
      json data = Some doc ->
      create_query_job E query version operation w
      = (Return doc,
         {| history := history w
                       ++ [(create_query_request query version operation, Responded data)];
            fs := fs w; stderr := stderr w ++ [[VStr (content data)]];
            stdout := stdout w; sleeps := sleeps w |})).
Proof.
  split.
  - intros job version path size dry_run w req data run Hin Hm Hbad.
    destruct (rejecting_download_query_data E job version path size dry_run w)
      as (calls & Hh & Hr).
    fold run in Hh, Hr. rewrite Hh, drop_app_length in Hin.
    by apply (Hr req data).
  - intros query version operation w data doc Hnet Hbad Htext Hjson.
    unfold create_query_job, bind. fold (create_query_request query version operation).
    rewrite send_eq, Hnet, Hbad. unfold print_body, bind, lift, Str.decode.
    rewrite Htext. simpl. unfold json_of. rewrite Hjson. unfold ret.
    by rewrite app_nil_r.
Qed.

(** C6, the claim as stated fails for the query-job create call: answered
    with status 400 and the JSON list of the errors, [create_query_job]
    prints the body on stderr, returns the document of the response, here
    that list, and raises nothing. *)
Lemma rejected_create_is_not_fatal :
  let text := "[{" +:+ Sample.quoted "errorCode" +:+ ":"
                   +:+ Sample.quoted "INVALIDJOB" +:+ "}]" in
  let doc := JOther (VObj "[{'errorCode': 'INVALIDJOB'}]") in
  let answer := Responded (Sample.response 400 None text (Some doc)) in
  let run := create_query_job (Sample.env [answer] []) "SELECT Id FROM Account" "53.0"
                              "query" (Sample.world ∅) in
  run.1 = Return doc /\ (forall e, run.1 <> Raise e) /\
  history run.2
  = [(create_query_request "SELECT Id FROM Account" "53.0" "query", answer)] /\
  stderr run.2 = [[VStr text]].
Proof. vm_compute. repeat split. intros e; discriminate. Qed.

(** ** A job without records *)

(** C5, as amended.  When the record count of the job is 0, planning
    builds no batch list at all: it prints a notice on stderr and raises
    [SystemExit] with no exit code, so that [download_query_data] returns
    nothing, dry run or not; only the job lookup has been requested, no
    cursor advance and no fetch. *)
Theorem no_records_exits (E : Env) (job version path : string) (size : option Z)
        (dry_run : bool) (w : World) (jd : Response) (d : gmap string Value) :
  net E (history w) (job_request job version) = Responded jd ->
  status_code jd = 200%Z ->
  json jd = Some (JDict d) ->
  d !! "numberRecordsProcessed" = Some (VInt 0) ->
  let w' := {| history := history w ++ [(job_request job version, Responded jd)];
               fs := fs w;
               stderr := stderr w ++ [[VStr "Record Count is 0, No results to process"]];
               stdout := stdout w; sleeps := sleeps w |} in
  plan_batches E job version path size w = (Raise (SystemExit None), w') /\
  download_query_data E job version path size dry_run w = (Raise (SystemExit None), w').
Proof.
  intros Hnet Hstatus Hjson Hcount w'.
  assert (plan_batches E job version path size w = (Raise (SystemExit None), w')) as Hplan.
  { unfold plan_batches. unfold bind at 1.
    rewrite (get_query_job_answered E job version w jd (JDict d)) by done.
    unfold bind at 1, dict_get at 1, ret at 1. rewrite Hcount.
    cbn [default from_option id eq_zero Z.eqb].
    unfold bind, print_stderr, raise, advance_world, w'; simpl.
    by rewrite !app_nil_r. }
  split; [done|]. unfold download_query_data, bind. by rewrite Hplan.
Qed.

(** C5, the claim as stated fails: for a job of 0 records planning does
    not produce the empty batch list, it raises [SystemExit]; neither does
    the dry run return a job with no batches. *)
Lemma no_records_is_not_an_empty_plan :
  let E := Sample.server_env 0 [] in
  let w := Sample.world ∅ in
  (plan_batches E "750xx" "53.0" "./data" (Some 10000%Z) w).1 = Raise (SystemExit None) /\
  (plan_batches E "750xx" "53.0" "./data" (Some 10000%Z) w).1 <> Return [] /\
  (download_query_data E "750xx" "53.0" "./data" (Some 10000%Z) true w).1
  <> Return {| completed_id := "750xx"; batches := [] |}.
Proof. vm_compute. repeat split; discriminate. Qed.

(** ** The cursors of a run *)

Lemma planned_from_starts E job version path obj size number starts :
  batch_start <$> planned_from E job version path obj size number starts = starts.
Proof.
  revert number. induction starts as [|s starts IH]; intros number; [done|].
  simpl. by rewrite IH.
Qed.

Lemma fetch_request_locator (b : Batch) :
  params (fetch_request b) !! "locator" = VStr <$> batch_start b.
Proof.
  unfold fetch_request; simpl. destruct (batch_start b); simpl.
  - by rewrite lookup_insert_eq.
  - by rewrite lookup_delete_eq.
Qed.

(** C7, as amended.  In a run whose advances are all accepted, the planner
    holds one cursor at a time: the first advance is made without a cursor
    and each later one with the cursor the previous advance returned.  The
    cursors of the batches are nothing for the first batch and then the
    returned cursors in order, but for the last one returned, which no batch
    holds.  In the download of a batch every attempt, and there is at least
    one, sends the cursor of that batch; so a cursor held by a batch is the
    input of one advance and of every fetch attempt of its batch. *)
Theorem cursors_of_a_run (E : Env) (job version path obj : string)
        (size r : Z) (w : World) (jd : Response) (d : gmap string Value) :
  (0 < r)%Z -> (0 < size)%Z ->
  net E (history w) (job_request job version) = Responded jd ->
  status_code jd = 200%Z ->
  json jd = Some (JDict d) ->
  d !! "numberRecordsProcessed" = Some (VInt r) ->
  d !! "object" = Some (VStr obj) ->
  advances_accepted E ->
  exists returned lots w' advances,
    plan_batches E job version path (Some size) w = (Return lots, w') /\
    history w' = history w ++ (job_request job version, Responded jd) :: advances /\
    length returned = length lots /\
    length advances = length lots /\
    batch_start <$> lots = removelast (None :: (Some <$> returned)) /\
    (forall i start,
        (batch_start <$> lots) !! i = Some start ->
        exists data,
          advances !! i = Some (locator_request job size start version, Responded data) /\
          headers data !! "sforce-locator" = returned !! i) /\
    (forall b max_attempts w1,
        b ∈ lots ->
        exists calls,
          history (a_get_query_data E b max_attempts w1).2 = history w1 ++ calls /\
          (1 <= length calls)%nat /\
          Forall (fun c => c.1 = fetch_request b /\
                           params c.1 !! "locator" = VStr <$> batch_start b) calls).
Proof.
  intros Hr Hsize Hjob Hstatus Hjson Hcount Hobj Hnet.
  destruct (plan_batches_accepted E job version path obj size w jd d r)
    as (returned & datas & Hlen & Hall & Hrun); try done.
  cbv zeta in Hrun.
  pose proof (Forall2_length _ _ _ Hall) as Hdatas.
  exists returned. eexists _, _, _. split; [exact Hrun|].
  rewrite planned_from_length, starts_length, planned_from_starts.
  split; [done|]. split; [done|]. split; [|split; [done|split]].
  - unfold advance_calls. rewrite length_zip_with, starts_length. lia.
  - intros i start Hs. pose proof (starts_lookup _ _ _ Hs) as [Hi _].
    destruct (lookup_lt_is_Some_2 datas i ltac:(lia)) as [data Hdata].
    exists data. split.
    + unfold advance_calls. rewrite lookup_zip_with, Hs. simpl. by rewrite Hdata.
    + destruct (Forall2_lookup_l _ _ _ _ _ Hall Hdata) as (c & -> & _ & Hc). done.
  - intros b max_attempts w1 _.
    destruct (a_get_query_data_after_loop E b max_attempts w1) as [Hh _].
    destruct (retrying_trace E (Z.to_nat (max_attempts - 1)) 1 b w1)
      as (calls & res & Heq & Hcalls & Hreq & _).
    exists calls. rewrite Hh, Heq. split; [done|]. split; [lia|].
    eapply Forall_impl; [exact Hreq|]. intros c ->. split; [done|].
    apply fetch_request_locator.
Qed.

(** C7, the claim as stated fails: in the run for 20000 records in batches
    of 10000 the two advances return the cursors [cursor-1] and [cursor-2];
    the first is sent by two later requests, the second advance and the
    fetch of batch 2, and the second by none. *)
Lemma cursor_is_not_used_exactly_once :
  let run := download_query_data (Sample.server_env 20000 []) "750xx" "53.0" "./data"
                                 (Some 10000%Z) false (Sample.world ∅) in
  (exists done, run.1 = Return done /\ length (batches done) = 2%nat) /\
  omap (fun call => match call.2 with
                    | Responded data =>
                        if decide (method call.1 = HEAD)
                        then headers data !! "sforce-locator" else None
                    | Failed _ => None
                    end) (history run.2)
  = ["cursor-1"; "cursor-2"] /\
  uses "cursor-1" (history run.2) = 2%nat /\
  uses "cursor-2" (history run.2) = 0%nat.
Proof. vm_compute. split; [eexists; split; reflexivity|]. repeat split. Qed.

(** ** Ingest *)

(** [ingest_job_data_batches] from the making of the working directory
    on: the chunking runs on the file system that [mkdir] left. *)
Lemma ingest_job_data_batches_made (E : Env)
      (object_name operation path_or_file pattern version : string) (batch_size : Z)
      (ext : option string) (working_directory : option (list string)) (w : World) fs1 :
  let directory :=
    default (Pathlib.Path [gettempdir E; object_name]) working_directory in
  FS.mkdir true false directory (cleared directory (fs w)) = (Return (), fs1) ->
  ingest_job_data_batches E object_name operation path_or_file pattern batch_size
                          version ext (AsPath <$> working_directory) w
  = match combine_files E path_or_file pattern directory batch_size fs1 with
    | (Return task, fs2) =>
        if bool_decide (task_status task = "success") then
          for_each
            (fun file_path =>
               let! bulk_job := create_ingest_job E object_name (Str.lower operation)
                                                  ext version in
               let! job := dict_get bulk_job "id" in
               load_ingest_job_data E job file_path version)
            (task_payload task) (with_fs w fs2)
        else (Raise (RuntimeError ("Combining files failed: " +:+ task_message task)),
              with_fs w fs2)
    | (Raise e, fs2) => (Raise e, with_fs w fs2)
    end.
Proof.
  intros directory Hmk. unfold ingest_job_data_batches.
  assert (match AsPath <$> working_directory with
          | Some d => d
          | None => AsPath (Pathlib.Path [gettempdir E; object_name])
          end = AsPath directory) as ->.
  { unfold directory. by destruct working_directory. }
  unfold bind at 1.
  assert ((if FS.exists_ (fs w) directory && FS.is_dir (fs w) directory
           then on_fs (fun fs => (Return (), FS.rmtree directory fs)) w
           else (Return (), w)) = (Return (), with_fs w (cleared directory (fs w)))) as ->.
  { unfold cleared, with_fs, on_fs.
    destruct (FS.exists_ (fs w) directory && FS.is_dir (fs w) directory); [done|].
    by destruct w. }
  unfold bind at 1, on_fs at 1. simpl fs. rewrite Hmk.
  unfold bind at 1, on_fs at 1. simpl fs.
  destruct (combine_files E path_or_file pattern directory batch_size fs1)
    as [[task|e] fs2]; [|done].
  by case_bool_decide.
Qed.

(** [ingest_job_data_batches] up to the loop over the chunk files. *)
Lemma ingest_job_data_batches_prepared (E : Env)
      (object_name operation path_or_file pattern version : string) (batch_size : Z)
      (ext : option string) (working_directory : option (list string)) (w : World)
      fs1 fs2 task :
  let directory :=
    default (Pathlib.Path [gettempdir E; object_name]) working_directory in
  FS.mkdir true false directory (cleared directory (fs w)) = (Return (), fs1) ->
  combine_files E path_or_file pattern directory batch_size fs1 = (Return task, fs2) ->
  task_status task = "success" ->
  ingest_job_data_batches E object_name operation path_or_file pattern batch_size
                          version ext (AsPath <$> working_directory) w
  = for_each
      (fun file_path =>
         let! bulk_job := create_ingest_job E object_name (Str.lower operation)
                                            ext version in
         let! job := dict_get bulk_job "id" in
         load_ingest_job_data E job file_path version)
      (task_payload task) (with_fs w fs2).
Proof.
  intros directory Hmk Hcombine Hstatus.
  rewrite (ingest_job_data_batches_made E _ _ _ _ _ _ _ _ _ fs1) by done.
  fold directory. rewrite Hcombine, Hstatus. done.
Qed.

(** C8, as amended.  With operation upsert and no external-id field,
    [create_ingest_job] raises the configuration error before it sends
    anything.  [ingest_job_data_batches] has by then reset its working
    directory and run the chunking: when the chunking made at least one
    chunk, the call raises that error with no request sent and with the
    file system as the chunking left it; when it made none, the call
    returns the empty list and raises nothing. *)
Theorem upsert_needs_external_id (E : Env)
        (object_name operation path_or_file pattern version : string) (batch_size : Z)
        (ext : option string) (working_directory : option (list string)) (w : World)
        fs1 fs2 task :
  let directory :=
    default (Pathlib.Path [gettempdir E; object_name]) working_directory in
  let run := ingest_job_data_batches E object_name operation path_or_file pattern
               batch_size version ext (AsPath <$> working_directory) w in
  Str.lower operation = "upsert" ->
  ext = None \/ ext = Some "" ->
  FS.mkdir true false directory (cleared directory (fs w)) = (Return (), fs1) ->
  combine_files E path_or_file pattern directory batch_size fs1 = (Return task, fs2) ->
  task_status task = "success" ->
  (forall w0, create_ingest_job E object_name "upsert" ext version w0
              = (Raise upsert_error, w0)) /\
  (task_payload task <> [] -> run = (Raise upsert_error, with_fs w fs2)) /\
  (task_payload task = [] -> run = (Return [], with_fs w fs2)).
Proof.
  intros directory run Hop Hext Hmk Hcombine Hstatus.
  assert (forall w0, create_ingest_job E object_name "upsert" ext version w0
                     = (Raise upsert_error, w0)) as Hcreate.
  { intros w0. unfold create_ingest_job, bind. simpl.
    by destruct Hext as [-> | ->]. }
  split; [done|]. unfold run.
  rewrite (ingest_job_data_batches_prepared E _ _ _ _ _ _ _ _ _ fs1 fs2 task) by done.
  rewrite Hop. split.
  - intros Hchunks. destruct (task_payload task) as [|chunk rest]; [done|].
    cbn [for_each]. unfold bind at 1. unfold bind at 1. by rewrite Hcreate.
  - by intros ->.
Qed.

(** C8, the claim as stated fails: the upsert without external-id field is
    refused with no request sent, but the chunk file of the chunking is
    there by then; and with nothing to chunk the call is not refused at
    all. *)
Lemma upsert_is_refused_after_chunking :
  let files : gmap (list string) Node := {[ ["/"; "tmp"] := Dir ]} in
  let run chunks :=
    ingest_job_data_batches (Sample.env [] chunks) "Account" "upsert" "in.csv" "*.csv"
                            100 "53.0" None None (Sample.world files) in
  let one := run [("chunk_1.csv", "Id,Name")] in
  one.1 = Raise upsert_error /\
  history one.2 = [] /\
  fs one.2 !! ["/"; "tmp"; "Account"; "chunk_1.csv"] = Some (File "Id,Name") /\
  files !! ["/"; "tmp"; "Account"; "chunk_1.csv"] = None /\
  (run []).1 = Return [].
Proof. vm_compute. repeat split. Qed.

Lemma send_answered E r w data :
  net E (history w) r = Responded data ->
  send E r w = (Return data, advance_world w [(r, Responded data)] []).
Proof. intros H. by rewrite send_eq, H. Qed.

Lemma print_body_text data w :
  Str.utf8_valid (Str.byte_values (content data)) = true ->
  print_body data w
  = (Return (), {| history := history w; fs := fs w;
                   stderr := stderr w ++ [[VStr (content data)]];
                   stdout := stdout w; sleeps := sleeps w |}).
Proof. intros H. unfold print_body, bind, lift, Str.decode. by rewrite H. Qed.

(** One turn of the loop of [ingest_job_data_batches]. *)
Lemma ingest_chunk_answered (E : Env) (object_name operation version file_path : string)
      (ext : option string) (w : World) (text : string) :
  ingest_answered E ->
  ingest_configured operation ext ->
  FS.read_text (Pathlib.Path [file_path]) (fs w) = Return text ->
  exists s w',
    (let! bulk_job := create_ingest_job E object_name operation ext version in
     let! job := dict_get bulk_job "id" in
     load_ingest_job_data E job file_path version) w = (Return (chunk_result version s), w') /\
    run_path s = file_path /\ run_text s = text /\
    (exists d, json (run_created s) = Some (JDict d) /\
               run_job s = default VNone (d !! "id")) /\
    history w' = history w ++ chunk_calls object_name operation ext version s /\
    fs w' = fs w.
Proof.
  intros Hnet Hconf Hread.
  destruct (Hnet (history w) (create_ingest_request object_name operation ext version))
    as (created & Hcreated & Hdoc & Htext1).
  destruct (Hdoc eq_refl) as [d Hd].
  set (job := default VNone (d !! "id")).
  assert (exists w1,
             create_ingest_job E object_name operation ext version w = (Return (JDict d), w1)
             /\ history w1 = history w
                             ++ [(create_ingest_request object_name operation ext version,
                                  Responded created)]
             /\ fs w1 = fs w) as (w1 & Hrun1 & Hh1 & Hfs1).
  { unfold create_ingest_job. cbv zeta. unfold bind at 1.
    assert ((if bool_decide (operation = "upsert")
             then match ext with
                  | Some "" | None =>
                      raise (RuntimeError
                               "external Id field name must be provided when performing upsert.")
                  | Some name => ret (<["externalIdFieldName" := VStr name]>
                                        (<["object" := VStr object_name]>
                                           (<["operation" := VStr operation]> ∅)))
                  end
             else ret (<["object" := VStr object_name]>
                         (<["operation" := VStr operation]> ∅))) w
            = (Return (ingest_body object_name operation ext), w)) as ->.
    { unfold ingest_body. case_bool_decide as Hop; [|done].
      destruct Hconf as [Hne | (name & -> & Hname)]; [done|].
      by destruct name. }
    unfold bind at 1. fold (create_ingest_request object_name operation ext version).
    rewrite (send_answered _ _ _ created) by done.
    unfold bind, json_of. rewrite Hd.
    destruct (not_ok (status_code created)) eqn:Hbad.
    - rewrite print_body_text by (apply Htext1; [by left|done]).
      eexists. split; [reflexivity|]. done.
    - eexists. split; [reflexivity|]. done. }
  destruct (Hnet (history w1) (upload_request version job text))
    as (uploaded & Huploaded & _ & Htext2).
  destruct (Hnet (history w1 ++ [(upload_request version job text, Responded uploaded)])
                 (finalize_request version job uploaded))
    as (finalized & Hfinalized & _ & _).
  exists {| run_path := file_path; run_text := text; run_job := job;
            run_created := created; run_uploaded := uploaded;
            run_finalized := finalized |}.
  eexists. split; [|split; [done|split; [done|split; [by exists d|]]]].
  - unfold bind at 1. rewrite Hrun1. unfold bind at 1, dict_get, ret at 1.
    fold job. unfold load_ingest_job_data. unfold bind at 1. rewrite Hfs1, Hread.
    unfold bind at 1. fold (ingest_path version job).
    fold (upload_request version job text).
    rewrite (send_answered _ _ _ uploaded) by done.
    unfold bind at 1.
    assert ((if not_ok (status_code uploaded)
             then lift (Str.decode (content uploaded))
             else ret ("Batch: " +:+ file_path +:+ " loaded."))
              (advance_world w1 [(upload_request version job text, Responded uploaded)] [])
            = (Return (if not_ok (status_code uploaded) then content uploaded
                       else "Batch: " +:+ file_path +:+ " loaded."),
               advance_world w1 [(upload_request version job text, Responded uploaded)] []))
      as ->.
    { destruct (not_ok (status_code uploaded)) eqn:Hbad; [|done].
      unfold lift, Str.decode. rewrite Htext2; [done|by right|done]. }
    unfold bind at 1. fold (final_state uploaded).
    fold (finalize_request version job uploaded).
    rewrite (send_answered _ _ _ finalized) by done.
    reflexivity.
  - split; [|simpl; by rewrite Hfs1].
    simpl. rewrite Hh1, <- !app_assoc. reflexivity.
Qed.

(** The loop of [ingest_job_data_batches] over the chunk files. *)
Lemma ingest_chunks_answered (E : Env) (object_name operation version : string)
      (ext : option string) (chunks : list string) : forall w,
  ingest_answered E ->
  ingest_configured operation ext ->
  Forall (fun p => exists text, FS.read_text (Pathlib.Path [p]) (fs w) = Return text)
         chunks ->
  exists steps w',
    for_each
      (fun file_path =>
         let! bulk_job := create_ingest_job E object_name operation ext version in
         let! job := dict_get bulk_job "id" in
         load_ingest_job_data E job file_path version) chunks w
    = (Return (chunk_result version <$> steps), w') /\
    run_path <$> steps = chunks /\
    Forall (fun s => FS.read_text (Pathlib.Path [run_path s]) (fs w) = Return (run_text s) /\
                     exists d, json (run_created s) = Some (JDict d) /\
                               run_job s = default VNone (d !! "id")) steps /\
    history w' = history w ++ concat (chunk_calls object_name operation ext version <$> steps) /\
    fs w' = fs w.
Proof.
  induction chunks as [|chunk rest IH]; intros w Hnet Hconf Hread.
  - exists [], w. simpl. by rewrite app_nil_r.
  - apply Forall_cons in Hread as [[text Htext] Hrest].
    destruct (ingest_chunk_answered E object_name operation version chunk ext w text)
      as (s & w1 & Hrun & Hpath & Htxt & Hjob & Hh & Hfs); try done.
    destruct (IH w1 Hnet Hconf) as (steps & w2 & Hruns & Hpaths & Hsteps & Hh2 & Hfs2).
    { by rewrite Hfs. }
    exists (s :: steps), w2. cbn [for_each]. unfold bind at 1. rewrite Hrun.
    unfold bind at 1. rewrite Hruns. unfold ret.
    split; [done|]. split; [rewrite fmap_cons; by rewrite Hpath, Hpaths|].
    split; [|split].
    + constructor; [by rewrite Hpath, Htxt|]. by rewrite <- Hfs.
    + rewrite Hh2, Hh. simpl. by rewrite <- !app_assoc.
    + by rewrite Hfs2.
Qed.

(** C9, as amended.  When the working directory can be prepared and the
    chunking succeeds, the operation passes the external-id check, every
    chunk file can be read as text, and every request is answered, a job
    creation with a JSON object, a job creation or an upload that is
    answered with a status other than 200 and 201 with a body that is
    UTF-8 text, then [ingest_job_data_batches] sends, for each chunk file
    in chunk order, the job creation, then the upload of the text of the
    chunk file to the job whose id the creation response carries, then the
    finalize request for that job, which is sent whatever the status of
    the upload and asks for the state UploadComplete when that status is
    200 or 201 and for Aborted otherwise; it returns one record per chunk,
    in chunk order, with that state, the status code of the finalize
    response, the id of the job, the path of the chunk and an outcome
    message. *)
Theorem every_chunk_is_finalized (E : Env)
        (object_name operation path_or_file pattern version : string) (batch_size : Z)
        (ext : option string) (working_directory : option (list string)) (w : World)
        fs1 fs2 task :
  let directory :=
    default (Pathlib.Path [gettempdir E; object_name]) working_directory in
  ingest_answered E ->
  ingest_configured (Str.lower operation) ext ->
  FS.mkdir true false directory (cleared directory (fs w)) = (Return (), fs1) ->
  combine_files E path_or_file pattern directory batch_size fs1 = (Return task, fs2) ->
  task_status task = "success" ->
  Forall (fun p => exists text, FS.read_text (Pathlib.Path [p]) fs2 = Return text)
         (task_payload task) ->
  exists steps w',
    ingest_job_data_batches E object_name operation path_or_file pattern batch_size
                            version ext (AsPath <$> working_directory) w
    = (Return (chunk_result version <$> steps), w') /\
    run_path <$> steps = task_payload task /\
    history w'
    = history w ++ concat (chunk_calls object_name (Str.lower operation) ext version
                             <$> steps) /\
    fs w' = fs2 /\
    Forall (fun s =>
              let result := chunk_result version s in
              let uploaded := status_code (run_uploaded s) in
              FS.read_text (Pathlib.Path [run_path s]) fs2 = Return (run_text s) /\
              (exists d, json (run_created s) = Some (JDict d) /\
                         run_job s = default VNone (d !! "id")) /\
              body (upload_request version (run_job s) (run_text s))
              = ContentBody (run_text s) /\
              body (finalize_request version (run_job s) (run_uploaded s))
              = JsonBody (<["state" := VStr (if decide (uploaded = 200 \/ uploaded = 201)%Z
                                            then "UploadComplete" else "Aborted")]> ∅) /\
              result !! "state"
              = Some (VStr (if decide (uploaded = 200 \/ uploaded = 201)%Z
                            then "UploadComplete" else "Aborted")) /\
              result !! "status_code" = Some (VInt (status_code (run_finalized s))) /\
              result !! "id" = Some (run_job s) /\
              result !! "file_path" = Some (VStr (run_path s)) /\
              result !! "message"
              = Some (VStr (if decide (uploaded = 200 \/ uploaded = 201)%Z
                            then "Batch: " +:+ run_path s +:+ " loaded."
                            else content (run_uploaded s)))) steps.
Proof.
  intros directory Hnet Hconf Hmk Hcombine Hstatus Hread.
  rewrite (ingest_job_data_batches_prepared E _ _ _ _ _ _ _ _ _ fs1 fs2 task) by done.
  destruct (ingest_chunks_answered E object_name (Str.lower operation) version ext
              (task_payload task) (with_fs w fs2) Hnet Hconf Hread)
    as (steps & w' & Hrun & Hpaths & Hsteps & Hh & Hfs).
  exists steps, w'. split; [done|]. split; [done|]. split; [done|]. split; [done|].
  eapply Forall_impl; [exact Hsteps|]. intros s [Htext Hjob]. cbv zeta.
  split; [exact Htext|]. split; [exact Hjob|]. split; [reflexivity|].
  assert (final_state (run_uploaded s)
          = if decide (status_code (run_uploaded s) = 200 \/
                       status_code (run_uploaded s) = 201)%Z
            then "UploadComplete" else "Aborted") as Hstate.
  { unfold final_state. repeat case_bool_decide; case_decide; simpl; try done; lia. }
  assert (upload_message s
          = if decide (status_code (run_uploaded s) = 200 \/
                       status_code (run_uploaded s) = 201)%Z
            then "Batch: " +:+ run_path s +:+ " loaded."
            else content (run_uploaded s)) as Hmessage.
  { unfold upload_message, not_ok.
    case_decide as Hs; [by destruct Hs as [-> | ->]|].
    destruct (Z.eqb_spec (status_code (run_uploaded s)) 200); [lia|].
    destruct (Z.eqb_spec (status_code (run_uploaded s)) 201); [lia|]. done. }
  unfold finalize_request, chunk_result; simpl. rewrite <- Hstate, <- Hmessage.
  repeat split; by simplify_map_eq.
Qed.

(** C9, the claim as stated fails: an upload answered with status 204,
    which is a 2xx status, is finalized as Aborted; and an upload that
    fails with a transport error is followed by no finalize request, the
    error leaves the operation and no record is returned. *)
Lemma upload_204_is_aborted :
  let files : gmap (list string) Node := {[ ["/"; "tmp"] := Dir ]} in
  let created := Responded (Sample.created_job "750yy") in
  let run script :=
    ingest_job_data_batches (Sample.env script [("chunk_1.csv", "Id,Name")])
      "Account" "insert" "in.csv" "*.csv" 100 "53.0" None None (Sample.world files) in
  let calls (w : World) :=
    (fun call => (method call.1,
                  match call.2 with
                  | Responded data => Some (status_code data)
                  | Failed _ => None
                  end)) <$> history w in
  let answered := run [created; Responded (Sample.response 204 None "" None);
                       Responded (Sample.response 200 None "" None)] in
  let refused := run [created; Failed (OtherTransportError "ConnectError")] in
  (exists record, answered.1 = Return [record] /\
                  record !! "state" = Some (VStr "Aborted") /\
                  record !! "state" <> Some (VStr "UploadComplete")) /\
  (calls (answered.2)
   = [(POST, Some 201%Z); (PUT, Some 204%Z); (PATCH, Some 200%Z)]) /\
  (200 <= 204 < 300)%Z /\
  (refused.1 = Raise (TransportError (OtherTransportError "ConnectError"))) /\
  (calls (refused.2) = [(POST, Some 201%Z); (PUT, None)]).
Proof.
  vm_compute. split; [|repeat split; discriminate].
  eexists. split; [reflexivity|]. split; [reflexivity|discriminate].
Qed.

(** ** The working directory *)

(** The working directory given as a [Path], or left to its default: when
    it exists as a directory below an existing directory, it is removed
    with all it holds and made again, empty, and the rest of the file
    system is untouched; the chunking then runs on that file system. *)
Lemma working_directory_is_reset (fs : gmap (list string) Node)
      (parent : list string) (name : string) :
  let directory := parent ++ [name] in
  Pathlib.is_anchor name = false ->
  FS.node fs directory = Some Dir ->
  FS.node fs parent = Some Dir ->
  let fs1 := <[directory := Dir]> (FS.rmtree directory fs) in
  FS.mkdir true false directory (cleared directory fs) = (Return (), fs1) /\
  FS.node fs1 directory = Some Dir /\
  (forall q, directory `prefix_of` q -> q <> directory -> fs1 !! q = None) /\
  (forall q, ~ directory `prefix_of` q -> fs1 !! q = fs !! q).
Proof.
  intros directory Hname Hdir Hparent fs1.
  assert (cleared directory fs = FS.rmtree directory fs) as ->.
  { unfold cleared, FS.exists_, FS.is_dir. rewrite Hdir.
    rewrite bool_decide_eq_true_2 by eauto. by rewrite bool_decide_eq_true_2. }
  assert (forall q, ~ directory `prefix_of` q ->
                    FS.rmtree directory fs !! q = fs !! q) as Hkeep.
  { intros q Hq. unfold FS.rmtree. destruct (fs !! q) as [n|] eqn:Hn.
    - by apply map_lookup_filter_Some_2.
    - apply map_lookup_filter_None_2. by left. }
  assert (forall q, directory `prefix_of` q -> FS.rmtree directory fs !! q = None) as Hgone.
  { intros q Hq. unfold FS.rmtree. apply map_lookup_filter_None_2. right.
    intros n _ Hn. by apply Hn. }
  assert (~ directory `prefix_of` parent) as Hshort.
  { intros Hp. apply prefix_length in Hp. unfold directory in Hp.
    rewrite length_app in Hp. simpl in Hp. lia. }
  assert (FS.node (FS.rmtree directory fs) parent = Some Dir) as Hparent'.
  { destruct parent as [|a [|b t]]; simpl in *; [done| |by rewrite Hkeep].
    destruct (Pathlib.is_anchor a); [done|]. by rewrite Hkeep. }
  assert (FS.node (FS.rmtree directory fs) directory = None) as Hdir'.
  { unfold directory. rewrite node_snoc by done. by apply Hgone. }
  split; [|split; [|split]].
  - assert (Pathlib.parent directory = parent) as Hp by by apply parent_snoc.
    unfold FS.mkdir. destruct (2 * length directory)%nat; simpl;
      unfold FS.os_mkdir; by rewrite Hp, Hparent', Hdir'.
  - unfold fs1. apply node_insert_eq. by left.
  - intros q Hq Hne. unfold fs1. rewrite lookup_insert_ne by done. by apply Hgone.
  - intros q Hq. unfold fs1. rewrite lookup_insert_ne; [by apply Hkeep|].
    intros <-. by apply Hq.
Qed.

(** C10, the code at the failing input and beside it.  A working
    directory passed as a [str], which is what the signature announces,
    makes [ingest_job_data_batches] raise [AttributeError] at
    [working_directory.exists()]: nothing is deleted, made, chunked or sent.
    Left to its default or passed as a [Path], a working directory that
    exists is removed with all it holds and made again, empty, and only
    then does the chunking run, before any request. *)
Theorem working_directory_str_or_path (E : Env)
        (object_name operation path_or_file pattern version : string) (batch_size : Z)
        (ext : option string) (w : World) :
  (forall working_directory : string,
      ingest_job_data_batches E object_name operation path_or_file pattern batch_size
                              version ext (Some (AsStr working_directory)) w
      = (Raise (AttributeError "'str' object has no attribute 'exists'"), w)) /\
  (forall (working_directory : option (list string)) (parent : list string) (name : string),
      let directory :=
        default (Pathlib.Path [gettempdir E; object_name]) working_directory in
      directory = parent ++ [name] ->
      Pathlib.is_anchor name = false ->
      FS.node (fs w) directory = Some Dir ->
      FS.node (fs w) parent = Some Dir ->
      let fs1 := <[directory := Dir]> (FS.rmtree directory (fs w)) in
      FS.node fs1 directory = Some Dir /\
      (forall q, directory `prefix_of` q -> q <> directory -> fs1 !! q = None) /\
      (forall q, ~ directory `prefix_of` q -> fs1 !! q = fs w !! q) /\
      ingest_job_data_batches E object_name operation path_or_file pattern batch_size
                              version ext (AsPath <$> working_directory) w
      = match combine_files E path_or_file pattern directory batch_size fs1 with
        | (Return task, fs2) =>
            if bool_decide (task_status task = "success") then
              for_each
                (fun file_path =>
                   let! bulk_job := create_ingest_job E object_name (Str.lower operation)
                                                      ext version in
                   let! job := dict_get bulk_job "id" in
                   load_ingest_job_data E job file_path version)
                (task_payload task) (with_fs w fs2)
            else (Raise (RuntimeError ("Combining files failed: " +:+ task_message task)),
                  with_fs w fs2)
        | (Raise e, fs2) => (Raise e, with_fs w fs2)
        end).
Proof.
  split; [done|].
  intros working_directory parent name directory Hsplit Hname Hdir Hparent fs1.
  rewrite Hsplit in Hdir.
  destruct (working_directory_is_reset (fs w) parent name Hname Hdir Hparent)
    as (Hmk & Hnode & Hbelow & Hrest).
  rewrite <- Hsplit in Hmk, Hnode, Hbelow, Hrest.
  split; [done|]. split; [done|]. split; [done|].
  by apply ingest_job_data_batches_made.
Qed.

(** The same on a working directory that exists and holds a file: the file
    is still there afterwards. *)
Example str_working_directory_is_kept :
  let files : gmap (list string) Node :=
    <[ ["/"; "tmp"; "work"; "old.csv"] := File "Id" ]>
      (<[ ["/"; "tmp"; "work"] := Dir ]> {[ ["/"; "tmp"] := Dir ]}) in
  let run := ingest_job_data_batches (Sample.server_env 0 [("chunk_1.csv", "Id,Name")])
               "Account" "insert" "in.csv" "*.csv" 100 "53.0" None
               (Some (AsStr "/tmp/work")) (Sample.world files) in
  (exists e, run.1 = Raise e) /\
  fs run.2 !! ["/"; "tmp"; "work"; "old.csv"] = Some (File "Id").
Proof. vm_compute. split; [eexists|]; reflexivity. Qed.

(** The default working directory, when it exists and holds a file: the
    file is gone afterwards and the chunk is there. *)
Example default_working_directory_is_reset :
  let files : gmap (list string) Node :=
    <[ ["/"; "tmp"; "Account"; "old.csv"] := File "Id" ]>
      (<[ ["/"; "tmp"; "Account"] := Dir ]> {[ ["/"; "tmp"] := Dir ]}) in
  let run := ingest_job_data_batches (Sample.server_env 0 [("chunk_1.csv", "Id,Name")])
               "Account" "insert" "in.csv" "*.csv" 100 "53.0" None None
               (Sample.world files) in
  (exists records, run.1 = Return records /\ length records = 1%nat) /\
  fs run.2 !! ["/"; "tmp"; "Account"; "old.csv"] = None /\
  fs run.2 !! ["/"; "tmp"; "Account"] = Some Dir /\
  fs run.2 !! ["/"; "tmp"; "Account"; "chunk_1.csv"] = Some (File "Id,Name").
Proof. vm_compute. split; [eexists; split; reflexivity|]. repeat split. Qed.

(** ** The claims on sample runs *)

Lemma server_accepts_advances records chunks :
  advances_accepted (Sample.server_env records chunks).
Proof.
  intros h r Hm. simpl. unfold Sample.server. rewrite Hm.
  eexists _, _. split; [reflexivity|]. split; [reflexivity|].
  simpl. apply lookup_singleton_eq.
Qed.

Lemma server_answers_ingest records chunks :
  ingest_answered (Sample.server_env records chunks).
Proof.
  intros h r. simpl. unfold Sample.server.
  destruct (method r); try case_decide;
    (eexists; split; [reflexivity|]);
    (split; [intros Hm; try discriminate; by eexists
            |intros _ Hbad; by vm_compute in Hbad]).
Qed.

Lemma scripted_timeouts (n j : nat) rest chunks req :
  (j < n)%nat ->
  net (Sample.env (replicate n (Failed ReadTimeout) ++ rest) chunks)
      ([] ++ replicate j (req, Failed ReadTimeout)) req
  = Failed ReadTimeout.
Proof.
  intros Hj. simpl. unfold Sample.scripted.
  rewrite length_replicate, lookup_app_l by (rewrite length_replicate; lia).
  by rewrite lookup_replicate_2.
Qed.

Lemma scripted_answer (n : nat) data rest chunks req :
  net (Sample.env (replicate n (Failed ReadTimeout) ++ Responded data :: rest) chunks)
      ([] ++ replicate n (req, Failed ReadTimeout)) req
  = Responded data.
Proof.
  simpl. unfold Sample.scripted.
  rewrite length_replicate, lookup_app_r by (rewrite length_replicate; lia).
  by rewrite length_replicate, Nat.sub_diag.
Qed.

(** C1 on the example of the specification: 25000 records in batches of
    10000 give three batches. *)
Lemma planning_numbers_and_cursors_witness :
  let E := Sample.server_env 25000 [] in
  let w := Sample.world ∅ in
  let jd := Sample.job_document 25000 in
  exists lots w' advances,
    plan_batches E "750xx" "53.0" "./data" (Some 10000%Z) w = (Return lots, w') /\
    length lots = Z.to_nat (ceil_div 25000 10000) /\
    (10000 * (Z.of_nat (length lots) - 1) < 25000 <= 10000 * Z.of_nat (length lots))%Z /\
    (forall i b, lots !! i = Some b ->
                 batch_number b = (Z.of_nat i + 1)%Z /\ batch_size b = 10000%Z) /\
    (forall b, lots !! 0%nat = Some b -> batch_start b = None) /\
    history w' = history w ++ (job_request "750xx" "53.0", Responded jd) :: advances /\
    length advances = length lots /\
    (forall i b b', lots !! i = Some b -> lots !! S i = Some b' ->
       exists data,
         advances !! i = Some (locator_request "750xx" 10000 (batch_start b) "53.0",
                               Responded data) /\
         is_Some (batch_start b') /\
         batch_start b' = headers data !! "sforce-locator").
Proof.
  intros E w jd.
  apply (planning_numbers_and_cursors E "750xx" "53.0" "./data" "Account" 10000 25000 w jd
           (<["numberRecordsProcessed" := VInt 25000]> {[ "object" := VStr "Account" ]}));
    [lia | lia | reflexivity | reflexivity | reflexivity | reflexivity | reflexivity
    | apply server_accepts_advances].
Defined.

(** C3 on a pool of two downloads that take turns, with a ceiling of 3:
    the first batch times out three times and is returned failed, the
    second is answered and complete, and its file is written. *)
Lemma exhausted_batch_is_failed_alone_witness :
  let E := Sample.pool_env in
  let first := Sample.batch 1 None in
  let second := Sample.batch 2 (Some "cursor-1") in
  let page := Sample.response 200 None "Id,Name" None in
  let w := Sample.world ∅ in
  let run := pull_batches E [first; second] w in
  (exists failed w',
      a_get_query_data E first 3 w = (Return failed, w') /\
      status failed = "FAILED" /\
      attempt_count failed = 3%Z /\
      message failed
      = Some ("Error occurred while downloading job data after : "
              +:+ "RetryError[<Future at 0x7f6d2c1b3a90 state=finished raised ReadTimeout>]") /\
      downloaded_file_path failed = downloaded_file_path first /\
      file_name failed = file_name first /\
      fs w' = fs w /\
      history w' = history w ++ replicate 3 (fetch_request first, Failed ReadTimeout)) /\
  history run.2 = [(fetch_request first, Failed ReadTimeout);
                   (fetch_request second, Responded page);
                   (fetch_request first, Failed ReadTimeout);
                   (fetch_request first, Failed ReadTimeout)] /\
  FS.node (fs run.2) ["data"; "750xx_1.csv"] = None /\
  FS.node (fs run.2) ["data"; "750xx_2.csv"] = Some (File "Id,Name") /\
  exists failed complete,
    run.1 = Return [failed; complete] /\
    Forall2 (downloaded 3) [first; second] [failed; complete] /\
    failed = exhausted "0x7f6d2c1b3a90" first 3 /\
    status failed = "FAILED" /\
    attempt_count failed = 3%Z /\
    downloaded_file_path failed = downloaded_file_path first /\
    file_name failed = file_name first /\
    status complete = "COMPLETE" /\
    attempt_count complete = 1%Z.
Proof.
  intros E first second page w run.
  destruct (exhausted_batch_is_failed_alone E first 3) as [Halone Hpool].
  split.
  { apply (Halone w). intros j Hj. reflexivity. }
  assert (history run.2 = [(fetch_request first, Failed ReadTimeout);
                           (fetch_request second, Responded page);
                           (fetch_request first, Failed ReadTimeout);
                           (fetch_request first, Failed ReadTimeout)]) as Hh
      by (vm_compute; reflexivity).
  split; [exact Hh|].
  split; [vm_compute; reflexivity|]. split; [vm_compute; reflexivity|].
  set (complete := set_file (set_outcome (set_attempt_count second 1) "COMPLETE"
                               "data/750xx_2.csv download complete")
                            ["data"; "750xx_2.csv"] "750xx_2.csv").
  assert (run.1 = Return [exhausted "0x7f6d2c1b3a90" first 3; complete]) as Hdone
      by (vm_compute; reflexivity).
  destruct (Hpool [first; second] w eq_refl) as [Hret _].
  { fold run. rewrite Hh. intros o Ho. simpl in Ho.
    repeat (apply elem_of_cons in Ho as [Ho|Ho]);
      try (by injection Ho as ->); [|by apply elem_of_nil in Ho].
    apply (f_equal (fun c => params c.1 !! "locator")) in Ho. by vm_compute in Ho. }
  destruct (Hret _ Hdone) as [Hall Hat].
  destruct (Hat 0%nat eq_refl) as (failed & address & [= <-] & _ & Hrest).
  exists (exhausted "0x7f6d2c1b3a90" first 3), complete.
  split; [exact Hdone|]. split; [exact Hall|]. split; [reflexivity|].
  destruct Hrest as (? & ? & ? & ?). repeat (split; [done|]). done.
Defined.

(** C3, the claim as stated fails for a ceiling below 1: the stop condition
    of the loop is met after the first attempt only, so that the batch is
    returned failed with [attempt_count = 1], which is above the
    ceiling. *)
Lemma attempt_count_exceeds_a_ceiling_below_one :
  let batch := Sample.batch 1 None in
  let run := a_get_query_data (Sample.env [Failed ReadTimeout] []) batch 0
                              (Sample.world ∅) in
  let E := Sample.ceiling_env "0" [Failed ReadTimeout] in
  let pool := pull_batches E [batch] (Sample.world ∅) in
  (exists failed,
      run.1 = Return failed /\
      status failed = "FAILED" /\
      attempt_count failed = 1%Z /\
      attempt_count failed <> 0%Z /\
      history run.2 = [(fetch_request batch, Failed ReadTimeout)]) /\
  default_max_attempts E = Return 0%Z /\
  (exists failed,
      pool.1 = Return [failed] /\
      status failed = "FAILED" /\
      attempt_count failed = 1%Z /\
      history pool.2 = [(fetch_request batch, Failed ReadTimeout)]).
Proof.
  vm_compute. split; [|split; [reflexivity|]]; eexists; repeat split. discriminate.
Qed.

(** C4 on a batch answered at its third attempt. *)
Lemma answered_batch_is_complete_witness :
  let data := Sample.response 200 None "Id,Name" None in
  let E := Sample.env (replicate 2 (Failed ReadTimeout) ++ [Responded data]) [] in
  let batch := Sample.batch 7 (Some "cursor-6") in
  let w := Sample.world ∅ in
  download_path batch = "./data" /\
  exists complete w',
    a_get_query_data E batch 20 w = (Return complete, w') /\
    status complete = "COMPLETE" /\
    attempt_count complete = Z.of_nat 3 /\
    downloaded_file_path complete = Some ["data"; "750xx_7.csv"] /\
    file_name complete = Some "750xx_7.csv" /\
    FS.node (fs w') ["data"; "750xx_7.csv"] = Some (File "Id,Name") /\
    history w' = history w ++ replicate 2 (fetch_request batch, Failed ReadTimeout)
                           ++ [(fetch_request batch, Responded data)].
Proof.
  intros data E batch w. split; [reflexivity|].
  apply (answered_batch_is_complete E batch 20 w 3 data false ["."; "data"]);
    [lia | | | by left | reflexivity | reflexivity | | reflexivity | reflexivity
    | by left | discriminate].
  - intros j Hj. apply (scripted_timeouts 2 j). simpl in Hj. lia.
  - apply (scripted_answer 2).
  - split; [by repeat constructor|discriminate].
Defined.

(** C4, the claim as stated fails: a fetch answered with status 200 at the
    first attempt does not end COMPLETE when the payload is no UTF-8 text,
    where [UnicodeDecodeError] leaves the call with an empty file behind,
    nor when the output directory is to be made in a directory that does
    not exist, where [FileNotFoundError] leaves the call and no file is
    written. *)
Lemma answered_batch_is_not_always_complete :
  let undecodable :=
    Sample.response 200 None (String (Ascii.ascii_of_N 255) EmptyString) None in
  let page := Sample.response 200 None "Id,Name" None in
  let garbled := a_get_query_data (Sample.env [Responded undecodable] [])
                                  (Sample.batch 7 (Some "cursor-6")) 20
                                  (Sample.world ∅) in
  let misplaced := a_get_query_data (Sample.env [Responded page] [])
                                    (Sample.batch_at "exports/data" 7 (Some "cursor-6")) 20
                                    (Sample.world ∅) in
  garbled.1 = Raise UnicodeDecodeError /\
  length (history garbled.2) = 1%nat /\
  FS.node (fs garbled.2) ["data"; "750xx_7.csv"] = Some (File "") /\
  misplaced.1 = Raise (OSError FileNotFound ["exports"; "data"]) /\
  length (history misplaced.2) = 1%nat /\
  fs misplaced.2 = ∅.
Proof. vm_compute. repeat split. Qed.

(** C5 on a job of 0 records. *)
Lemma no_records_exits_witness :
  let E := Sample.server_env 0 [] in
  let w := Sample.world ∅ in
  let jd := Sample.job_document 0 in
  let w' := {| history := [(job_request "750xx" "53.0", Responded jd)]; fs := ∅;
               stderr := [[VStr "Record Count is 0, No results to process"]];
               stdout := []; sleeps := [] |} in
  plan_batches E "750xx" "53.0" "./data" (Some 10000%Z) w = (Raise (SystemExit None), w') /\
  download_query_data E "750xx" "53.0" "./data" (Some 10000%Z) false w
  = (Raise (SystemExit None), w').
Proof.
  intros E w jd w'.
  apply (no_records_exits E "750xx" "53.0" "./data" (Some 10000%Z) false w jd
           (<["numberRecordsProcessed" := VInt 0]> {[ "object" := VStr "Account" ]}));
    reflexivity.
Defined.

(** C6 on a run whose second advance is answered with status 500. *)
Example rejected_advance_is_fatal_example :
  let job := Responded (Sample.job_document 25000) in
  let script := [job; Responded (Sample.response 200 (Some "cursor-1") "" None);
                 Responded (Sample.response 500 None "busy" None)] in
  let run := download_query_data (Sample.env script []) "750xx" "53.0" "./data"
                                 (Some 10000%Z) false (Sample.world ∅) in
  run.1 = Raise (Exception "500:Something went wrong to get batch locators") /\
  length (history run.2) = 3%nat.
Proof. vm_compute. split; reflexivity. Qed.

(** C7 on the example of the specification. *)
Lemma cursors_of_a_run_witness :
  let E := Sample.server_env 25000 [] in
  let w := Sample.world ∅ in
  let jd := Sample.job_document 25000 in
  exists returned lots w' advances,
    plan_batches E "750xx" "53.0" "./data" (Some 10000%Z) w = (Return lots, w') /\
    history w' = history w ++ (job_request "750xx" "53.0", Responded jd) :: advances /\
    length returned = length lots /\
    length advances = length lots /\
    batch_start <$> lots = removelast (None :: (Some <$> returned)) /\
    (forall i start,
        (batch_start <$> lots) !! i = Some start ->
        exists data,
          advances !! i = Some (locator_request "750xx" 10000 start "53.0", Responded data) /\
          headers data !! "sforce-locator" = returned !! i) /\
    (forall b max_attempts w1,
        b ∈ lots ->
        exists calls,
          history (a_get_query_data E b max_attempts w1).2 = history w1 ++ calls /\
          (1 <= length calls)%nat /\
          Forall (fun c => c.1 = fetch_request b /\
                           params c.1 !! "locator" = VStr <$> batch_start b) calls).
Proof.
  intros E w jd.
  apply (cursors_of_a_run E "750xx" "53.0" "./data" "Account" 10000 25000 w jd
           (<["numberRecordsProcessed" := VInt 25000]> {[ "object" := VStr "Account" ]}));
    [lia | lia | reflexivity | reflexivity | reflexivity | reflexivity | reflexivity
    | apply server_accepts_advances].
Defined.

(** C8 on an upsert without external-id field and one chunk. *)
Lemma upsert_needs_external_id_witness :
  let files : gmap (list string) Node := {[ ["/"; "tmp"] := Dir ]} in
  let E := Sample.env [] [("chunk_1.csv", "Id,Name")] in
  let w := Sample.world files in
  let directory := ["/"; "tmp"; "Account"] in
  let fs1 := <[directory := Dir]> files in
  let fs2 := <[directory ++ ["chunk_1.csv"] := File "Id,Name"]> fs1 in
  let task := {| task_status := "success"; task_message := "";
                 task_payload := ["/tmp/Account/chunk_1.csv"] |} in
  let run := ingest_job_data_batches E "Account" "UPSERT" "in.csv" "*.csv" 100 "53.0"
                                     (Some "") (AsPath <$> None) w in
  (forall w0, create_ingest_job E "Account" "upsert" (Some "") "53.0" w0
              = (Raise upsert_error, w0)) /\
  (task_payload task <> [] -> run = (Raise upsert_error, with_fs w fs2)) /\
  (task_payload task = [] -> run = (Return [], with_fs w fs2)).
Proof.
  intros files E w directory fs1 fs2 task run.
  apply (upsert_needs_external_id E "Account" "UPSERT" "in.csv" "*.csv" "53.0" 100
           (Some "") None w fs1 fs2 task);
    [reflexivity | by right | vm_compute; reflexivity | vm_compute; reflexivity
    | reflexivity].
Defined.

(** C9 on two chunks sent to the sample server, the first with lines that
    end in CR LF. *)
Lemma every_chunk_is_finalized_witness :
  let files : gmap (list string) Node := {[ ["/"; "tmp"] := Dir ]} in
  let rows := "Id,Name" +:+ Sample.crlf +:+ "001,Acme" +:+ Sample.crlf in
  let E := Sample.server_env 0 [("chunk_1.csv", rows); ("chunk_2.csv", "Id,Name")] in
  let w := Sample.world files in
  let fs2 := <[ ["/"; "tmp"; "Account"; "chunk_1.csv"] := File rows ]>
               (<[ ["/"; "tmp"; "Account"; "chunk_2.csv"] := File "Id,Name" ]>
                  (<[ ["/"; "tmp"; "Account"] := Dir ]> files)) in
  let run := ingest_job_data_batches E "Account" "Insert" "in.csv" "*.csv" 100 "53.0" None
                                     (AsPath <$> None) w in
  (fun call => (method call.1, body call.1)) <$> history run.2
  = [(POST, JsonBody (ingest_body "Account" "insert" None));
     (PUT, ContentBody ("Id,Name" +:+ Sample.lf +:+ "001,Acme" +:+ Sample.lf));
     (PATCH, JsonBody {[ "state" := VStr "UploadComplete" ]});
     (POST, JsonBody (ingest_body "Account" "insert" None));
     (PUT, ContentBody "Id,Name");
     (PATCH, JsonBody {[ "state" := VStr "UploadComplete" ]})] /\
  exists steps w',
    run = (Return (chunk_result "53.0" <$> steps), w') /\
    run_path <$> steps = ["/tmp/Account/chunk_1.csv"; "/tmp/Account/chunk_2.csv"] /\
    history w'
    = history w ++ concat (chunk_calls "Account" "insert" None "53.0" <$> steps) /\
    fs w' = fs2 /\
    Forall (fun s =>
              let result := chunk_result "53.0" s in
              let uploaded := status_code (run_uploaded s) in
              FS.read_text (Pathlib.Path [run_path s]) fs2 = Return (run_text s) /\
              (exists d, json (run_created s) = Some (JDict d) /\
                         run_job s = default VNone (d !! "id")) /\
              body (upload_request "53.0" (run_job s) (run_text s))
              = ContentBody (run_text s) /\
              body (finalize_request "53.0" (run_job s) (run_uploaded s))
              = JsonBody (<["state" := VStr (if decide (uploaded = 200 \/ uploaded = 201)%Z
                                            then "UploadComplete" else "Aborted")]> ∅) /\
              result !! "state"
              = Some (VStr (if decide (uploaded = 200 \/ uploaded = 201)%Z
                            then "UploadComplete" else "Aborted")) /\
              result !! "status_code" = Some (VInt (status_code (run_finalized s))) /\
              result !! "id" = Some (run_job s) /\
              result !! "file_path" = Some (VStr (run_path s)) /\
              result !! "message"
              = Some (VStr (if decide (uploaded = 200 \/ uploaded = 201)%Z
                            then "Batch: " +:+ run_path s +:+ " loaded."
                            else content (run_uploaded s)))) steps.
Proof.
  intros files rows E w fs2 run. split; [vm_compute; reflexivity|]. unfold run.
  apply (every_chunk_is_finalized E "Account" "Insert" "in.csv" "*.csv" "53.0" 100 None
           None w (<[ ["/"; "tmp"; "Account"] := Dir ]> files) fs2
           {| task_status := "success"; task_message := "";
              task_payload := ["/tmp/Account/chunk_1.csv"; "/tmp/Account/chunk_2.csv"] |});
    [apply server_answers_ingest | left; discriminate | vm_compute; reflexivity
    | vm_compute; reflexivity | reflexivity |].
  repeat constructor; eexists; vm_compute; reflexivity.
Defined.

(** The wait after the second attempt is 4 in the older releases of
    tenacity as well, where the exponent is the attempt number. *)
Remark wait_exponential_legacy_second :
  Tenacity.wait_exponential_legacy 1 4 60 2 = 4%Z /\
  Tenacity.wait_exponential 1 4 60 2 = 4%Z /\
  Z.min 60 (4 * 2 ^ (2 - 1)) = 8%Z.
Proof. repeat split. Qed.

(** * Further properties *)

(** ** The download of a batch, its other endings *)

(** The loop when the first [k] attempts time out and the next one ends
    otherwise. *)
Lemma retrying_ended (E : Env) (k : nat) : forall remaining n batch w o,
  let req := fetch_request batch in
  (k <= remaining)%nat ->
  (forall j, (j < k)%nat ->
             net E (history w ++ replicate j (req, Failed ReadTimeout)) req
             = Failed ReadTimeout) ->
  net E (history w ++ replicate k (req, Failed ReadTimeout)) req = o ->
  o <> Failed ReadTimeout ->
  retrying E remaining n batch w
  = ((set_attempt_count batch (n + Z.of_nat k), ending o),
     advance_world w (replicate k (req, Failed ReadTimeout) ++ [(req, o)])
                   (waits_from n k)).
Proof.
  induction k as [|k IH]; intros remaining n batch w o req Hk H Ho Hne;
    rewrite retrying_step; cbv zeta; fold req.
  - simpl in Ho. rewrite app_nil_r in Ho. rewrite Ho, Z.add_0_r.
    by destruct o as [data|[|name]].
  - pose proof (H 0%nat ltac:(lia)) as H0; simpl in H0; rewrite app_nil_r in H0.
    rewrite H0. destruct remaining as [|remaining]; [lia|].
    rewrite (IH _ _ _ _ o).
    + f_equal; [f_equal|].
      * unfold set_attempt_count; simpl. f_equal. lia.
      * by rewrite advance_world_app, waits_from_S.
    + lia.
    + intros j Hj. rewrite fetch_request_attempt_count. fold req. simpl.
      rewrite <- app_assoc. apply (H (S j)). lia.
    + rewrite fetch_request_attempt_count. fold req. simpl.
      rewrite <- app_assoc. apply Ho.
    + done.
Qed.

(** X1.  A batch whose first answer, at attempt [k] within the ceiling,
    has a status other than 200 and 201 is returned FAILED at once: the
    message carries the body of the response, [attempt_count] is [k], no
    further request is made and the file system is left as it was. *)
Theorem refused_batch_is_failed (E : Env) (batch : Batch) (max_attempts : Z)
        (w : World) (k : nat) (data : Response) :
  let req := fetch_request batch in
  (1 <= Z.of_nat k <= max_attempts)%Z ->
  (forall j, (j < k - 1)%nat ->
             net E (history w ++ replicate j (req, Failed ReadTimeout)) req
             = Failed ReadTimeout) ->
  net E (history w ++ replicate (k - 1) (req, Failed ReadTimeout)) req = Responded data ->
  not_ok (status_code data) = true ->
  Str.utf8_valid (Str.byte_values (content data)) = true ->
  exists failed w',
    a_get_query_data E batch max_attempts w = (Return failed, w') /\
    status failed = "FAILED" /\
    message failed = Some ("Error occurred while downloading job data: " +:+ content data) /\
    attempt_count failed = Z.of_nat k /\
    downloaded_file_path failed = downloaded_file_path batch /\
    file_name failed = file_name batch /\
    history w' = history w ++ replicate (k - 1) (req, Failed ReadTimeout)
                           ++ [(req, Responded data)] /\
    fs w' = fs w.
Proof.
  intros req Hk Hto Hdata Hbad Htext. unfold a_get_query_data, conclude.
  rewrite (retrying_ended E (k - 1) _ _ _ _ (Responded data)) by (done || lia).
  cbn [ending]. rewrite Hbad. unfold bind, lift, ret, Str.decode. rewrite Htext.
  eexists _, _. split; [reflexivity|]. simpl.
  repeat (split; [try reflexivity; f_equal; lia|]). done.
Qed.

(** X2.  A transport failure that is no read timeout is neither retried
    nor turned into a FAILED batch: it leaves [a_get_query_data] as an
    exception, with no wait after it and the file system as it was; and a
    pool that runs this download alone hands it to the caller of
    [pull_batches] inside a [ProxyException], so that no batch is
    returned. *)
Theorem other_transport_failure_is_raised (E : Env) (batch : Batch)
        (max_attempts : Z) (w : World) (k : nat) (name : string) :
  let req := fetch_request batch in
  let failure := Failed (OtherTransportError name) in
  let w' := advance_world w (replicate (k - 1) (req, Failed ReadTimeout) ++ [(req, failure)])
                          (waits_from 1 (k - 1)) in
  (1 <= Z.of_nat k <= max_attempts)%Z ->
  (forall j, (j < k - 1)%nat ->
             net E (history w ++ replicate j (req, Failed ReadTimeout)) req
             = Failed ReadTimeout) ->
  net E (history w ++ replicate (k - 1) (req, Failed ReadTimeout)) req = failure ->
  a_get_query_data E batch max_attempts w
  = (Raise (TransportError (OtherTransportError name)), w') /\
  fs w' = fs w /\
  (default_max_attempts E = Return max_attempts ->
   pull_batches E [batch] w
   = (Raise (ProxyException (TransportError (OtherTransportError name))), w')).
Proof.
  intros req failure w' Hk Hto Hfail.
  assert (a_get_query_data E batch max_attempts w
          = (Raise (TransportError (OtherTransportError name)), w')) as Hrun.
  { unfold a_get_query_data, conclude.
    by rewrite (retrying_ended E (k - 1) _ _ _ _ failure) by (done || lia). }
  split; [done|]. split; [done|].
  intros Hdef. by rewrite (pull_batches_alone E batch max_attempts), Hrun.
Qed.

(** X3.  A ceiling of 1, of 0 or below allows exactly one attempt: a batch
    whose first attempt times out is then returned FAILED with
    [attempt_count = 1], after one request and no wait. *)
Theorem ceiling_below_two_is_one_attempt (E : Env) (batch : Batch) (max_attempts : Z)
        (w : World) :
  let req := fetch_request batch in
  let failed :=
    exhausted (future_address E (history w ++ [(req, Failed ReadTimeout)])) batch 1 in
  (max_attempts <= 1)%Z ->
  net E (history w) req = Failed ReadTimeout ->
  a_get_query_data E batch max_attempts w
  = (Return failed, advance_world w [(req, Failed ReadTimeout)] []) /\
  attempt_count failed = 1%Z /\
  status failed = "FAILED".
Proof.
  intros req failed Hmax Hnet. split; [|done]. unfold a_get_query_data, conclude.
  replace (Z.to_nat (max_attempts - 1)) with 0%nat by lia.
  rewrite retrying_all_timeouts.
  - reflexivity.
  - intros j Hj. replace j with 0%nat by lia. simpl. by rewrite app_nil_r.
Qed.

(** X4.  A payload that is not UTF-8 text, answered with status 200 or
    201, makes [a_get_query_data] raise [UnicodeDecodeError] once the output
    file is open: the batch is not returned, and an empty file is left at
    its path. *)
Theorem undecodable_payload_leaves_an_empty_file (E : Env) (batch : Batch)
        (max_attempts : Z) (w : World) (k : nat) (data : Response) :
  let req := fetch_request batch in
  let directory := Pathlib.Path [download_path batch] in
  let name := job_id batch +:+ "_" +:+ pretty (batch_number batch) +:+ ".csv" in
  (1 <= Z.of_nat k <= max_attempts)%Z ->
  (forall j, (j < k - 1)%nat ->
             net E (history w ++ replicate j (req, Failed ReadTimeout)) req
             = Failed ReadTimeout) ->
  net E (history w ++ replicate (k - 1) (req, Failed ReadTimeout)) req = Responded data ->
  (status_code data = 200 \/ status_code data = 201)%Z ->
  Str.utf8_valid (Str.byte_values (content data)) = false ->
  Str.contains "/" (job_id batch) = false ->
  FS.node (fs w) (Pathlib.parent directory) = Some Dir ->
  FS.node (fs w) directory = None \/ FS.node (fs w) directory = Some Dir ->
  FS.node (fs w) (directory ++ [name]) <> Some Dir ->
  exists w',
    a_get_query_data E batch max_attempts w = (Raise UnicodeDecodeError, w') /\
    FS.node (fs w') (directory ++ [name]) = Some (File "").
Proof.
  intros req directory name Hk Hto Hdata Hstatus Htext Hjob Hparent Hdir Hfile.
  unfold a_get_query_data, conclude.
  rewrite (retrying_ended E (k - 1) _ _ _ _ (Responded data)) by (done || lia).
  cbn [ending].
  assert (not_ok (status_code data) = false) as ->.
  { unfold not_ok. destruct Hstatus as [-> | ->]; reflexivity. }
  destruct (csv_name_parts batch Hjob directory) as [Hjoin Hanchor].
  rewrite !csv_name_set_attempt_count, !download_path_set_attempt_count.
  fold directory. rewrite Hjoin. change (csv_name batch) with name in *.
  destruct (mkdir_exist_ok (fs w) directory Hparent Hdir) as (fs1 & Hmk & Hd & Hrest).
  assert (directory ++ [name] <> directory) as Hne.
  { intros Heq. apply (f_equal length) in Heq.
    rewrite length_app in Heq. simpl in Heq. lia. }
  unfold bind, on_fs, lift, ret, Str.decode, FS.open_w. simpl fs. rewrite Hmk. simpl.
  rewrite write_text_ok;
    [|by rewrite Hrest|by rewrite parent_snoc]. simpl. rewrite Htext.
  eexists. split; [reflexivity|]. simpl.
  rewrite node_snoc by done. apply lookup_insert_eq.
Qed.

(** ** The waits of a download *)

Lemma wait_exponential_bounds n :
  (4 <= Tenacity.wait_exponential 1 4 60 n <= 60)%Z.
Proof. rewrite wait_exponential_closed. lia. Qed.

Lemma wait_exponential_mono n m :
  (n <= m)%Z ->
  (Tenacity.wait_exponential 1 4 60 n <= Tenacity.wait_exponential 1 4 60 m)%Z.
Proof.
  intros H. rewrite !wait_exponential_closed.
  destruct (Z_lt_le_dec (n - 1) 0) as [Hn|Hn].
  - rewrite (Z.pow_neg_r 2 (n - 1)) by lia.
    pose proof (Z.pow_nonneg 2 (m - 1) ltac:(lia)). lia.
  - pose proof (Z.pow_le_mono_r 2 (n - 1) (m - 1) ltac:(lia) ltac:(lia)). lia.
Qed.

Lemma waits_from_total n k :
  (4 * Z.of_nat k <= total (waits_from n k) <= 60 * Z.of_nat k)%Z.
Proof.
  revert n. induction k as [|k IH]; intros n; [simpl; lia|].
  rewrite waits_from_S. cbn [total foldr]. fold (total (waits_from (n + 1) k)).
  pose proof (wait_exponential_bounds n). specialize (IH (n + 1)%Z). lia.
Qed.

(** X5.  Whatever the transport does, the waits of the download of a
    batch lie between 4 and 60 seconds each and never decrease; there is
    one wait less than there are requests, so at most [max(1, ceiling) - 1]
    waits, and a batch sleeps at most [60 * (max(1, ceiling) - 1)] seconds
    in all. *)
Theorem download_waits_are_bounded (E : Env) (batch : Batch) (max_attempts : Z)
        (w : World) :
  let w' := (a_get_query_data E batch max_attempts w).2 in
  exists calls waits,
    history w' = history w ++ calls /\
    sleeps w' = sleeps w ++ waits /\
    S (length waits) = length calls /\
    Forall (fun s => 4 <= s <= 60)%Z waits /\
    (forall i a b, waits !! i = Some a -> waits !! S i = Some b -> (a <= b)%Z) /\
    (total waits <= 60 * (Z.max 1 max_attempts - 1))%Z.
Proof.
  cbv zeta.
  destruct (a_get_query_data_after_loop E batch max_attempts w) as [Hh Hs].
  rewrite Hh, Hs.
  destruct (retrying_trace E (Z.to_nat (max_attempts - 1)) 1 batch w)
    as (calls & r & Heq & Hlen & _).
  rewrite Heq. simpl. exists calls, (waits_from 1 (length calls - 1)).
  split; [done|]. split; [done|].
  assert (length (waits_from 1 (length calls - 1)) = (length calls - 1)%nat) as Hw.
  { unfold waits_from. by rewrite length_map, length_seq. }
  split; [lia|]. split; [|split].
  - unfold waits_from. apply Forall_forall. intros s Hs'.
    apply list_elem_of_fmap in Hs' as (i & -> & _). apply wait_exponential_bounds.
  - unfold waits_from. intros i a b Ha Hb.
    rewrite list_lookup_fmap in Ha, Hb.
    apply fmap_Some in Ha as (x & Hx & ->). apply fmap_Some in Hb as (y & Hy & ->).
    apply lookup_seq in Hx as [-> _]. apply lookup_seq in Hy as [-> _].
    apply wait_exponential_mono. lia.
  - pose proof (waits_from_total 1 (length calls - 1)). lia.
Qed.

(** ** What the download returns and what it touches *)

Lemma mkdir_no_parents_frame exist_ok (p : list string) fs :
  (FS.mkdir false exist_ok p fs).2 = fs \/
  (FS.mkdir false exist_ok p fs).2 = <[p := Dir]> fs.
Proof.
  unfold FS.mkdir.
  assert (forall fuel, (FS.mkdir_fuel fuel false exist_ok p fs).2 = fs \/
                       (FS.mkdir_fuel fuel false exist_ok p fs).2 = <[p := Dir]> fs) as H.
  { intros fuel. destruct fuel; simpl; unfold FS.os_mkdir;
      repeat case_match; simplify_eq/=; auto. }
  apply H.
Qed.

Lemma write_text_frame (p : list string) text fs :
  (FS.write_text p text fs).2 = fs \/
  (FS.write_text p text fs).2 = <[p := File text]> fs.
Proof. unfold FS.write_text. repeat case_match; simplify_eq/=; auto. Qed.

(** The batch that [a_get_query_data] returns. *)
Lemma a_get_query_data_returns (E : Env) (batch : Batch) (max_attempts : Z)
      (w w' : World) (result : Batch) :
  a_get_query_data E batch max_attempts w = (Return result, w') ->
  downloaded max_attempts batch result /\
  (status result = "FAILED" -> fs w' = fs w).
Proof.
  unfold a_get_query_data, conclude.
  destruct (retrying_trace E (Z.to_nat (max_attempts - 1)) 1 batch w)
    as (calls & r & -> & Hlen & _).
  set (b := set_attempt_count batch (1 + Z.of_nat (length calls) - 1)).
  assert (1 <= attempt_count b <= Z.max 1 max_attempts)%Z as Hcount by (simpl; lia).
  assert (same_unit batch b) as Hunit by by repeat split.
  destruct r as [data|e].
  - destruct (not_ok (status_code data)).
    + unfold bind, lift, ret. destruct (Str.decode (content data)); [|done].
      intros [= <- <-]. split; [|done].
      split; [done|]. split; [done|]. split; [by eexists|]. by right.
    + unfold bind, on_fs, lift, ret. simpl fs.
      destruct (FS.mkdir _ _ _ _) as [[[]|e] fs1]; [|done]. simpl.
      destruct (FS.open_w _ _) as [[[]|e] fs2]; [|done]. simpl.
      destruct (Str.decode (content data)); [|done]. simpl.
      destruct (FS.write_text _ _ _) as [[[]|e] fs3]; [|done].
      intros [= <- <-]. split; [|done].
      split; [done|]. split; [done|]. split; [by eexists|]. by left.
  - destruct e; try done. intros [= <- <-]. split; [|done].
    split; [done|]. split; [done|]. split; [by eexists|]. by right.
Qed.

(** X6.  When [pull_batches] returns, it returns one batch per planned
    batch, in the order of the plan; each is the planned batch with its
    planner fields untouched, an attempt count between 1 and
    [max(1, ceiling)], a message, and either the status COMPLETE with the
    path and name of its file or the status FAILED with no file recorded
    by the download. *)
Theorem pull_batches_returns_the_plan (E : Env) (lots done : list Batch) (w w' : World) :
  pull_batches E lots w = (Return done, w') ->
  exists max_attempts,
    default_max_attempts E = Return max_attempts /\
    Forall2 (downloaded max_attempts) lots done.
Proof.
  intros Hrun.
  apply pull_batches_returns in Hrun as (max_attempts & made & Hdef & _ & _ & Hall).
  exists max_attempts. split; [done|].
  eapply Forall2_impl; [exact Hall|]. by intros planned result [H _].
Qed.

(** X7.  Whatever the transport does, the download of a batch changes the
    file system at two paths at most, the output directory and the file of
    the batch; and a batch returned FAILED has changed nothing. *)
Theorem download_touches_its_own_file (E : Env) (batch : Batch) (max_attempts : Z)
        (w : World) :
  let run := a_get_query_data E batch max_attempts w in
  (forall q, q <> Pathlib.Path [download_path batch] -> q <> csv_path batch ->
             fs run.2 !! q = fs w !! q) /\
  (forall failed, run.1 = Return failed -> status failed = "FAILED" -> fs run.2 = fs w).
Proof.
  cbv zeta. split.
  - intros q Hdir Hfile. unfold a_get_query_data, conclude.
    destruct (retrying_trace E (Z.to_nat (max_attempts - 1)) 1 batch w)
      as (calls & r & -> & _).
    destruct r as [data|e]; [|by destruct e].
    destruct (not_ok (status_code data)).
    { unfold bind, lift, ret. by destruct (Str.decode (content data)). }
    rewrite !csv_name_set_attempt_count, !download_path_set_attempt_count.
    fold (csv_path batch).
    unfold bind, on_fs, lift, ret, FS.open_w. simpl fs.
    pose proof (mkdir_no_parents_frame true (Pathlib.Path [download_path batch]) (fs w))
      as Hmk.
    destruct (FS.mkdir _ _ _ _) as [[[]|e] fs1]; simpl in *;
      (assert (fs1 !! q = fs w !! q) as H1
          by (destruct Hmk as [-> | ->]; [done|by rewrite lookup_insert_ne]));
      [|done].
    pose proof (write_text_frame (csv_path batch) "" fs1) as Hopen.
    destruct (FS.write_text (csv_path batch) "" fs1) as [[[]|e] fs2]; simpl in *;
      (assert (fs2 !! q = fs w !! q) as H2
          by (destruct Hopen as [-> | ->]; [done|by rewrite lookup_insert_ne]));
      [|done].
    destruct (Str.decode (content data)) as [text|e]; simpl; [|done].
    pose proof (write_text_frame (csv_path batch) text fs2) as Hwrite.
    destruct (FS.write_text (csv_path batch) text fs2) as [[[]|e] fs3]; simpl in *;
      destruct Hwrite as [-> | ->]; by rewrite ?lookup_insert_ne.
  - intros failed Hrun Hstatus.
    destruct (a_get_query_data E batch max_attempts w) as [r w'] eqn:Heq.
    simpl in *. subst r. by apply a_get_query_data_returns in Heq as [_ ->].
Qed.

(** ** The further properties on examples *)

Lemma scripted_outcome (n : nat) o rest chunks req :
  net (Sample.env (replicate n (Failed ReadTimeout) ++ o :: rest) chunks)
      ([] ++ replicate n (req, Failed ReadTimeout)) req
  = o.
Proof.
  simpl. unfold Sample.scripted.
  rewrite length_replicate, lookup_app_r by (rewrite length_replicate; lia).
  by rewrite length_replicate, Nat.sub_diag.
Qed.

(** X1 on a batch answered 404 at its second attempt. *)
Lemma refused_batch_is_failed_witness :
  let data := Sample.response 404 None "NOT_FOUND" None in
  let E := Sample.env (replicate 1 (Failed ReadTimeout) ++ [Responded data]) [] in
  let batch := Sample.batch 2 (Some "cursor-1") in
  let w := Sample.world ∅ in
  exists failed w',
    a_get_query_data E batch 20 w = (Return failed, w') /\
    status failed = "FAILED" /\
    message failed = Some "Error occurred while downloading job data: NOT_FOUND" /\
    attempt_count failed = 2%Z /\
    downloaded_file_path failed = None /\
    file_name failed = None /\
    history w' = [(fetch_request batch, Failed ReadTimeout);
                  (fetch_request batch, Responded data)] /\
    fs w' = ∅.
Proof.
  intros data E batch w.
  apply (refused_batch_is_failed E batch 20 w 2 data);
    [lia | | | reflexivity | reflexivity].
  - intros j Hj. apply (scripted_timeouts 1 j). simpl in Hj. lia.
  - apply (scripted_outcome 1).
Defined.

(** X2 on a connection that is refused at the second attempt. *)
Lemma other_transport_failure_is_raised_witness :
  let failure := Failed (OtherTransportError "ConnectError") in
  let E := Sample.env [Failed ReadTimeout; failure] [] in
  let batch := Sample.batch 2 (Some "cursor-1") in
  let w := Sample.world ∅ in
  let w' := {| history := [(fetch_request batch, Failed ReadTimeout);
                           (fetch_request batch, failure)];
               fs := ∅; stderr := []; stdout := []; sleeps := [4%Z] |} in
  a_get_query_data E batch 20 w
  = (Raise (TransportError (OtherTransportError "ConnectError")), w') /\
  fs w' = fs w /\
  (default_max_attempts E = Return 20%Z ->
   pull_batches E [batch] w
   = (Raise (ProxyException (TransportError (OtherTransportError "ConnectError"))), w')).
Proof.
  intros failure E batch w w'.
  apply (other_transport_failure_is_raised E batch 20 w 2 "ConnectError");
    [lia | | reflexivity].
  intros j Hj. assert (j = 0%nat) as -> by (simpl in Hj; lia). reflexivity.
Defined.

(** X3 on a ceiling of 0. *)
Lemma ceiling_below_two_is_one_attempt_witness :
  let E := Sample.env [Failed ReadTimeout] [] in
  let batch := Sample.batch 1 None in
  let w := Sample.world ∅ in
  let failed := exhausted "0x7f6d2c1b3a90" batch 1 in
  a_get_query_data E batch 0 w
  = (Return failed, advance_world w [(fetch_request batch, Failed ReadTimeout)] []) /\
  attempt_count failed = 1%Z /\
  status failed = "FAILED".
Proof.
  intros E batch w.
  apply (ceiling_below_two_is_one_attempt E batch 0 w); [lia | reflexivity].
Defined.

(** X4 on a page that holds the byte 255. *)
Lemma undecodable_payload_leaves_an_empty_file_witness :
  let data := Sample.response 200 None (String (Ascii.ascii_of_N 255) EmptyString) None in
  let E := Sample.env [Responded data] [] in
  let batch := Sample.batch 7 (Some "cursor-6") in
  exists w',
    a_get_query_data E batch 20 (Sample.world ∅) = (Raise UnicodeDecodeError, w') /\
    FS.node (fs w') (Pathlib.Path ["./data"] ++ ["750xx_7.csv"]) = Some (File "").
Proof.
  intros data E batch.
  apply (undecodable_payload_leaves_an_empty_file E batch 20 (Sample.world ∅) 1 data);
    [lia | | | by left | reflexivity | reflexivity | reflexivity | by left | discriminate].
  - intros j Hj. simpl in Hj. lia.
  - reflexivity.
Defined.

(** X6 on two batches, the second of which is refused. *)
Lemma pull_batches_returns_the_plan_witness :
  let page := Responded (Sample.response 200 None "Id,Name" None) in
  let gone := Responded (Sample.response 404 None "NOT_FOUND" None) in
  let E := Sample.env [page; gone] [] in
  let lots := [Sample.batch 1 None; Sample.batch 2 (Some "cursor-1")] in
  let run := pull_batches E lots (Sample.world ∅) in
  exists max_attempts,
    default_max_attempts E = Return max_attempts /\
    Forall2 (downloaded max_attempts) lots
            (match run.1 with Return done => done | Raise _ => [] end).
Proof.
  intros page gone E lots run.
  apply (pull_batches_returns_the_plan E lots _ (Sample.world ∅) run.2).
  vm_compute. reflexivity.
Defined.

(** ** What planning returns *)

Section PlanReturns.

Context (E : Env) (job version path : string).

Lemma get_query_job_returns w doc w1 :
  get_query_job E job version w = (Return doc, w1) ->
  exists jd,
    net E (history w) (job_request job version) = Responded jd /\
    json jd = Some doc /\
    history w1 = history w ++ [(job_request job version, Responded jd)] /\
    fs w1 = fs w /\ sleeps w1 = sleeps w /\ stdout w1 = stdout w.
Proof.
  unfold get_query_job, bind. fold (job_request job version). rewrite send_eq.
  destruct (net E (history w) (job_request job version)) as [jd|e] eqn:Hnet; [|done].
  intros Hrun. exists jd. split; [done|].
  destruct (negb (status_code jd =? 200)%Z).
  - unfold print_body, bind, lift in Hrun.
    destruct (Str.decode (content jd)); [|done]. simpl in Hrun.
    unfold json_of in Hrun. destruct (json jd); [|done].
    injection Hrun as <- <-. simpl. by rewrite app_nil_r.
  - simpl in Hrun. unfold json_of in Hrun. destruct (json jd); [|done].
    injection Hrun as <- <-. simpl. by rewrite app_nil_r.
Qed.

Lemma validate_str_returns field v w s w' :
  validate_str field v w = (Return s, w') -> validate_str field v = ret s.
Proof.
  destruct v; simpl; try destruct (Str.decode _); unfold ret, raise;
    intros [=]; by subst.
Qed.

Lemma as_int_returns v w n w' :
  as_int v w = (Return n, w') -> as_int v = ret n /\ w' = w.
Proof. destruct v; simpl; unfold ret, raise; intros [=]; by subst. Qed.

Lemma plan_loop_returns (o : string) (obj : Value) (size : Z) (indices : list Z) :
  validate_str "object" obj = ret o ->
  forall number lots locator w lots' w',
    plan_loop E indices job version path (instance_url E) obj size number lots locator w
    = (Return lots', w') ->
    exists cursors datas,
      length cursors = length indices /\
      Forall2 accepted datas cursors /\
      lots' = lots ++ planned_from E job version path o size (number + 1)
                                   (Some <$> removelast (locator :: cursors)) /\
      w' = advance_world w (advance_calls job version size
                              (Some <$> removelast (locator :: cursors)) datas) [].
Proof.
  intros Hobj. induction indices as [|i rest IH]; intros number lots locator w lots' w'.
  - intros [= <- <-]. exists [], []. split; [done|]. split; [constructor|].
    simpl. by rewrite app_nil_r, advance_world_nil.
  - cbn [plan_loop]. unfold bind at 1, new_Batch at 1. rewrite Hobj.
    unfold bind at 1, ret at 1. unfold ret at 1.
    unfold bind at 1. rewrite create_batch_locators_eq. cbv zeta.
    destruct (net E (history w) (locator_request job size (Some locator) version))
      as [data|e]; [|done].
    destruct (not_ok (status_code data)) eqn:Hok; [done|].
    destruct (headers data !! "sforce-locator") as [c|] eqn:Hc; [|done].
    intros Hrun. apply IH in Hrun as (cursors & datas & Hlen & Hall & -> & ->).
    exists (c :: cursors), (data :: datas).
    split; [simpl; lia|]. split; [by constructor|].
    rewrite advance_world_app, <- app_assoc. simpl. done.
Qed.

(** What [plan_batches] has done when it returns. *)
Lemma plan_batches_returns size w lots w' :
  plan_batches E job version path size w = (Return lots, w') ->
  exists jd d records o size' returned datas,
    net E (history w) (job_request job version) = Responded jd /\
    json jd = Some (JDict d) /\
    as_int (default VNone (d !! "numberRecordsProcessed")) = ret records /\
    records <> 0%Z /\
    validate_str "object" (default VNone (d !! "object")) = ret o /\
    size_used E size records = Return size' /\
    size' <> 0%Z /\
    length returned = S (Z.to_nat (range_len size' records size')) /\
    Forall2 accepted datas returned /\
    let starts := removelast (None :: (Some <$> returned)) in
    lots = planned_from E job version path o size' 1 starts /\
    history w' = history w ++ (job_request job version, Responded jd)
                           :: advance_calls job version size' starts datas /\
    fs w' = fs w /\ sleeps w' = sleeps w /\ stdout w' = stdout w.
Proof.
  unfold plan_batches. unfold bind at 1.
  destruct (get_query_job E job version w) as [[doc|e] w1] eqn:Hjob; [|done].
  apply get_query_job_returns in Hjob as (jd & Hnet & Hjson & Hh & Hfs & Hsl & Hout).
  destruct doc as [d|v]; [|done].
  unfold bind at 1, dict_get at 1, ret at 1.
  set (rc := default VNone (d !! "numberRecordsProcessed")).
  destruct (eq_zero rc) eqn:Hzero; [done|].
  unfold bind at 1.
  match goal with
  | |- context [match ?c w1 with _ => _ end] =>
      destruct (c w1) as [[size0|e] w2] eqn:Hsz; [|done]
  end.
  unfold bind at 1, dict_get at 1, ret at 1.
  set (obj := default VNone (d !! "object")).
  unfold bind at 1, new_Batch at 1, bind at 1.
  destruct (validate_str "object" obj w2) as [[o|e] w3] eqn:Hobj; [|done].
  pose proof (validate_str_returns _ _ _ _ _ Hobj) as Hobj'.
  rewrite Hobj' in Hobj. injection Hobj as <-. unfold ret at 1.
  unfold bind at 1. rewrite create_batch_locators_eq. cbv zeta.
  destruct (net E (history w2) (locator_request job size0 None version))
    as [data|e]; [|done].
  destruct (not_ok (status_code data)) eqn:Hok; [done|].
  destruct (headers data !! "sforce-locator") as [c|] eqn:Hc; [|done].
  unfold bind at 1.
  destruct (as_int rc _) as [[records|e] w5] eqn:Hrec; [|done].
  apply as_int_returns in Hrec as [Hrec ->].
  unfold bind at 1, range. destruct (size0 =? 0)%Z eqn:Hs0; [done|]. unfold ret at 1.
  intros Hrun.
  apply (plan_loop_returns o) in Hrun as (cursors & datas & Hlen & Hall & -> & ->);
    [|done].
  assert (size_used E size records = Return size0 /\ w2 = w1) as [Hsize ->].
  { revert Hsz. unfold size_used, automatic_size.
    assert ((let! n := dict_get (JDict d) "numberRecordsProcessed" in
             let! n0 := as_int n in
             let! quotient := lift (Float.true_div n0 (cpu_count E)) in
             ret (Float.ceil quotient)) w1
            = (match Float.true_div records (cpu_count E) with
               | Return quotient => Return (Float.ceil quotient)
               | Raise e => Raise e
               end, w1)) as Hauto.
    { unfold bind, dict_get, ret at 1. fold rc. rewrite Hrec. unfold ret at 1, lift.
      by destruct (Float.true_div records (cpu_count E)). }
    destruct size as [s|]; [destruct (s =? 0)%Z|]; rewrite ?Hauto;
      intros [= H <-]; split; try done; by rewrite H. }
  exists jd, d, records, o, size0, (c :: cursors), (data :: datas).
  split; [done|]. split; [done|]. split; [done|].
  split.
  { intros ->. apply (f_equal (fun f => f w)) in Hrec.
    destruct rc as [|[]|z| | |]; simpl in *; try done.
    unfold ret in Hrec. injection Hrec as ->. done. }
  split; [done|]. split; [done|]. split; [lia|].
  split; [simpl; by rewrite Hlen, length_map, length_seq|].
  split; [by constructor|]. cbv zeta.
  change (Some <$> c :: cursors) with (Some c :: (Some <$> cursors)).
  change (removelast (None :: Some c :: (Some <$> cursors)))
    with (None :: removelast (Some <$> c :: cursors)).
  rewrite removelast_fmap. split; [done|]. simpl. rewrite Hh, <- !app_assoc.
  by rewrite !app_nil_r.
Qed.

End PlanReturns.

(** ** Transport failures *)

Create HintDb fail_fast.

Section FailFast.

Context (fatal : Request -> HttpError -> Prop).

Lemma fail_fast_silent {A} (c : M A) :
  (forall w, history (c w).2 = history w) -> fail_fast fatal c.
Proof. intros H w. exists []. rewrite H, app_nil_r. split; [done|]. by intros []. Qed.

Lemma fail_fast_ret {A} (a : A) : fail_fast fatal (ret a).
Proof. by apply fail_fast_silent. Qed.

Lemma fail_fast_raise {A} (e : Exn) : fail_fast fatal (raise (A := A) e).
Proof. by apply fail_fast_silent. Qed.

Lemma fail_fast_lift {A} (r : Result A) : fail_fast fatal (lift r).
Proof. by apply fail_fast_silent. Qed.

Lemma fail_fast_print_stderr items : fail_fast fatal (print_stderr items).
Proof. by apply fail_fast_silent. Qed.

Lemma fail_fast_print_stdout items : fail_fast fatal (print_stdout items).
Proof. by apply fail_fast_silent. Qed.

Lemma fail_fast_on_fs {A} op : fail_fast fatal (on_fs (A := A) op).
Proof.
  apply fail_fast_silent. intros w. unfold on_fs. by destruct (op (fs w)).
Qed.

Lemma fail_fast_bind {A B} (c : M A) (k : A -> M B) :
  fail_fast fatal c -> (forall a, fail_fast fatal (k a)) -> fail_fast fatal (bind c k).
Proof.
  intros Hc Hk w. destruct (Hc w) as (calls1 & Hh1 & Hr1). unfold bind.
  destruct (c w) as [[a|e] w1] eqn:Hcw; simpl in *.
  2: { exists calls1. split; [done|]. intros i req e' Hi Hfatal.
       destruct (Hr1 i req e' Hi Hfatal) as [Hlast Hraise].
       split; [done|]. by simplify_eq. }
  destruct (Hk a w1) as (calls2 & Hh2 & Hr2).
  exists (calls1 ++ calls2). rewrite Hh2, Hh1, app_assoc. split; [done|].
  intros i req e [Hi|[Hlen Hi]]%lookup_app_Some Hfatal.
  - by destruct (Hr1 i req e Hi Hfatal).
  - destruct (Hr2 _ req e Hi Hfatal) as [Hlast ->].
    rewrite length_app. split; [lia|done].
Qed.

Lemma fail_fast_send E (r : Request) : fail_fast fatal (send E r).
Proof.
  intros w. rewrite send_eq. eexists. split; [reflexivity|].
  intros [|i] req e Hi _; [|done]. simpl in *. injection Hi as <- ->. done.
Qed.

Lemma fail_fast_for_each {A B} (f : A -> M B) (l : list A) :
  (forall a, fail_fast fatal (f a)) -> fail_fast fatal (for_each f l).
Proof.
  intros Hf. induction l as [|a l IH]; cbn [for_each]; [apply fail_fast_ret|].
  apply fail_fast_bind; [done|intros b].
  apply fail_fast_bind; [done|intros bs]. apply fail_fast_ret.
Qed.

End FailFast.

#[export] Hint Resolve fail_fast_ret fail_fast_raise fail_fast_lift
  fail_fast_print_stderr fail_fast_print_stdout fail_fast_on_fs fail_fast_send
  : fail_fast.

Ltac fail_fast_step :=
  match goal with
  | |- fail_fast _ (bind _ _) => apply fail_fast_bind; [|intros ?]
  | |- fail_fast _ (if ?b then _ else _) => destruct b
  | |- fail_fast _ (match ?x with _ => _ end) => destruct x
  | |- fail_fast _ _ => solve [auto with fail_fast]
  end.

Section FailFastCalls.

Context (E : Env) (fatal : Request -> HttpError -> Prop).

Lemma fail_fast_print_body data : fail_fast fatal (print_body data).
Proof. unfold print_body. repeat fail_fast_step. Qed.

Lemma fail_fast_json_of data : fail_fast fatal (json_of data).
Proof. unfold json_of. repeat fail_fast_step. Qed.

Lemma fail_fast_dict_get j key : fail_fast fatal (dict_get j key).
Proof. unfold dict_get. repeat fail_fast_step. Qed.

Lemma fail_fast_as_int v : fail_fast fatal (as_int v).
Proof. unfold as_int. repeat fail_fast_step. Qed.

Lemma fail_fast_new_Batch number start size job version base obj path :
  fail_fast fatal (new_Batch number start size job version base obj path).
Proof. unfold new_Batch, validate_str. repeat fail_fast_step. Qed.

Lemma fail_fast_range start stop step : fail_fast fatal (range start stop step).
Proof. unfold range. repeat fail_fast_step. Qed.

Hint Resolve fail_fast_print_body fail_fast_json_of fail_fast_dict_get
  fail_fast_as_int fail_fast_new_Batch fail_fast_range : fail_fast.

Lemma fail_fast_get_query_job job version :
  fail_fast fatal (get_query_job E job version).
Proof. unfold get_query_job. repeat fail_fast_step. Qed.

Lemma fail_fast_create_batch_locators job size locator version :
  fail_fast fatal (create_batch_locators E job size locator version).
Proof. unfold create_batch_locators. repeat fail_fast_step. Qed.

Hint Resolve fail_fast_get_query_job fail_fast_create_batch_locators : fail_fast.

Lemma fail_fast_plan_loop indices job version path base obj size :
  forall number lots locator,
    fail_fast fatal
      (plan_loop E indices job version path base obj size number lots locator).
Proof.
  induction indices as [|i rest IH]; intros number lots locator; cbn [plan_loop];
    repeat fail_fast_step.
Qed.

Hint Resolve fail_fast_plan_loop : fail_fast.

Lemma fail_fast_plan_batches job version path size :
  fail_fast fatal (plan_batches E job version path size).
Proof. unfold plan_batches. repeat fail_fast_step. Qed.

Lemma fail_fast_create_ingest_job object_name operation external_id_field_name version :
  fail_fast fatal
    (create_ingest_job E object_name operation external_id_field_name version).
Proof. unfold create_ingest_job. repeat fail_fast_step. Qed.

Lemma fail_fast_load_ingest_job_data job file_path version :
  fail_fast fatal (load_ingest_job_data E job file_path version).
Proof.
  unfold load_ingest_job_data.
  apply fail_fast_bind; [by apply fail_fast_silent|intros text].
  repeat fail_fast_step.
Qed.

Lemma fail_fast_ingest_job_data_batches object_name operation path_or_file pattern
      batch_size version external_id_field_name working_directory :
  fail_fast fatal
    (ingest_job_data_batches E object_name operation path_or_file pattern batch_size
       version external_id_field_name working_directory).
Proof.
  pose proof fail_fast_create_ingest_job. pose proof fail_fast_load_ingest_job_data.
  unfold ingest_job_data_batches.
  destruct (match working_directory with Some d => d | None => _ end);
    [apply fail_fast_raise|].
  apply fail_fast_bind.
  { apply fail_fast_silent. intros w. destruct (_ && _); [|done].
    unfold on_fs. by simpl. }
  intros _. repeat fail_fast_step.
  apply fail_fast_for_each. intros file_path. repeat fail_fast_step.
Qed.

End FailFastCalls.

(** X11.  In the planning of [download_query_data] every transport failure
    ends the run, a read timeout as much as any other: the failed
    request, the job lookup or a cursor advance, is the last request of
    the planning and its exception leaves [plan_batches] and
    [download_query_data] alike, so that no batch list is returned and no
    download is started. *)
Theorem transport_failure_ends_the_planning (E : Env) (job version path : string)
        (size : option Z) (w : World) :
  let plan := plan_batches E job version path size w in
  exists calls,
    history plan.2 = history w ++ calls /\
    forall (i : nat) req e,
      calls !! i = Some (req, Failed e) ->
      length calls = S i /\
      plan.1 = Raise (TransportError e) /\
      forall dry_run,
        download_query_data E job version path size dry_run w
        = (Raise (TransportError e), plan.2).
Proof.
  cbv zeta.
  destruct (fail_fast_plan_batches E (fun _ _ => True) job version path size w)
    as (calls & Hh & Hcalls).
  exists calls. split; [done|]. intros i req e Hi.
  destruct (Hcalls i req e Hi I) as [Hlen Hraise]. split; [done|]. split; [done|].
  intros dry_run. unfold download_query_data, bind.
  destruct (plan_batches E job version path size w) as [r w']. simpl in Hraise.
  by subst r.
Qed.

(** X12.  In [ingest_job_data_batches] every transport failure ends the
    run, whichever request it hits: the failed request (create, upload or
    finalize) is the last request of the run and its exception leaves the
    call, so the chunks after it are not sent and no result list is
    returned. *)
Theorem transport_failure_ends_the_ingest (E : Env)
        (object_name operation path_or_file pattern : string) (batch_size : Z)
        (version : string) (external_id_field_name : option string)
        (working_directory : option Directory) (w : World) :
  let run := ingest_job_data_batches E object_name operation path_or_file pattern
               batch_size version external_id_field_name working_directory w in
  exists calls,
    history run.2 = history w ++ calls /\
    forall (i : nat) req e,
      calls !! i = Some (req, Failed e) ->
      length calls = S i /\ run.1 = Raise (TransportError e).
Proof.
  cbv zeta.
  destruct (fail_fast_ingest_job_data_batches E (fun _ _ => True) object_name operation
              path_or_file pattern batch_size version external_id_field_name
              working_directory w) as (calls & Hh & Hcalls).
  exists calls. split; [done|]. intros i req e Hi. by apply (Hcalls i req e).
Qed.

(** ** The plan, whatever the transport does *)

(** X8.  Whenever planning returns, the list is not empty; the batch at
    position [i] is numbered [i + 1], is in its initial state (status NEW,
    no attempt, no message, no file) and carries the job, the version, the
    download path and the instance URL of the call; all batches have the
    same size and the same object; the first one has no cursor and every
    other one has one. *)
Theorem planned_batches_are_fresh (E : Env) (job version path : string)
        (size : option Z) (w w' : World) (lots : list Batch) :
  plan_batches E job version path size w = (Return lots, w') ->
  lots <> [] /\
  (forall (i : nat) b, lots !! i = Some b ->
     batch_number b = (Z.of_nat i + 1)%Z /\ fresh b /\
     job_id b = job /\ api_version b = version /\ download_path b = path /\
     base_path b = instance_url E /\
     (batch_start b = None <-> i = 0%nat)) /\
  (exists size' obj, size' <> 0%Z /\
     Forall (fun b => batch_size b = size' /\ object b = obj) lots).
Proof.
  intros Hrun.
  apply plan_batches_returns in Hrun
    as (jd & d & records & o & size' & returned & datas & _ & _ & _ & _ & _ & _ & Hsize
        & Hlen & _ & -> & _).
  split; [|split].
  - intros Hnil. apply (f_equal length) in Hnil.
    rewrite planned_from_length, starts_length, Hlen in Hnil. done.
  - intros i b. rewrite planned_from_lookup. intros Hb.
    apply fmap_Some in Hb as (s & Hs & ->). simpl.
    split; [lia|]. split; [done|]. repeat (split; [done|]).
    apply starts_lookup in Hs as [_ Hs]. destruct i as [|j]; [by subst|].
    destruct Hs as [-> Hsome]. split; [|done]. intros Hnone.
    rewrite Hnone in Hsome. by destruct Hsome.
  - exists size', o. split; [done|].
    apply Forall_forall. intros b [i Hb]%list_elem_of_lookup.
    rewrite planned_from_lookup in Hb. by apply fmap_Some in Hb as (s & _ & ->).
Qed.

(** X9.  A dry run that returns has sent the job lookup and then exactly
    one cursor advance per batch, and nothing else: no page is fetched, no
    file is written, nothing is waited for; every advance was answered
    with a status 200 or 201 and a cursor; the result carries the job id
    and the plan. *)
Theorem dry_run_only_plans (E : Env) (job version path : string) (size : option Z)
        (w w' : World) (result : CompletedJob) :
  download_query_data E job version path size true w = (Return result, w') ->
  completed_id result = job /\
  plan_batches E job version path size w = (Return (batches result), w') /\
  (exists jd advances,
      history w' = history w ++ (job_request job version, Responded jd) :: advances /\
      length advances = length (batches result) /\
      Forall (fun call => method call.1 = HEAD /\
                          exists data cursor, call.2 = Responded data /\
                                              accepted data cursor)
             advances) /\
  fs w' = fs w /\ sleeps w' = sleeps w.
Proof.
  unfold download_query_data, bind.
  destruct (plan_batches E job version path size w) as [[lots|e] w1] eqn:Hplan; [|done].
  intros [= <- <-]. split; [done|]. split; [done|]. simpl.
  apply plan_batches_returns in Hplan
    as (jd & d & records & o & size' & returned & datas & _ & _ & _ & _ & _ & _ & _
        & Hlen & Hall & -> & Hh & Hfs & Hsl & _).
  split; [|done]. exists jd. eexists. split; [exact Hh|].
  pose proof (Forall2_length _ _ _ Hall) as Hdatas.
  unfold advance_calls. split.
  - rewrite length_zip_with, planned_from_length, starts_length. lia.
  - apply Forall_forall. intros call [i Hi]%list_elem_of_lookup.
    rewrite lookup_zip_with in Hi.
    destruct (removelast _ !! i) as [start|]; [|done]. simpl in Hi.
    destruct (datas !! i) as [data|] eqn:Hdata; [|done]. simpl in Hi.
    injection Hi as <-. split; [done|].
    destruct (Forall2_lookup_l _ _ _ _ _ Hall Hdata) as (cursor & _ & Hacc).
    by exists data, cursor.
Qed.

(** ** The automatic batch size *)

Section FloatQuotient.

Local Open Scope Z_scope.

Lemma nearest_bounds a b :
  0 <= a -> 0 < b ->
  - b <= 2 * (Float.nearest a b * b - a) <= b.
Proof.
  intros Ha Hb. unfold Float.nearest.
  pose proof (Z.div_mod a b ltac:(lia)) as Hdm.
  pose proof (Z.mod_pos_bound a b ltac:(lia)) as Hr.
  destruct (Z.ltb_spec (2 * (a mod b)) b); [nia|].
  destruct (Z.ltb_spec b (2 * (a mod b))); [nia|].
  destruct (Z.even (a / b)); nia.
Qed.

Lemma log2_quotient_le a b :
  0 < a -> 0 < b ->
  let l := Float.log2_quotient a b in
  (0 <= l -> b * 2 ^ l <= a) /\ (l < 0 -> b <= a * 2 ^ (- l)) /\
  Z.log2 a - Z.log2 b - 1 <= l <= Z.log2 a - Z.log2 b.
Proof.
  intros Ha Hb. cbv zeta. unfold Float.log2_quotient, Float.scaled_le.
  pose proof (Z.log2_spec a Ha) as [Hla Hua].
  pose proof (Z.log2_spec b Hb) as [Hlb Hub].
  pose proof (Z.log2_nonneg a) as Hna. pose proof (Z.log2_nonneg b) as Hnb.
  set (la := Z.log2 a) in *. set (lb := Z.log2 b) in *.
  destruct (Z.leb_spec 0 (la - lb)) as [Hl|Hl].
  - destruct (Z.leb_spec (b * 2 ^ (la - lb)) a) as [Hle|Hgt].
    + split; [done|]. split; [lia|lia].
    + split; [|split; [|lia]].
      * intros H0. assert (2 ^ la = 2 ^ (la - lb - 1) * 2 ^ (lb + 1)) as Hpow.
        { rewrite <- Z.pow_add_r by lia. f_equal. lia. }
        pose proof (Z.pow_pos_nonneg 2 (la - lb - 1) ltac:(lia) ltac:(lia)). nia.
      * intros Hneg. assert (la = lb) as Heq by lia. rewrite Heq in *.
        replace (- (lb - lb - 1)) with 1 by lia.
        replace (Z.succ lb) with (lb + 1) in * by lia.
        rewrite Z.pow_add_r in Hub by lia. change (2 ^ 1) with 2 in *. lia.
  - destruct (Z.leb_spec b (a * 2 ^ (- (la - lb)))) as [Hle|Hgt].
    + split; [lia|]. split; [done|lia].
    + split; [lia|]. split; [|lia]. intros _.
      replace (- (la - lb - 1)) with ((lb - la) + 1) by lia.
      assert (2 ^ (lb + 1) = 2 ^ la * 2 ^ (lb - la + 1)) as Hpow.
      { rewrite <- Z.pow_add_r by lia. f_equal. lia. }
      replace (Z.succ lb) with (lb + 1) in * by lia.
      pose proof (Z.pow_pos_nonneg 2 (lb - la + 1) ltac:(lia) ltac:(lia)). nia.
Qed.

(** On integers below [2 ^ 53] the quotient of floats has the ceiling of
    the exact quotient. *)
Lemma ceil_true_div_small a b :
  0 < a < 2 ^ 53 -> 0 < b < 2 ^ 53 ->
  match Float.true_div a b with
  | Return quotient => Return (Float.ceil quotient)
  | Raise e => Raise e
  end = Return (ceil_div a b).
Proof.
  intros Ha Hb. unfold Float.true_div.
  destruct (Z.eqb_spec b 0); [lia|]. destruct (Z.eqb_spec a 0); [lia|].
  rewrite !Z.abs_eq by lia.
  rewrite (Z.sgn_pos a), (Z.sgn_pos b) by lia.
  destruct (log2_quotient_le a b ltac:(lia) ltac:(lia)) as (Hpos & Hneg & Hl).
  set (l := Float.log2_quotient a b) in *.
  pose proof (Z.log2_nonneg a) as Hna. pose proof (Z.log2_nonneg b) as Hnb.
  assert (Z.log2 a < 53) as Hla by (apply Z.log2_lt_pow2; lia).
  assert (Z.log2 b < 53) as Hlb by (apply Z.log2_lt_pow2; lia).
  assert (l <= 52) as Hl52 by lia.
  rewrite Z.max_l by lia.
  set (t := 52 - l). assert (0 <= t <= 106) as Ht by (unfold t; lia).
  set (s := 2 ^ t). assert (0 < s) as Hs by (apply Z.pow_pos_nonneg; lia).
  assert (b < 2 * s) as Hbs.
  { unfold s, t. destruct (Z.le_gt_cases 0 l) as [H0|H0].
    - specialize (Hpos H0).
      assert (2 ^ 53 = 2 ^ l * (2 * 2 ^ (52 - l))) as Hpow.
      { replace 53 with (l + (1 + (52 - l))) at 1 by lia.
        by rewrite !Z.pow_add_r by lia. }
      pose proof (Z.pow_pos_nonneg 2 l ltac:(lia) ltac:(lia)).
      pose proof (Z.pow_pos_nonneg 2 (52 - l) ltac:(lia) ltac:(lia)). nia.
    - specialize (Hneg H0).
      assert (2 * 2 ^ (52 - l) = 2 ^ 53 * 2 ^ (- l)) as Hpow.
      { replace (52 - l) with (52 + - l) by lia.
        rewrite Z.pow_add_r by lia. change (2 ^ 53) with (2 * 2 ^ 52). lia. }
      pose proof (Z.pow_pos_nonneg 2 (- l) ltac:(lia) ltac:(lia)). nia. }
  pose proof (ceil_div_bounds a b ltac:(lia) ltac:(lia)) as HK.
  set (K := ceil_div a b) in *.
  assert (forall m, - b <= 2 * (m * b - a * s) <= b -> s * (K - 1) < m <= s * K) as Hm.
  { intros m Hm. nia. }
  destruct (Z.leb_spec 0 (l - 52)) as [He|He].
  - assert (l = 52) as Hl' by lia. rewrite Hl'. change (52 - 52) with 0.
    change (2 ^ 0) with 1. rewrite Z.mul_1_r.
    assert (s = 1) as Hs1 by (unfold s, t; rewrite Hl'; reflexivity).
    pose proof (nearest_bounds a b ltac:(lia) ltac:(lia)) as Hn.
    specialize (Hm (Float.nearest a b)). rewrite Hs1 in Hm.
    set (m := Float.nearest a b) in *.
    assert (m = K) as -> by lia.
    destruct (Z.leb_spec (2 ^ 2098) (K * 2 ^ (0 + 1074))) as [Hov|Hov].
    { exfalso. assert (K <= a) by nia.
      assert (2 ^ 53 * 2 ^ 1074 < 2 ^ 2098) by (vm_compute; reflexivity).
      change (0 + 1074) with 1074 in Hov.
      pose proof (Z.pow_pos_nonneg 2 1074 ltac:(lia) ltac:(lia)). nia. }
    unfold Float.ceil. simpl. f_equal. lia.
  - replace (- (l - 52)) with t by (unfold t; lia). fold s.
    pose proof (nearest_bounds (a * s) b ltac:(nia) ltac:(lia)) as Hn.
    specialize (Hm (Float.nearest (a * s) b) Hn).
    set (m := Float.nearest (a * s) b) in *.
    destruct (Z.leb_spec (2 ^ 2098) (m * 2 ^ (l - 52 + 1074))) as [Hov|Hov].
    { exfalso.
      assert (m <= s * a) by nia.
      assert (s * 2 ^ (l - 52 + 1074) = 2 ^ 1074) as Hpow.
      { unfold s, t. rewrite <- Z.pow_add_r by lia. f_equal. lia. }
      assert (2 ^ 53 * 2 ^ 1074 < 2 ^ 2098) by (vm_compute; reflexivity).
      pose proof (Z.pow_pos_nonneg 2 (l - 52 + 1074) ltac:(lia) ltac:(lia)).
      pose proof (Z.pow_pos_nonneg 2 1074 ltac:(lia) ltac:(lia)). nia. }
    unfold Float.ceil. simpl.
    destruct (Z.leb_spec 0 (l - 52)); [lia|].
    replace (- (l - 52)) with t by (unfold t; lia). fold s.
    rewrite Z.mul_1_l. f_equal. fold (ceil_div m s).
    rewrite (ceil_div_spec m s (K - 1) (m - s * (K - 1))); lia.
Qed.
End FloatQuotient.

(** X10.  With no batch size, or the batch size 0, planning takes
    [ceil(records / cpu_count())] for every batch, the quotient being that
    of floats; for a record count and a number of CPUs that are positive
    and below [2 ^ 53], that size is the ceiling of the exact quotient,
    and planning makes at most [cpu_count()] batches, which together hold
    at least [records] records. *)
Theorem automatic_batch_size (E : Env) (job version path : string) (size : option Z)
        (w w' : World) (lots : list Batch) :
  size = None \/ size = Some 0%Z ->
  plan_batches E job version path size w = (Return lots, w') ->
  exists jd d records size',
    net E (history w) (job_request job version) = Responded jd /\
    json jd = Some (JDict d) /\
    as_int (default VNone (d !! "numberRecordsProcessed")) = ret records /\
    automatic_size E records = Return size' /\
    Forall (fun b => batch_size b = size') lots /\
    ((0 < records < 2 ^ 53)%Z -> (0 < cpu_count E < 2 ^ 53)%Z ->
     size' = ceil_div records (cpu_count E) /\
     (Z.of_nat (length lots) <= cpu_count E)%Z /\
     (records <= size' * Z.of_nat (length lots))%Z).
Proof.
  intros Hsize Hrun.
  apply plan_batches_returns in Hrun
    as (jd & d & records & o & size' & returned & datas & Hnet & Hjson & Hrec & _ & _
        & Hused & Hnz & Hlen & _ & -> & _).
  assert (automatic_size E records = Return size') as Hauto
      by by destruct Hsize as [-> | ->].
  exists jd, d, records, size'. repeat (split; [done|]). split.
  - apply Forall_forall. intros b [i Hb]%list_elem_of_lookup.
    rewrite planned_from_lookup in Hb. by apply fmap_Some in Hb as (s & _ & ->).
  - intros Hr Hcpu.
    assert (size' = ceil_div records (cpu_count E)) as Hexact.
    { unfold automatic_size in Hauto.
      rewrite (ceil_true_div_small records (cpu_count E) Hr Hcpu) in Hauto.
      by injection Hauto. }
    split; [done|].
    rewrite planned_from_length, starts_length, Hlen.
    destruct Hr as [Hr _]. destruct Hcpu as [Hcpu _].
    pose proof (ceil_div_bounds records (cpu_count E) Hr Hcpu) as Hs.
    rewrite <- Hexact in Hs.
    assert (0 < size')%Z as Hpos by nia.
    pose proof (range_len_ceil records size' Hr Hpos) as Hn.
    pose proof (range_len_nonneg size' records size') as Hnn.
    pose proof (ceil_div_bounds records size' Hr Hpos) as Hb.
    rewrite <- Hn in Hb. split; nia.
Qed.

(** ** What the batch ingest returns *)

Section IngestReturns.

Context (E : Env) (object_name operation version : string) (ext : option string).

Lemma create_ingest_job_returns w doc w1 :
  create_ingest_job E object_name operation ext version w = (Return doc, w1) ->
  ingest_configured operation ext /\
  exists created,
    net E (history w) (create_ingest_request object_name operation ext version)
    = Responded created /\
    json created = Some doc /\
    history w1 = history w ++ [(create_ingest_request object_name operation ext version,
                                Responded created)] /\
    fs w1 = fs w.
Proof.
  unfold create_ingest_job. cbv zeta. unfold bind at 1.
  assert (forall b w0,
             (if bool_decide (operation = "upsert")
              then match ext with
                   | Some "" | None =>
                       raise (RuntimeError
                                "external Id field name must be provided when performing upsert.")
                   | Some name => ret (<["externalIdFieldName" := VStr name]>
                                         (<["object" := VStr object_name]>
                                            (<["operation" := VStr operation]> ∅)))
                   end
              else ret (<["object" := VStr object_name]>
                          (<["operation" := VStr operation]> ∅))) w = (Return b, w0) ->
             ingest_configured operation ext /\
             b = ingest_body object_name operation ext /\ w0 = w) as Hbody.
  { intros b w0. unfold ingest_body, ingest_configured.
    case_bool_decide as Hop.
    - destruct ext as [[|a name]|]; try done. intros [= <- <-].
      split; [|done]. right. by eexists.
    - intros [= <- <-]. split; [by left|done]. }
  destruct (_ w) as [[b|e] w0] eqn:Hb in |- *; [|done].
  apply Hbody in Hb as (Hconf & -> & ->). intros Hrun. split; [done|]. revert Hrun.
  unfold bind at 1. fold (create_ingest_request object_name operation ext version).
  rewrite send_eq.
  destruct (net E (history w) _) as [created|e] eqn:Hnet; [|done].
  intros Hrun. exists created. split; [done|].
  unfold bind in Hrun.
  destruct (not_ok (status_code created)).
  - unfold print_body, bind, lift in Hrun.
    destruct (Str.decode (content created)); [|done]. simpl in Hrun.
    unfold json_of in Hrun. destruct (json created); [|done].
    by injection Hrun as <- <-.
  - simpl in Hrun. unfold json_of in Hrun. destruct (json created); [|done].
    by injection Hrun as <- <-.
Qed.

Lemma load_ingest_job_data_returns job file_path w payload w' :
  load_ingest_job_data E job file_path version w = (Return payload, w') ->
  exists text uploaded finalized,
    FS.read_text (Pathlib.Path [file_path]) (fs w) = Return text /\
    net E (history w) (upload_request version job text) = Responded uploaded /\
    net E (history w ++ [(upload_request version job text, Responded uploaded)])
        (finalize_request version job uploaded) = Responded finalized /\
    (forall created,
        payload = chunk_result version
                    {| run_path := file_path; run_text := text; run_job := job;
                       run_created := created; run_uploaded := uploaded;
                       run_finalized := finalized |}) /\
    history w' = history w ++ [(upload_request version job text, Responded uploaded);
                               (finalize_request version job uploaded,
                                Responded finalized)] /\
    fs w' = fs w.
Proof.
  unfold load_ingest_job_data. unfold bind at 1.
  destruct (FS.read_text (Pathlib.Path [file_path]) (fs w)) as [text|e]; [|done].
  unfold bind at 1. fold (ingest_path version job).
  fold (upload_request version job text). rewrite send_eq.
  destruct (net E (history w) (upload_request version job text))
    as [uploaded|e] eqn:Hup; [|done].
  unfold bind at 1.
  set (w1 := advance_world w [(upload_request version job text, Responded uploaded)] []).
  assert (forall m w0,
             (if not_ok (status_code uploaded)
              then lift (Str.decode (content uploaded))
              else ret ("Batch: " +:+ file_path +:+ " loaded.")) w1 = (Return m, w0) ->
             m = (if not_ok (status_code uploaded) then content uploaded
                  else "Batch: " +:+ file_path +:+ " loaded.") /\ w0 = w1) as Hmessage.
  { intros m w0. destruct (not_ok (status_code uploaded)); [|by intros [= <- <-]].
    unfold lift, Str.decode. destruct (Str.utf8_valid _); [|done]. by intros [= <- <-]. }
  destruct (_ w1) as [[m|e] w0] eqn:Hm in |- *; [|done].
  apply Hmessage in Hm as [-> ->].
  unfold bind at 1. fold (final_state uploaded).
  fold (finalize_request version job uploaded). rewrite send_eq.
  destruct (net E (history w1) (finalize_request version job uploaded))
    as [finalized|e] eqn:Hfin; [|done].
  intros [= <- <-]. exists text, uploaded, finalized.
  split; [done|]. split; [done|]. split; [exact Hfin|].
  split; [reflexivity|]. simpl. by rewrite ?app_nil_r, <- ?app_assoc.
Qed.

Lemma ingest_chunks_return (chunks : list string) : forall w results w',
  for_each
    (fun file_path =>
       let! bulk_job := create_ingest_job E object_name operation ext version in
       let! job := dict_get bulk_job "id" in
       load_ingest_job_data E job file_path version) chunks w
  = (Return results, w') ->
  exists steps,
    results = chunk_result version <$> steps /\
    run_path <$> steps = chunks /\
    Forall (fun s => FS.read_text (Pathlib.Path [run_path s]) (fs w) = Return (run_text s) /\
                     exists d, json (run_created s) = Some (JDict d) /\
                               run_job s = default VNone (d !! "id")) steps /\
    history w' = history w ++ concat (chunk_calls object_name operation ext version <$> steps) /\
    fs w' = fs w /\
    (chunks <> [] -> ingest_configured operation ext).
Proof.
  induction chunks as [|chunk rest IH]; intros w results w'.
  - intros [= <- <-]. exists []. simpl. by rewrite app_nil_r.
  - cbn [for_each]. unfold bind at 1. unfold bind at 1.
    destruct (create_ingest_job E object_name operation ext version w)
      as [[doc|e] w1] eqn:Hcreate; [|done].
    apply create_ingest_job_returns in Hcreate
      as (Hconf & created & Hnet & Hjson & Hh1 & Hfs1).
    unfold bind at 1. destruct doc as [d|v]; [|done]. unfold dict_get, ret at 1.
    set (job := default VNone (d !! "id")).
    destruct (load_ingest_job_data E job chunk version w1)
      as [[payload|e] w2] eqn:Hload; [|done].
    apply load_ingest_job_data_returns in Hload
      as (text & uploaded & finalized & Hread & Hup & Hfin & Hpayload & Hh2 & Hfs2).
    rewrite (Hpayload created).
    unfold bind at 1.
    destruct (for_each _ rest w2) as [[others|e] w3] eqn:Hrest; [|done].
    intros [= <- <-].
    apply IH in Hrest as (steps & -> & Hpaths & Hsteps & Hh3 & Hfs3 & _).
    exists ({| run_path := chunk; run_text := text; run_job := job;
               run_created := created; run_uploaded := uploaded;
               run_finalized := finalized |} :: steps).
    split; [done|]. split; [by rewrite fmap_cons, Hpaths|].
    split; [|split; [|split; [|done]]].
    + constructor.
      * simpl. rewrite <- Hfs1. split; [done|]. by exists d.
      * eapply Forall_impl; [exact Hsteps|]. intros s. simpl.
        by rewrite Hfs2, Hfs1.
    + rewrite Hh3, Hh2, Hh1. simpl. by rewrite <- !app_assoc.
    + by rewrite Hfs3, Hfs2.
Qed.

End IngestReturns.

Lemma ingest_job_data_batches_unmade (E : Env)
      (object_name operation path_or_file pattern version : string) (batch_size : Z)
      (ext : option string) (working_directory : option (list string)) (w : World)
      e fs1 :
  let directory :=
    default (Pathlib.Path [gettempdir E; object_name]) working_directory in
  FS.mkdir true false directory (cleared directory (fs w)) = (Raise e, fs1) ->
  ingest_job_data_batches E object_name operation path_or_file pattern batch_size
                          version ext (AsPath <$> working_directory) w
  = (Raise e, with_fs w fs1).
Proof.
  intros directory Hmk. unfold ingest_job_data_batches.
  assert (match AsPath <$> working_directory with
          | Some d => d
          | None => AsPath (Pathlib.Path [gettempdir E; object_name])
          end = AsPath directory) as ->.
  { unfold directory. by destruct working_directory. }
  unfold bind at 1.
  assert ((if FS.exists_ (fs w) directory && FS.is_dir (fs w) directory
           then on_fs (fun fs => (Return (), FS.rmtree directory fs)) w
           else (Return (), w)) = (Return (), with_fs w (cleared directory (fs w)))) as ->.
  { unfold cleared, with_fs, on_fs.
    destruct (FS.exists_ (fs w) directory && FS.is_dir (fs w) directory); [done|].
    by destruct w. }
  unfold bind at 1, on_fs at 1. simpl fs. by rewrite Hmk.
Qed.

(** X13.  Whenever [ingest_job_data_batches] returns, the working
    directory was made, the chunking succeeded, and the result holds one
    record per chunk file, in chunk order; the requests of the run are, for
    each chunk in turn, the job creation, the upload of the text of the
    chunk file to the job whose id the creation response carries ([None]
    when it carries none) and the finalize request, all of them answered;
    the file system is left as the chunking left it. *)
Theorem ingest_returns_a_record_per_chunk (E : Env)
        (object_name operation path_or_file pattern version : string) (batch_size : Z)
        (ext : option string) (working_directory : option Directory) (w w' : World)
        (results : list (gmap string Value)) :
  ingest_job_data_batches E object_name operation path_or_file pattern batch_size
                          version ext working_directory w = (Return results, w') ->
  exists given fs1 task steps,
    let directory := default (Pathlib.Path [gettempdir E; object_name]) given in
    working_directory = AsPath <$> given /\
    FS.mkdir true false directory (cleared directory (fs w)) = (Return (), fs1) /\
    combine_files E path_or_file pattern directory batch_size fs1 = (Return task, fs w') /\
    task_status task = "success" /\
    results = chunk_result version <$> steps /\
    run_path <$> steps = task_payload task /\
    history w' = history w
                 ++ concat (chunk_calls object_name (Str.lower operation) ext version
                              <$> steps) /\
    Forall (fun s => FS.read_text (Pathlib.Path [run_path s]) (fs w') = Return (run_text s) /\
                     exists d, json (run_created s) = Some (JDict d) /\
                               run_job s = default VNone (d !! "id")) steps /\
    (steps <> [] -> ingest_configured (Str.lower operation) ext).
Proof.
  intros Hrun.
  assert (exists given, working_directory = AsPath <$> given) as [given ->].
  { destruct working_directory as [[s|p]|]; [done|by exists (Some p)|by exists None]. }
  exists given.
  set (directory := default (Pathlib.Path [gettempdir E; object_name]) given).
  destruct (FS.mkdir true false directory (cleared directory (fs w)))
    as [[[]|e] fs1] eqn:Hmk.
  2: { by rewrite (ingest_job_data_batches_unmade E _ _ _ _ _ _ _ _ _ e fs1) in Hrun. }
  rewrite (ingest_job_data_batches_made E _ _ _ _ _ _ _ _ _ fs1) in Hrun by done.
  fold directory in Hrun.
  destruct (combine_files E path_or_file pattern directory batch_size fs1)
    as [[task|e] fs2] eqn:Hcombine; [|done].
  case_bool_decide as Hstatus; [|done].
  apply ingest_chunks_return in Hrun as (steps & -> & Hpaths & Hsteps & Hh & Hfs & Hconf).
  simpl in Hfs, Hh, Hsteps. exists fs1, task, steps. cbv zeta. fold directory.
  rewrite Hfs. repeat (split; [done|]). intros Hne. apply Hconf.
  rewrite <- Hpaths. by destruct steps.
Qed.

(** ** The files of a plan *)

Lemma length_append (s t : string) :
  String.length (s +:+ t) = (String.length s + String.length t)%nat.
Proof.
  induction s as [|a s IH]; [done|].
  change (S (String.length (s +:+ t)) = S (String.length s + String.length t)).
  by rewrite IH.
Qed.

Lemma append_inv_tail (t : string) : forall s1 s2, s1 +:+ t = s2 +:+ t -> s1 = s2.
Proof.
  induction s1 as [|a s1 IH]; intros [|b s2] Heq.
  - done.
  - apply (f_equal String.length) in Heq.
    rewrite !length_append in Heq. simpl in Heq. lia.
  - apply (f_equal String.length) in Heq.
    rewrite !length_append in Heq. simpl in Heq. lia.
  - change (String a (s1 +:+ t) = String b (s2 +:+ t)) in Heq.
    injection Heq as -> Heq. by rewrite (IH s2 Heq).
Qed.

Lemma csv_name_number (a b : Batch) :
  job_id a = job_id b -> csv_name a = csv_name b -> batch_number a = batch_number b.
Proof.
  unfold csv_name. intros -> Heq.
  apply String.app_inj in Heq. apply (String.app_inj "_") in Heq.
  apply append_inv_tail in Heq. by apply (inj pretty) in Heq.
Qed.

(** X14.  The batches of a plan have files of their own: for a job id
    without [/], no two batches of the list that planning returns are saved
    under the same path. *)
Theorem planned_batches_have_their_own_files (E : Env) (job version path : string)
        (size : option Z) (w w' : World) (lots : list Batch) :
  Str.contains "/" job = false ->
  plan_batches E job version path size w = (Return lots, w') ->
  NoDup (csv_path <$> lots).
Proof.
  intros Hjob Hrun.
  apply plan_batches_returns in Hrun
    as (jd & d & records & o & size' & returned & datas & _ & _ & _ & _ & _ & _ & _
        & _ & _ & -> & _).
  apply NoDup_alt. intros i j p. rewrite !list_lookup_fmap, !planned_from_lookup.
  intros Hi Hj.
  apply fmap_Some in Hi as (a & Ha & ->). apply fmap_Some in Ha as (s & Hs & ->).
  apply fmap_Some in Hj as (b & Hb & Heq). apply fmap_Some in Hb as (s' & Hs' & ->).
  unfold csv_path in Heq.
  set (a := planned E job version path o _ (1 + Z.of_nat i) s) in *.
  set (b := planned E job version path o _ (1 + Z.of_nat j) s') in *.
  destruct (csv_name_parts a Hjob (Pathlib.Path [download_path a])) as [Ha _].
  destruct (csv_name_parts b Hjob (Pathlib.Path [download_path b])) as [Hb _].
  rewrite Ha, Hb in Heq. apply app_inj_tail in Heq as [_ Heq].
  apply csv_name_number in Heq; [|done]. simpl in Heq. lia.
Qed.

(** ** The batch ingest, its other endings *)

(** X15.  When the chunking reports a status other than [success], the
    batch ingest raises [RuntimeError] with the message of the chunking:
    no request has been sent, and the working directory stays as the
    chunking left it. *)
Theorem failed_chunking_sends_nothing (E : Env)
        (object_name operation path_or_file pattern version : string) (batch_size : Z)
        (ext : option string) (working_directory : option (list string)) (w : World)
        fs1 fs2 task :
  let directory :=
    default (Pathlib.Path [gettempdir E; object_name]) working_directory in
  let run := ingest_job_data_batches E object_name operation path_or_file pattern
               batch_size version ext (AsPath <$> working_directory) w in
  FS.mkdir true false directory (cleared directory (fs w)) = (Return (), fs1) ->
  combine_files E path_or_file pattern directory batch_size fs1 = (Return task, fs2) ->
  task_status task <> "success" ->
  run.1 = Raise (RuntimeError ("Combining files failed: " +:+ task_message task)) /\
  history run.2 = history w /\
  fs run.2 = fs2.
Proof.
  intros directory run Hmk Hcombine Hstatus. unfold run.
  rewrite (ingest_job_data_batches_made E _ _ _ _ _ _ _ _ _ fs1) by done.
  fold directory. rewrite Hcombine. by case_bool_decide.
Qed.

(** X16.  A working directory path that names an existing file is not
    removed: [mkdir] raises [FileExistsError], the chunking does not run,
    no request is sent and the file system is left as it was. *)
Theorem working_directory_that_is_a_file (E : Env)
        (object_name operation path_or_file pattern version : string) (batch_size : Z)
        (ext : option string) (working_directory : option (list string)) (w : World)
        (text : string) :
  let directory :=
    default (Pathlib.Path [gettempdir E; object_name]) working_directory in
  FS.node (fs w) directory = Some (File text) ->
  FS.node (fs w) (Pathlib.parent directory) = Some Dir ->
  ingest_job_data_batches E object_name operation path_or_file pattern batch_size
                          version ext (AsPath <$> working_directory) w
  = (Raise (OSError FileExists directory), w).
Proof.
  intros directory Hfile Hparent.
  assert (cleared directory (fs w) = fs w) as Hkept.
  { unfold cleared, FS.is_dir. rewrite Hfile.
    rewrite (bool_decide_eq_false_2 (Some (File text) = Some Dir)) by done.
    by rewrite andb_false_r. }
  rewrite (ingest_job_data_batches_unmade E _ _ _ _ _ _ _ _ _
             (OSError FileExists directory) (fs w)).
  - by destruct w.
  - fold directory. rewrite Hkept. unfold FS.mkdir.
    assert (forall fuel, FS.mkdir_fuel fuel true false directory (fs w)
                         = (Raise (OSError FileExists directory), fs w)) as Hfuel.
    { intros fuel. destruct fuel; simpl; unfold FS.os_mkdir;
        by rewrite Hparent, Hfile. }
    apply Hfuel.
Qed.

(** X17.  A chunk file that cannot be read stops the batch ingest after
    the job of that chunk has been created: the error of [open] leaves the
    call, and neither an upload nor a finalize request is sent for the
    job. *)
Theorem unreadable_chunk_leaves_its_job_open (E : Env)
        (object_name operation path_or_file pattern version : string) (batch_size : Z)
        (ext : option string) (working_directory : option (list string)) (w : World)
        fs1 fs2 task (chunk : string) (rest : list string) (created : Response)
        (d : gmap string Value) (e : Exn) :
  let directory :=
    default (Pathlib.Path [gettempdir E; object_name]) working_directory in
  let request := create_ingest_request object_name (Str.lower operation) ext version in
  let run := ingest_job_data_batches E object_name operation path_or_file pattern
               batch_size version ext (AsPath <$> working_directory) w in
  ingest_configured (Str.lower operation) ext ->
  FS.mkdir true false directory (cleared directory (fs w)) = (Return (), fs1) ->
  combine_files E path_or_file pattern directory batch_size fs1 = (Return task, fs2) ->
  task_status task = "success" ->
  task_payload task = chunk :: rest ->
  FS.read_text (Pathlib.Path [chunk]) fs2 = Raise e ->
  net E (history w) request = Responded created ->
  not_ok (status_code created) = false ->
  json created = Some (JDict d) ->
  run = (Raise e, advance_world (with_fs w fs2) [(request, Responded created)] []).
Proof.
  intros directory request run Hconf Hmk Hcombine Hstatus Hchunks Hread Hnet Hok Hjson.
  unfold run.
  rewrite (ingest_job_data_batches_prepared E _ _ _ _ _ _ _ _ _ fs1 fs2 task) by done.
  rewrite Hchunks. cbn [for_each]. unfold bind at 1. unfold bind at 1.
  assert (create_ingest_job E object_name (Str.lower operation) ext version (with_fs w fs2)
          = (Return (JDict d),
             advance_world (with_fs w fs2) [(request, Responded created)] [])) as ->.
  { unfold create_ingest_job. cbv zeta. unfold bind at 1.
    assert ((if bool_decide (Str.lower operation = "upsert")
             then match ext with
                  | Some "" | None =>
                      raise (RuntimeError
                               "external Id field name must be provided when performing upsert.")
                  | Some name => ret (<["externalIdFieldName" := VStr name]>
                                        (<["object" := VStr object_name]>
                                           (<["operation" := VStr (Str.lower operation)]> ∅)))
                  end
             else ret (<["object" := VStr object_name]>
                         (<["operation" := VStr (Str.lower operation)]> ∅))) (with_fs w fs2)
            = (Return (ingest_body object_name (Str.lower operation) ext), with_fs w fs2))
      as ->.
    { unfold ingest_body. case_bool_decide as Hop; [|done].
      destruct Hconf as [Hne | (name & -> & Hname)]; [done|].
      by destruct name. }
    unfold bind at 1.
    fold (create_ingest_request object_name (Str.lower operation) ext version).
    fold request. rewrite (send_answered _ _ _ created) by done.
    unfold bind, json_of. by rewrite Hok, Hjson. }
  unfold bind at 1, dict_get, ret at 1. unfold load_ingest_job_data, bind at 1.
  simpl fs. by rewrite Hread.
Qed.

(** ** The lookups *)

(** X18.  [get_job] asks for the ingest job exactly when the query-job
    lookup is answered 404: with any other status it sends one request;
    with 404 it sends the second one, and what it prints and returns is
    taken from the second response alone. *)
Theorem get_job_falls_back_to_the_ingest_job (E : Env) (job version : string)
        (w : World) (found : Response) :
  let first := (job_request job version, Responded found) in
  let second := ingest_job_request job version in
  let run := get_job E job version w in
  net E (history w) (job_request job version) = Responded found ->
  (status_code found <> 404%Z ->
   history run.2 = history w ++ [first]) /\
  (status_code found = 404%Z ->
   history run.2 = history w ++ [first; (second, net E (history w ++ [first]) second)] /\
   (forall e, net E (history w ++ [first]) second = Failed e ->
              run.1 = Raise (TransportError e)) /\
   (forall data doc,
       net E (history w ++ [first]) second = Responded data ->
       Str.utf8_valid (Str.byte_values (content data)) = true ->
       json data = Some doc ->
       run = (Return doc,
              printed w [first; (second, Responded data)]
                      (if (status_code data =? 200)%Z then []
                       else [[VStr (content data)]])))).
Proof.
  intros first second run Hnet.
  assert (run = (let! data := if (status_code found =? 404)%Z
                              then send E second else ret found in
                 (if negb (status_code data =? 200)%Z then print_body data else ret ());;
                 json_of data) (advance_world w [first] [])) as ->.
  { unfold run, get_job. fold (job_request job version).
    fold (ingest_job_request job version). fold second.
    unfold bind at 1. by rewrite (send_answered _ _ _ found). }
  split.
  - intros Hstatus. apply Z.eqb_neq in Hstatus. rewrite Hstatus.
    unfold bind at 1, ret at 1. unfold bind at 1.
    destruct (negb (status_code found =? 200)%Z).
    + unfold print_body, bind, lift. destruct (Str.decode (content found)); [|done].
      simpl. unfold json_of. by destruct (json found).
    + simpl. unfold json_of. by destruct (json found).
  - intros Hstatus. rewrite Hstatus. simpl Z.eqb. cbv iota.
    unfold bind at 1 3 5. rewrite send_eq.
    change (history (advance_world w [first] [])) with (history w ++ [first] ++ []).
    rewrite advance_world_app. cbn [app].
    split; [|split].
    + destruct (net E (history w ++ [first]) second) as [data|e]; [|done].
      unfold bind at 1.
      destruct (negb (status_code data =? 200)%Z).
      * unfold print_body, bind, lift. destruct (Str.decode (content data)); [|done].
        simpl. unfold json_of. by destruct (json data).
      * simpl. unfold json_of. by destruct (json data).
    + by intros e ->.
    + intros data doc -> Htext Hjson. unfold bind at 1.
      destruct (status_code data =? 200)%Z; simpl.
      * unfold json_of, printed, advance_world. rewrite Hjson. simpl.
        by rewrite !app_nil_r.
      * rewrite print_body_text by done. unfold json_of, printed. rewrite Hjson.
        simpl. by rewrite !app_nil_r.
Qed.

(** X19.  [get_query_data] returns the body of the response as text
    whatever its status: with a status other than 200 and 201 the body is
    printed on stderr as well, and nothing is raised. *)
Theorem get_query_data_returns_any_body (E : Env) (job locator : string)
        (max_records : Z) (version : string) (w : World) (data : Response) :
  let request := page_request job locator max_records version in
  net E (history w) request = Responded data ->
  Str.utf8_valid (Str.byte_values (content data)) = true ->
  get_query_data E job locator max_records version w
  = (Return (content data),
     printed w [(request, Responded data)]
             (if not_ok (status_code data) then [[VStr (content data)]] else [])).
Proof.
  intros request Hnet Htext. unfold get_query_data.
  fold (page_request job locator max_records version). fold request.
  unfold bind at 1. rewrite (send_answered _ _ _ data) by done.
  unfold bind at 1. destruct (not_ok (status_code data)).
  - rewrite print_body_text by done. unfold lift, Str.decode, printed. rewrite Htext.
    simpl. by rewrite !app_nil_r.
  - unfold ret, lift, Str.decode, printed, advance_world. rewrite Htext. simpl.
    by rewrite !app_nil_r.
Qed.

(** X20.  A job document whose [object] is missing or null is refused
    when the first batch is built: [Batch] raises [ValidationError] for
    its field [object], after the job lookup and before any cursor advance,
    whatever the batch size asked for.  The batch size is settled before
    that: with no size given, or 0, the failure of the division for the
    automatic size is what leaves the call instead. *)
Theorem job_without_object_is_refused (E : Env) (job version path : string)
        (size : option Z) (dry_run : bool) (w : World) (jd : Response)
        (d : gmap string Value) (records : Z) :
  net E (history w) (job_request job version) = Responded jd ->
  status_code jd = 200%Z ->
  json jd = Some (JDict d) ->
  d !! "numberRecordsProcessed" = Some (VInt records) ->
  records <> 0%Z ->
  d !! "object" = None \/ d !! "object" = Some VNone ->
  download_query_data E job version path size dry_run w
  = (match size_used E size records with
     | Return _ => Raise (ValidationError "object")
     | Raise e => Raise e
     end,
     advance_world w [(job_request job version, Responded jd)] []).
Proof.
  intros Hnet Hstatus Hjson Hrecords Hnz Hobj.
  unfold download_query_data, plan_batches. unfold bind at 1. unfold bind at 1.
  rewrite (get_query_job_answered E job version w jd (JDict d)) by done.
  unfold bind at 1, dict_get at 1, ret at 1. rewrite Hrecords.
  cbn [default from_option id].
  assert (eq_zero (VInt records) = false) as -> by (simpl; lia).
  unfold bind at 1.
  set (w1 := advance_world w [(job_request job version, Responded jd)] []).
  match goal with
  | |- context [match ?c w1 with _ => _ end] =>
      assert (c w1 = (size_used E size records, w1)) as ->
  end.
  { unfold size_used, automatic_size.
    assert ((let! n := dict_get (JDict d) "numberRecordsProcessed" in
             let! n0 := as_int n in
             let! quotient := lift (Float.true_div n0 (cpu_count E)) in
             ret (Float.ceil quotient)) w1
            = (match Float.true_div records (cpu_count E) with
               | Return quotient => Return (Float.ceil quotient)
               | Raise e => Raise e
               end, w1)) as Hauto.
    { unfold bind, dict_get, ret at 1. rewrite Hrecords. cbn [default from_option id as_int].
      unfold ret at 1, lift. by destruct (Float.true_div records (cpu_count E)). }
    destruct size as [s|]; [destruct (s =? 0)%Z|]; by rewrite ?Hauto. }
  destruct (size_used E size records) as [size'|e]; [|done].
  unfold bind at 1, dict_get at 1, ret at 1.
  unfold bind at 1, new_Batch, bind at 1.
  by destruct Hobj as [-> | ->].
Qed.

(** X8 and X14 on the plan of 25000 records in batches of 10000. *)
Lemma planned_batches_are_fresh_witness :
  let E := Sample.server_env 25000 [] in
  let run := plan_batches E "750xx" "53.0" "./data" (Some 10000%Z) (Sample.world ∅) in
  let lots := match run.1 with Return lots => lots | Raise _ => [] end in
  length lots = 3%nat /\
  lots <> [] /\
  (forall (i : nat) b, lots !! i = Some b ->
     batch_number b = (Z.of_nat i + 1)%Z /\ fresh b /\
     job_id b = "750xx" /\ api_version b = "53.0" /\ download_path b = "./data" /\
     base_path b = instance_url E /\
     (batch_start b = None <-> i = 0%nat)) /\
  (exists size' obj, size' <> 0%Z /\
     Forall (fun b => batch_size b = size' /\ object b = obj) lots).
Proof.
  intros E run lots. split; [reflexivity|].
  apply (planned_batches_are_fresh E "750xx" "53.0" "./data" (Some 10000%Z)
           (Sample.world ∅) run.2 lots).
  vm_compute. reflexivity.
Defined.

Lemma planned_batches_have_their_own_files_witness :
  let E := Sample.server_env 25000 [] in
  let run := plan_batches E "750xx" "53.0" "./data" (Some 10000%Z) (Sample.world ∅) in
  let lots := match run.1 with Return lots => lots | Raise _ => [] end in
  csv_path <$> lots = [["data"; "750xx_1.csv"]; ["data"; "750xx_2.csv"];
                       ["data"; "750xx_3.csv"]] /\
  NoDup (csv_path <$> lots).
Proof.
  intros E run lots. split; [reflexivity|].
  apply (planned_batches_have_their_own_files E "750xx" "53.0" "./data" (Some 10000%Z)
           (Sample.world ∅) run.2 lots); [reflexivity|].
  vm_compute. reflexivity.
Defined.

(** X9 on the dry run of the same job. *)
Lemma dry_run_only_plans_witness :
  let E := Sample.server_env 25000 [] in
  let w := Sample.world ∅ in
  let run := download_query_data E "750xx" "53.0" "./data" (Some 10000%Z) true w in
  let result := match run.1 with
                | Return result => result
                | Raise _ => {| completed_id := "750xx"; batches := [] |}
                end in
  length (batches result) = 3%nat /\
  completed_id result = "750xx" /\
  plan_batches E "750xx" "53.0" "./data" (Some 10000%Z) w
  = (Return (batches result), run.2) /\
  (exists jd advances,
      history run.2 = history w ++ (job_request "750xx" "53.0", Responded jd) :: advances /\
      length advances = length (batches result) /\
      Forall (fun call => method call.1 = HEAD /\
                          exists data cursor, call.2 = Responded data /\
                                              accepted data cursor)
             advances) /\
  fs run.2 = fs w /\ sleeps run.2 = sleeps w.
Proof.
  intros E w run result. split; [reflexivity|].
  apply (dry_run_only_plans E "750xx" "53.0" "./data" (Some 10000%Z) w run.2 result).
  vm_compute. reflexivity.
Defined.

(** X10 on 25000 records and 8 CPUs: 8 batches of 3125 records. *)
Lemma automatic_batch_size_witness :
  let E := Sample.server_env 25000 [] in
  let w := Sample.world ∅ in
  let run := plan_batches E "750xx" "53.0" "./data" None w in
  let lots := match run.1 with Return lots => lots | Raise _ => [] end in
  (length lots = 8%nat /\ automatic_size E 25000 = Return 3125%Z) /\
  exists jd d records size',
    net E (history w) (job_request "750xx" "53.0") = Responded jd /\
    json jd = Some (JDict d) /\
    as_int (default VNone (d !! "numberRecordsProcessed")) = ret records /\
    automatic_size E records = Return size' /\
    Forall (fun b => batch_size b = size') lots /\
    ((0 < records < 2 ^ 53)%Z -> (0 < cpu_count E < 2 ^ 53)%Z ->
     size' = ceil_div records (cpu_count E) /\
     (Z.of_nat (length lots) <= cpu_count E)%Z /\
     (records <= size' * Z.of_nat (length lots))%Z).
Proof.
  intros E w run lots. split; [split; reflexivity|].
  apply (automatic_batch_size E "750xx" "53.0" "./data" None w run.2 lots);
    [by left|]. vm_compute. reflexivity.
Defined.

(** X13 on two chunks sent to the sample server, the first with lines
    that end in CR LF: the text uploaded has them end in LF. *)
Lemma ingest_returns_a_record_per_chunk_witness :
  let files : gmap (list string) Node := {[ ["/"; "tmp"] := Dir ]} in
  let rows := "Id,Name" +:+ Sample.crlf +:+ "001,Acme" +:+ Sample.crlf in
  let E := Sample.server_env 0 [("chunk_1.csv", rows); ("chunk_2.csv", "Id,Name")] in
  let w := Sample.world files in
  let run := ingest_job_data_batches E "Account" "Insert" "in.csv" "*.csv" 100 "53.0"
               None None w in
  let results := match run.1 with Return results => results | Raise _ => [] end in
  length results = 2%nat /\
  (fun call => (method call.1, body call.1)) <$> history run.2
  = [(POST, JsonBody (ingest_body "Account" "insert" None));
     (PUT, ContentBody ("Id,Name" +:+ Sample.lf +:+ "001,Acme" +:+ Sample.lf));
     (PATCH, JsonBody {[ "state" := VStr "UploadComplete" ]});
     (POST, JsonBody (ingest_body "Account" "insert" None));
     (PUT, ContentBody "Id,Name");
     (PATCH, JsonBody {[ "state" := VStr "UploadComplete" ]})] /\
  exists given fs1 task steps,
    let directory := default (Pathlib.Path [gettempdir E; "Account"]) given in
    None = AsPath <$> given /\
    FS.mkdir true false directory (cleared directory (fs w)) = (Return (), fs1) /\
    combine_files E "in.csv" "*.csv" directory 100 fs1 = (Return task, fs run.2) /\
    task_status task = "success" /\
    results = chunk_result "53.0" <$> steps /\
    run_path <$> steps = task_payload task /\
    history run.2 = history w
                    ++ concat (chunk_calls "Account" (Str.lower "Insert") None "53.0"
                                 <$> steps) /\
    Forall (fun s => FS.read_text (Pathlib.Path [run_path s]) (fs run.2)
                     = Return (run_text s) /\
                     exists d, json (run_created s) = Some (JDict d) /\
                               run_job s = default VNone (d !! "id")) steps /\
    (steps <> [] -> ingest_configured (Str.lower "Insert") None).
Proof.
  intros files rows E w run results. split; [reflexivity|].
  split; [vm_compute; reflexivity|].
  apply (ingest_returns_a_record_per_chunk E "Account" "Insert" "in.csv" "*.csv" "53.0"
           100 None None w run.2 results).
  vm_compute. reflexivity.
Defined.

(** X15 on a chunking that finds no file. *)
Lemma failed_chunking_sends_nothing_witness :
  let files : gmap (list string) Node := {[ ["/"; "tmp"] := Dir ]} in
  let task := {| task_status := "error"; task_message := "no files found";
                 task_payload := [] |} in
  let E := {| net := Sample.server 0;
              combine_files := fun _ _ _ _ fs => (Return task, fs);
              cpu_count := 8; gettempdir := "/tmp"; getenv := fun _ => None;
              instance_url := "https://example.my.salesforce.com";
              schedule := Sample.in_order; future_address := Sample.address |} in
  let w := Sample.world files in
  let run := ingest_job_data_batches E "Account" "insert" "in.csv" "*.csv" 100 "53.0"
               None (AsPath <$> None) w in
  run.1 = Raise (RuntimeError "Combining files failed: no files found") /\
  history run.2 = [] /\
  fs run.2 = <[ ["/"; "tmp"; "Account"] := Dir ]> files.
Proof.
  intros files task E w run.
  apply (failed_chunking_sends_nothing E "Account" "insert" "in.csv" "*.csv" "53.0" 100
           None None w (<[ ["/"; "tmp"; "Account"] := Dir ]> files)
           (<[ ["/"; "tmp"; "Account"] := Dir ]> files) task);
    [vm_compute; reflexivity | reflexivity | discriminate].
Defined.

(** X16 on a file that has the name of the default working directory. *)
Lemma working_directory_that_is_a_file_witness :
  let files : gmap (list string) Node :=
    <[ ["/"; "tmp"; "Account"] := File "Id,Name" ]> {[ ["/"; "tmp"] := Dir ]} in
  let E := Sample.server_env 0 [("chunk_1.csv", "Id,Name")] in
  let w := Sample.world files in
  ingest_job_data_batches E "Account" "insert" "in.csv" "*.csv" 100 "53.0" None
                          (AsPath <$> None) w
  = (Raise (OSError FileExists ["/"; "tmp"; "Account"]), w).
Proof.
  intros files E w.
  apply (working_directory_that_is_a_file E "Account" "insert" "in.csv" "*.csv" "53.0" 100
           None None w "Id,Name"); vm_compute; reflexivity.
Defined.

(** X17 on a chunking that lists a file it has not written. *)
Lemma unreadable_chunk_leaves_its_job_open_witness :
  let files : gmap (list string) Node := {[ ["/"; "tmp"] := Dir ]} in
  let made := <[ ["/"; "tmp"; "Account"] := Dir ]> files in
  let task := {| task_status := "success"; task_message := "";
                 task_payload := ["/tmp/Account/chunk_1.csv"] |} in
  let E := {| net := Sample.server 0;
              combine_files := fun _ _ _ _ fs => (Return task, fs);
              cpu_count := 8; gettempdir := "/tmp"; getenv := fun _ => None;
              instance_url := "https://example.my.salesforce.com";
              schedule := Sample.in_order; future_address := Sample.address |} in
  let w := Sample.world files in
  let created := Sample.created_job "750yy" in
  ingest_job_data_batches E "Account" "Insert" "in.csv" "*.csv" 100 "53.0" None
                          (AsPath <$> None) w
  = (Raise (OSError FileNotFound ["/"; "tmp"; "Account"; "chunk_1.csv"]),
     advance_world (with_fs w made)
       [(create_ingest_request "Account" (Str.lower "Insert") None "53.0",
         Responded created)] []).
Proof.
  intros files made task E w created.
  apply (unreadable_chunk_leaves_its_job_open E "Account" "Insert" "in.csv" "*.csv" "53.0"
           100 None None w made made task "/tmp/Account/chunk_1.csv" [] created
           {[ "id" := VStr "750yy" ]});
    [left; discriminate | vm_compute; reflexivity | reflexivity | reflexivity
    | reflexivity | vm_compute; reflexivity | reflexivity | reflexivity | reflexivity].
Defined.

(** X18 on an ingest job: the query lookup is answered 404. *)
Lemma get_job_falls_back_to_the_ingest_job_witness :
  let missing := Sample.response 404 None "NOT_FOUND" None in
  let doc := JDict {[ "id" := VStr "750yy" ]} in
  let found := Sample.response 200 None
                 ("{" +:+ Sample.quoted "id" +:+ ":" +:+ Sample.quoted "750yy" +:+ "}")
                 (Some doc) in
  let E := Sample.env [Responded missing; Responded found] [] in
  let w := Sample.world ∅ in
  get_job E "750yy" "53.0" w
  = (Return doc,
     printed w [(job_request "750yy" "53.0", Responded missing);
                (ingest_job_request "750yy" "53.0", Responded found)] []).
Proof.
  intros missing doc found E w.
  apply (get_job_falls_back_to_the_ingest_job E "750yy" "53.0" w missing);
    reflexivity.
Defined.

(** X19 on a page request answered 500. *)
Lemma get_query_data_returns_any_body_witness :
  let data := Sample.response 500 None "UNKNOWN_EXCEPTION" None in
  let E := Sample.env [Responded data] [] in
  let w := Sample.world ∅ in
  get_query_data E "750xx" "cursor-1" 10000 "53.0" w
  = (Return "UNKNOWN_EXCEPTION",
     printed w [(page_request "750xx" "cursor-1" 10000 "53.0", Responded data)]
             [[VStr "UNKNOWN_EXCEPTION"]]).
Proof.
  intros data E w.
  apply (get_query_data_returns_any_body E "750xx" "cursor-1" 10000 "53.0" w data);
    reflexivity.
Defined.

(** X20 on a job document that has no [object], with a batch size of
    10000 and with the automatic one. *)
Lemma job_without_object_is_refused_witness :
  let d : gmap string Value := {[ "numberRecordsProcessed" := VInt 25000 ]} in
  let jd := Sample.response 200 None
              ("{" +:+ Sample.quoted "numberRecordsProcessed" +:+ ":25000}")
              (Some (JDict d)) in
  let E := Sample.env [Responded jd] [] in
  let w := Sample.world ∅ in
  let w' := advance_world w [(job_request "750xx" "53.0", Responded jd)] [] in
  download_query_data E "750xx" "53.0" "./data" (Some 10000%Z) false w
  = (Raise (ValidationError "object"), w') /\
  download_query_data E "750xx" "53.0" "./data" None false w
  = (Raise (ValidationError "object"), w').
Proof.
  intros d jd E w w'. split.
  - apply (job_without_object_is_refused E "750xx" "53.0" "./data" (Some 10000%Z) false w
             jd d 25000); [reflexivity | reflexivity | reflexivity | reflexivity | lia
                          | by left].
  - apply (job_without_object_is_refused E "750xx" "53.0" "./data" None false w
             jd d 25000); [reflexivity | reflexivity | reflexivity | reflexivity | lia
                          | by left].
Defined.

(** ** What a returned batch tells *)

Lemma write_text_returns (p : list string) (text : string) fs fs' :
  FS.write_text p text fs = (Return (), fs') -> FS.node fs' p = Some (File text).
Proof.
  unfold FS.write_text.
  destruct (FS.node fs p) as [[|old]|] eqn:Hp; [done| |];
    (destruct (FS.node fs (Pathlib.parent p)) as [[|?]|]; [|done|done]);
    intros [= <-]; destruct p as [|a [|b t]]; simpl in *; try done;
    try (by rewrite lookup_insert_eq);
    destruct (Pathlib.is_anchor a); try done; by rewrite lookup_insert_eq.
Qed.

(** X21.  What the status of a returned batch tells.  [attempt_count] is
    the number of requests sent for the batch.  COMPLETE: the last request
    was answered with status 200 or 201 and the file of the batch holds the
    body of that response.  FAILED: the file system is as it was, and
    either the last request timed out on reading and the ceiling
    [max(1, ceiling)] was reached, or it was answered with another status,
    the body of which is in the message. *)
Theorem returned_batch_tells_what_happened (E : Env) (batch : Batch) (max_attempts : Z)
        (w w' : World) (result : Batch) :
  a_get_query_data E batch max_attempts w = (Return result, w') ->
  exists calls,
    history w' = history w ++ calls /\
    attempt_count result = Z.of_nat (length calls) /\
    ((status result = "COMPLETE" /\
      exists data,
        last calls = Some (fetch_request batch, Responded data) /\
        not_ok (status_code data) = false /\
        FS.node (fs w') (csv_path batch) = Some (File (content data)))
     \/
     (status result = "FAILED" /\ fs w' = fs w /\
      ((last calls = Some (fetch_request batch, Failed ReadTimeout) /\
        length calls = Z.to_nat (Z.max 1 max_attempts))
       \/
       (exists data,
           last calls = Some (fetch_request batch, Responded data) /\
           not_ok (status_code data) = true /\
           message result
           = Some ("Error occurred while downloading job data: " +:+ content data))))).
Proof.
  unfold a_get_query_data, conclude.
  destruct (retrying_trace E (Z.to_nat (max_attempts - 1)) 1 batch w)
    as (calls & r & -> & Hlen & Hreq & _ & _ & Hlast).
  assert (exists c, last calls = Some c /\ c.1 = fetch_request batch) as (c & Hc & Hc1).
  { destruct (last calls) as [c|] eqn:Hl.
    - exists c. split; [done|]. rewrite Forall_forall in Hreq. apply Hreq.
      rewrite last_lookup in Hl. by eapply list_elem_of_lookup_2.
    - apply last_None in Hl. subst calls. simpl in Hlen. lia. }
  specialize (Hlast c Hc). destruct c as [req o]. simpl in Hc1, Hlast. subst req.
  destruct r as [data|e].
  - assert (o = Responded data) as ->.
    { destruct o as [data'|[|name]]; [by simplify_eq|by destruct Hlast|done]. }
    destruct (not_ok (status_code data)) eqn:Hok.
    + unfold bind, lift, ret, Str.decode.
      destruct (Str.utf8_valid _); [|done]. intros [= <- <-].
      exists calls. split; [done|]. split; [simpl; lia|]. right.
      split; [done|]. split; [done|]. right. by exists data.
    + rewrite !csv_name_set_attempt_count, !download_path_set_attempt_count.
      fold (csv_path batch).
      unfold bind, on_fs, lift, ret, FS.open_w, Str.decode. simpl fs.
      destruct (FS.mkdir _ _ _ _) as [[[]|e] fs1]; [|done]. simpl.
      destruct (FS.write_text (csv_path batch) "" fs1) as [[[]|e] fs2]; [|done]. simpl.
      destruct (Str.utf8_valid _); [|done]. simpl.
      destruct (FS.write_text (csv_path batch) (content data) fs2)
        as [[[]|e] fs3] eqn:Hwrite; [|done].
      intros [= <- <-]. exists calls. split; [done|]. split; [simpl; lia|]. left.
      split; [done|]. exists data. split; [done|]. split; [done|].
      by apply write_text_returns in Hwrite.
  - destruct e; try done. intros [= <- <-].
    exists calls. split; [done|]. split; [simpl; lia|]. right.
    split; [done|]. split; [done|]. left.
    destruct o as [data'|[|name]]; [done| |done].
    destruct Hlast as [Hl _]. split; [done|]. lia.
Qed.

(** X21 on a batch answered at its second attempt. *)
Lemma returned_batch_tells_what_happened_witness :
  let data := Sample.response 200 None "Id,Name" None in
  let E := Sample.env [Failed ReadTimeout; Responded data] [] in
  let batch := Sample.batch 1 None in
  let w := Sample.world ∅ in
  let run := a_get_query_data E batch 20 w in
  let result := match run.1 with Return result => result | Raise _ => batch end in
  status result = "COMPLETE" /\
  exists calls,
    history run.2 = history w ++ calls /\
    attempt_count result = Z.of_nat (length calls) /\
    ((status result = "COMPLETE" /\
      exists data,
        last calls = Some (fetch_request batch, Responded data) /\
        not_ok (status_code data) = false /\
        FS.node (fs run.2) (csv_path batch) = Some (File (content data)))
     \/
     (status result = "FAILED" /\ fs run.2 = fs w /\
      ((last calls = Some (fetch_request batch, Failed ReadTimeout) /\
        length calls = Z.to_nat (Z.max 1 20))
       \/
       (exists data,
           last calls = Some (fetch_request batch, Responded data) /\
           not_ok (status_code data) = true /\
           message result
           = Some ("Error occurred while downloading job data: " +:+ content data))))).
Proof.
  intros data E batch w run result. split; [reflexivity|].
  apply (returned_batch_tells_what_happened E batch 20 w run.2 result).
  vm_compute. reflexivity.
Defined.

(** ** The whole download *)

(** X22.  A download that is no dry run and returns has first planned,
    then fetched: the plan was complete before the first page was asked
    for, every later request is the page fetch of a planned batch, and the
    result carries the job id and, for each planned batch in the order of
    the plan, that batch as its download returned it. *)
Theorem download_plans_then_fetches (E : Env) (job version path : string)
        (size : option Z) (w w' : World) (result : CompletedJob) :
  download_query_data E job version path size false w = (Return result, w') ->
  completed_id result = job /\
  exists lots w1 max_attempts fetches,
    plan_batches E job version path size w = (Return lots, w1) /\
    default_max_attempts E = Return max_attempts /\
    Forall2 (downloaded max_attempts) lots (batches result) /\
    history w' = history w1 ++ fetches /\
    Forall (fun c => exists batch, batch ∈ lots /\ c.1 = fetch_request batch) fetches.
Proof.
  unfold download_query_data. unfold bind at 1.
  destruct (plan_batches E job version path size w) as [[lots|e] w1] eqn:Hplan; [|done].
  unfold bind at 1.
  destruct (pull_batches E lots w1) as [[pulled|e] w2] eqn:Hpull; [|done].
  intros [= <- <-]. split; [done|].
  apply pull_batches_returns in Hpull
    as (max_attempts & fetches & Hdef & Hh & Hfetches & Hall).
  exists lots, w1, max_attempts, fetches. repeat (split; [done|]).
  split; [|done]. eapply Forall2_impl; [exact Hall|]. by intros planned pulled' [H _].
Qed.

(** X22 on the job of 25000 records, every page answered. *)
Lemma download_plans_then_fetches_witness :
  let E := Sample.server_env 25000 [] in
  let w := Sample.world ∅ in
  let run := download_query_data E "750xx" "53.0" "./data" (Some 10000%Z) false w in
  let result := match run.1 with
                | Return result => result
                | Raise _ => {| completed_id := "750xx"; batches := [] |}
                end in
  (status <$> batches result = ["COMPLETE"; "COMPLETE"; "COMPLETE"]) /\
  completed_id result = "750xx" /\
  exists lots w1 max_attempts fetches,
    plan_batches E "750xx" "53.0" "./data" (Some 10000%Z) w = (Return lots, w1) /\
    default_max_attempts E = Return max_attempts /\
    Forall2 (downloaded max_attempts) lots (batches result) /\
    history run.2 = history w1 ++ fetches /\
    Forall (fun c => exists batch, batch ∈ lots /\ c.1 = fetch_request batch) fetches.
Proof.
  intros E w run result. split; [reflexivity|].
  apply (download_plans_then_fetches E "750xx" "53.0" "./data" (Some 10000%Z) w run.2
           result).
  vm_compute. reflexivity.
Defined.

(** ** The body of the job creation *)

(** X23.  When [create_ingest_job] returns it has sent one request, a
    POST whose JSON body holds the object and the operation as given, and
    the external-id field exactly when the operation is the text
    [upsert]: a name given with any other operation, [Upsert] in capitals
    included, is not sent and not checked. *)
Theorem external_id_is_sent_for_upsert_only (E : Env)
        (object_name operation version : string) (ext : option string)
        (w w' : World) (doc : Json) :
  create_ingest_job E object_name operation ext version w = (Return doc, w') ->
  exists created fields,
    history w' = history w
                 ++ [({| method := POST;
                         url := "services/data/v" +:+ version +:+ "/jobs/ingest";
                         params := ∅; body := JsonBody fields |}, Responded created)] /\
    json created = Some doc /\
    fields !! "object" = Some (VStr object_name) /\
    fields !! "operation" = Some (VStr operation) /\
    (operation = "upsert" ->
     exists name, ext = Some name /\ name <> "" /\
                  fields !! "externalIdFieldName" = Some (VStr name)) /\
    (operation <> "upsert" -> fields !! "externalIdFieldName" = None).
Proof.
  intros Hrun.
  apply create_ingest_job_returns in Hrun as (Hconf & created & _ & Hjson & Hh & _).
  exists created, (ingest_body object_name operation ext).
  split; [exact Hh|]. split; [done|]. unfold ingest_body.
  case_bool_decide as Hop.
  - destruct Hconf as [Hne | (name & -> & Hname)]; [done|].
    split; [by simplify_map_eq|]. split; [by simplify_map_eq|].
    split; [|done]. intros _. exists name. split; [done|]. split; [done|].
    by simplify_map_eq.
  - split; [by simplify_map_eq|]. split; [by simplify_map_eq|].
    split; [done|]. intros _. by simplify_map_eq.
Qed.

(** X23 on an operation written in capitals. *)
Lemma external_id_is_sent_for_upsert_only_witness :
  let E := Sample.server_env 0 [] in
  let w := Sample.world ∅ in
  let run := create_ingest_job E "Account" "Upsert" (Some "External_Id__c") "53.0" w in
  exists created fields,
    history run.2 = history w
                    ++ [({| method := POST; url := "services/data/v53.0/jobs/ingest";
                            params := ∅; body := JsonBody fields |}, Responded created)] /\
    json created = Some (JDict {[ "id" := VStr "750yy" ]}) /\
    fields !! "object" = Some (VStr "Account") /\
    fields !! "operation" = Some (VStr "Upsert") /\
    ("Upsert" = "upsert" ->
     exists name, Some "External_Id__c" = Some name /\ name <> "" /\
                  fields !! "externalIdFieldName" = Some (VStr name)) /\
    ("Upsert" <> "upsert" -> fields !! "externalIdFieldName" = None).
Proof.
  intros E w run.
  apply (external_id_is_sent_for_upsert_only E "Account" "Upsert" "53.0"
           (Some "External_Id__c") w run.2 (JDict {[ "id" := VStr "750yy" ]})).
  vm_compute. reflexivity.
Defined.

(** ** A batch size below zero *)

(** X24.  A negative batch size is not refused: for a positive record
    count the loop over [range(size, records, size)] does not run, so
    planning, when it returns, returns a single batch, which carries the
    negative size, after one cursor advance that asked for that number of
    records. *)
Theorem negative_batch_size_plans_one_batch (E : Env) (job version path : string)
        (s : Z) (w w' : World) (lots : list Batch) (jd : Response)
        (d : gmap string Value) (records : Z) :
  (s < 0)%Z ->
  net E (history w) (job_request job version) = Responded jd ->
  json jd = Some (JDict d) ->
  d !! "numberRecordsProcessed" = Some (VInt records) ->
  (0 < records)%Z ->
  plan_batches E job version path (Some s) w = (Return lots, w') ->
  exists first data,
    lots = [first] /\ batch_size first = s /\ batch_number first = 1%Z /\
    batch_start first = None /\
    history w' = history w ++ [(job_request job version, Responded jd);
                               (locator_request job s None version, Responded data)].
Proof.
  intros Hs Hnet Hjson Hrecords Hpos Hrun.
  apply plan_batches_returns in Hrun
    as (jd' & d' & records' & o & size' & returned & datas & Hnet' & Hjson' & Hrec & _ & _
        & Hused & _ & Hlen & Hall & -> & Hh & _).
  rewrite Hnet in Hnet'. injection Hnet' as <-.
  rewrite Hjson in Hjson'. injection Hjson' as <-.
  rewrite Hrecords in Hrec. cbn [default from_option id as_int] in Hrec.
  apply (f_equal (fun f => f w)) in Hrec. injection Hrec as <-.
  assert (size' = s) as ->.
  { unfold size_used in Hused. destruct (Z.eqb_spec s 0); [lia|]. by injection Hused. }
  assert (range_len s records s = 0%Z) as Hnone.
  { unfold range_len.
    destruct (Z.ltb_spec 0 s); [lia|]. destruct (Z.ltb_spec s 0); [|lia].
    destruct (Z.ltb_spec records s); [lia|done]. }
  rewrite Hnone in Hlen. simpl in Hlen.
  destruct returned as [|c [|c' returned]]; [done| |done].
  apply Forall2_length in Hall as Hdatas.
  destruct datas as [|data [|data' datas]]; [done| |done].
  eexists _, data. split; [reflexivity|]. simpl. repeat (split; [done|]). exact Hh.
Qed.

(** X24 on a batch size of -10000. *)
Lemma negative_batch_size_plans_one_batch_witness :
  let E := Sample.server_env 25000 [] in
  let w := Sample.world ∅ in
  let run := plan_batches E "750xx" "53.0" "./data" (Some (-10000)%Z) w in
  let lots := match run.1 with Return lots => lots | Raise _ => [] end in
  exists first data,
    lots = [first] /\ batch_size first = (-10000)%Z /\ batch_number first = 1%Z /\
    batch_start first = None /\
    history run.2
    = history w ++ [(job_request "750xx" "53.0",
                     Responded (Sample.job_document 25000));
                    (locator_request "750xx" (-10000) None "53.0", Responded data)].
Proof.
  intros E w run lots.
  apply (negative_batch_size_plans_one_batch E "750xx" "53.0" "./data" (-10000) w run.2
           lots _ (<["numberRecordsProcessed" := VInt 25000]>
                     {[ "object" := VStr "Account" ]}) 25000);
    [lia | reflexivity | reflexivity | reflexivity | lia | vm_compute; reflexivity].
Defined.
